(** * The streaming response pipeline of the chat backend

    A shallow embedding of
      - [SSEService.format_sse] and [SSEService.stream_error]
        (src/services/streaming_service.py),
      - [ChatService.add_message] (src/services/chat_service.py),
      - the coordinator generator [stream_chat_response] and its synchronous
        wrapper [stream_chat_response_sync] (src/api/blueprints/chat.py),
    together with the properties of the event stream they produce.

    Conventions.  A Python [str] is a [string]; each character stands for the
    code point of the same number (code points below 256).  A Python call
    that may raise returns a [Res]: [Ret v] for a normal return, [Raise e] for
    an exception of class [Exception].  Generators are state machines whose
    states are the suspension points of the Python body.  The interpreter is
    CPython 3.11 with its default limits: [int.__repr__] refuses an integer
    of more than 4300 digits, and the recursion limit leaves to a call a
    number of levels, its [room], which the JSON encoder uses up as it goes
    down the object it is given.  Objects are finite trees: none contains
    itself. *)

From Stdlib Require Import String Ascii List ZArith Bool Lia.
From Stdlib Require Import Decimal DecimalString.
Import ListNotations.
Open Scope string_scope.

(** ** Exceptions and results *)

Record PyExc := mkExc { exc_class : string; exc_str : string }.

Definition TypeError (msg : string) : PyExc := mkExc "TypeError" msg.
Definition ValueError (msg : string) : PyExc := mkExc "ValueError" msg.
Definition RecursionError (msg : string) : PyExc := mkExc "RecursionError" msg.

Inductive Res (A : Type) : Type :=
| Ret (a : A)
| Raise (e : PyExc).
Arguments Ret {A} a.
Arguments Raise {A} e.

Definition bind {A B : Type} (r : Res A) (k : A -> Res B) : Res B :=
  match r with
  | Ret a => k a
  | Raise e => Raise e
  end.

Notation "x <- r ;; k" := (bind r (fun x => k))
  (at level 61, r at next level, right associativity).

(** ** Characters and strings *)

Definition LF : ascii := "010"%char.
Definition DQUOTE : ascii := "034"%char.
Definition BACKSLASH : ascii := "092"%char.

Definition nl : string := String LF "".
Definition dq : string := String DQUOTE "".

(** The characters in the range [' '..'~']. *)
Definition printable (c : ascii) : bool :=
  (32 <=? nat_of_ascii c)%nat && (nat_of_ascii c <=? 126)%nat.

Fixpoint str_forall (p : ascii -> bool) (s : string) : bool :=
  match s with
  | EmptyString => true
  | String c r => p c && str_forall p r
  end.

Definition not_newline (c : ascii) : bool := negb (Ascii.eqb c LF).

(** A string with no line feed in it. *)
Definition single_line (s : string) : bool := str_forall not_newline s.

Fixpoint last_char (s : string) : option ascii :=
  match s with
  | EmptyString => None
  | String c EmptyString => Some c
  | String _ r => last_char r
  end.

Definition first_char (s : string) : option ascii :=
  match s with
  | EmptyString => None
  | String c _ => Some c
  end.

(** ** Python values that reach [json.dumps] *)

(** A [float], kept as [repr] writes it: not a number, an infinity, a zero,
    or a sign with the digits of the shortest decimal that reads back as the
    float, taken as one number without zeros at its end, and the place of
    the point counted from the left of these digits: 1.5 has the digits 15
    and the point at 1, 0.015 the digits 15 and the point at -1, 1e22 the
    digit 1 and the point at 23. *)
Inductive PyFloat : Type :=
| FNan
| FInf (negative : bool)
| FZero (negative : bool)
| FDec (negative : bool) (digits : positive) (point : Z).

#[warnings="-register-all"]
Inductive PyVal : Type :=
| PNone
| PBool (b : bool)
| PInt (z : Z)
| PFloat (f : PyFloat)
| PStr (s : string)
| PBytes (s : string)
| PList (l : list PyVal)
| PTuple (l : list PyVal)
| PDict (items : list (PyVal * PyVal)).

Definition type_name (v : PyVal) : string :=
  match v with
  | PNone => "NoneType"
  | PBool _ => "bool"
  | PInt _ => "int"
  | PFloat _ => "float"
  | PStr _ => "str"
  | PBytes _ => "bytes"
  | PList _ => "list"
  | PTuple _ => "tuple"
  | PDict _ => "dict"
  end.

(** Truth value of a Python object, as [or] and [if] test it. *)
Definition truthy (v : PyVal) : bool :=
  match v with
  | PNone => false
  | PBool b => b
  | PInt z => negb (z =? 0)%Z
  | PFloat (FZero _) => false
  | PFloat _ => true
  | PStr s | PBytes s => negb (s =? "")
  | PList l | PTuple l => negb (Nat.eqb (length l) 0)
  | PDict d => negb (Nat.eqb (length d) 0)
  end.

Definition py_or (a b : PyVal) : PyVal := if truthy a then a else b.

Definition is_str (v : PyVal) : bool :=
  match v with PStr _ => true | _ => false end.

Fixpoint dict_items_get (items : list (PyVal * PyVal)) (k : string) : option PyVal :=
  match items with
  | [] => None
  | (PStr k', v) :: r => if k' =? k then Some v else dict_items_get r k
  | _ :: r => dict_items_get r k
  end.

(** [d.get(k)] for a string key. *)
Definition dict_get (d : PyVal) (k : string) : option PyVal :=
  match d with
  | PDict items => dict_items_get items k
  | _ => None
  end.

(** ** [json.dumps] with its default arguments

    [ensure_ascii=True], [allow_nan=True], separators [", "] and [": "], no
    indentation, no [default] hook: an object outside the JSON types raises
    [TypeError]. *)

Definition hex_digit (n : nat) : ascii :=
  ascii_of_nat (if (n <? 10)%nat then 48 + n else 87 + n).

(** ['\\u{0:04x}'.format(n)] for a code point below 256. *)
Definition u_escape (c : ascii) : string :=
  let n := nat_of_ascii c in
  String BACKSLASH
    (String "u" (String "0" (String "0"
      (String (hex_digit (n / 16)) (String (hex_digit (n mod 16)) ""))))).

(** One character under [ESCAPE_ASCII] and [ESCAPE_DCT]. *)
Definition escape_char (c : ascii) : string :=
  if Ascii.eqb c BACKSLASH then String BACKSLASH (String BACKSLASH "")
  else if Ascii.eqb c DQUOTE then String BACKSLASH dq
  else if Ascii.eqb c "008"%char then String BACKSLASH "b"
  else if Ascii.eqb c "012"%char then String BACKSLASH "f"
  else if Ascii.eqb c LF then String BACKSLASH "n"
  else if Ascii.eqb c "013"%char then String BACKSLASH "r"
  else if Ascii.eqb c "009"%char then String BACKSLASH "t"
  else if printable c then String c ""
  else u_escape c.

Fixpoint escape_body (s : string) : string :=
  match s with
  | EmptyString => ""
  | String c r => escape_char c ++ escape_body r
  end.

Definition encode_basestring_ascii (s : string) : string :=
  dq ++ escape_body s ++ dq.

(** The decimal digits of an integer, with its sign. *)
Definition int_repr (z : Z) : string := NilZero.string_of_int (Z.to_int z).

(** [sys.get_int_max_str_digits()]. *)
Definition int_max_str_digits : nat := 4300.

Definition int_fits (z : Z) : bool :=
  (String.length (int_repr (Z.abs z)) <=? int_max_str_digits)%nat.

(** [int.__repr__] as the encoder calls it: an integer of more digits than
    the limit is refused. *)
Definition int_str (z : Z) : Res string :=
  if int_fits z then Ret (int_repr z)
  else Raise (ValueError
                ("Exceeds the limit (4300 digits) for integer string conversion; "
                 ++ "use sys.set_int_max_str_digits() to increase the limit")).

Fixpoint zeros (n : nat) : string :=
  match n with
  | O => ""
  | S k => String "0" (zeros k)
  end.

(** The exponent of a float: a sign and two digits at least. *)
Definition exponent_text (e : Z) : string :=
  (if (e <? 0)%Z then "-" else "+")
  ++ (if (Z.abs e <? 10)%Z then "0" else "") ++ int_repr (Z.abs e).

(** [float.__repr__]: the digits with the point in its place when it lies
    in or next to them (at most three zeros before them, at most sixteen
    digits before the point), else the first digit, the others after a
    point, and the exponent. *)
Definition float_repr (f : PyFloat) : string :=
  match f with
  | FNan => "nan"
  | FInf negative => if negative then "-inf" else "inf"
  | FZero negative => if negative then "-0.0" else "0.0"
  | FDec negative digits point =>
      let ds := int_repr (Zpos digits) in
      let n := String.length ds in
      (if negative then "-" else "")
      ++ (if ((point <=? -4) || (16 <? point))%Z then
            substring 0 1 ds
            ++ (if (1 <? n)%nat then "." ++ substring 1 (n - 1) ds else "")
            ++ "e" ++ exponent_text (point - 1)
          else if (point <=? 0)%Z then
            "0." ++ zeros (Z.to_nat (- point)) ++ ds
          else if (Z.of_nat n <=? point)%Z then
            ds ++ zeros (Z.to_nat point - n) ++ ".0"
          else
            substring 0 (Z.to_nat point) ds ++ "."
            ++ substring (Z.to_nat point) (n - Z.to_nat point) ds)
  end.

(** A float as the encoder writes it. *)
Definition float_json (f : PyFloat) : string :=
  match f with
  | FNan => "NaN"
  | FInf negative => if negative then "-Infinity" else "Infinity"
  | _ => float_repr f
  end.

(** A dictionary key as the encoder writes it. *)
Definition json_key (k : PyVal) : Res string :=
  match k with
  | PStr s => Ret s
  | PNone => Ret "null"
  | PBool b => Ret (if b then "true" else "false")
  | PInt z => int_str z
  | PFloat f => Ret (float_json f)
  | _ => Raise (TypeError ("keys must be str, int, float, bool or None, not "
                           ++ type_name k))
  end.

(** [JSONEncoder.default(o)], which the encoder calls on an object of any
    other type: a Python call, which takes two levels of the recursion
    limit, and which raises [TypeError]. *)
Definition json_default (o : PyVal) (room : nat) : Res string :=
  match room with
  | 0 => Raise (RecursionError "maximum recursion depth exceeded")
  | 1 => Raise (RecursionError
                  "maximum recursion depth exceeded while calling a Python object")
  | _ => Raise (TypeError ("Object of type " ++ type_name o
                           ++ " is not JSON serializable"))
  end.

Definition too_deep : PyExc :=
  RecursionError "maximum recursion depth exceeded while encoding a JSON object".

(** [json.dumps(o)], called with [room] levels of the recursion limit left:
    every list, tuple and dictionary takes one level while it is encoded. *)
Fixpoint json_dumps (o : PyVal) (room : nat) {struct o} : Res string :=
  match o with
  | PNone => Ret "null"
  | PBool b => Ret (if b then "true" else "false")
  | PInt z => int_str z
  | PFloat f => Ret (float_json f)
  | PStr s => Ret (encode_basestring_ascii s)
  | PBytes _ => json_default o room
  | PList l | PTuple l =>
      match room with
      | O => Raise too_deep
      | S room' =>
          parts <- (fix elems (l : list PyVal) : Res (list string) :=
                      match l with
                      | [] => Ret []
                      | x :: r =>
                          sx <- json_dumps x room' ;;
                          sr <- elems r ;;
                          Ret (sx :: sr)
                      end) l ;;
          Ret ("[" ++ String.concat ", " parts ++ "]")
      end
  | PDict items =>
      match room with
      | O => Raise too_deep
      | S room' =>
          parts <- (fix pairs (l : list (PyVal * PyVal)) : Res (list string) :=
                      match l with
                      | [] => Ret []
                      | (k, v) :: r =>
                          sk <- json_key k ;;
                          sv <- json_dumps v room' ;;
                          sr <- pairs r ;;
                          Ret ((encode_basestring_ascii sk ++ ": " ++ sv) :: sr)
                      end) items ;;
          Ret ("{" ++ String.concat ", " parts ++ "}")
      end
  end.

(** The objects made of the types [json.dumps] accepts. *)
Fixpoint serializable (o : PyVal) : bool :=
  match o with
  | PNone | PBool _ | PInt _ | PFloat _ | PStr _ => true
  | PBytes _ => false
  | PList l | PTuple l => forallb serializable l
  | PDict items =>
      forallb (fun kv =>
                 match fst kv with
                 | PNone | PBool _ | PInt _ | PFloat _ | PStr _ => serializable (snd kv)
                 | _ => false
                 end) items
  end.

(** Every integer of the object, key or value, has at most 4300 digits. *)
Fixpoint ints_fit (o : PyVal) : bool :=
  match o with
  | PInt z => int_fits z
  | PList l | PTuple l => forallb ints_fit l
  | PDict items =>
      forallb (fun kv =>
                 match fst kv with
                 | PInt z => int_fits z
                 | _ => true
                 end && ints_fit (snd kv)) items
  | _ => true
  end.

(** The number of lists, tuples and dictionaries inside one another, the
    object itself counted. *)
Fixpoint nesting (o : PyVal) : nat :=
  match o with
  | PList l | PTuple l => S (fold_right (fun x m => Nat.max (nesting x) m) 0 l)
  | PDict items => S (fold_right (fun kv m => Nat.max (nesting (snd kv)) m) 0 items)
  | _ => 0
  end.

(** ** SSEService *)

Module SSEService.

(** [format_sse(data, event)]:
    [lines = [f"event: {event}", f"data: {json.dumps(data)}", ""]];
    [return "\n".join(lines) + "\n"], with [room] levels of the recursion
    limit left to [json.dumps]. *)
Definition format_sse (data : PyVal) (event : string) (room : nat) : Res string :=
  js <- json_dumps data room ;;
  let lines := ["event: " ++ event; "data: " ++ js; ""] in
  Ret (String.concat nl lines ++ nl).

Definition error_payload (error_message error_code : string) : PyVal :=
  PDict [ (PStr "type", PStr "error");
          (PStr "error", PStr error_message);
          (PStr "code", PStr error_code) ].

(** [stream_error(error_message, error_code="internal_error")]. *)
Definition stream_error (error_message error_code : string) (room : nat) : Res string :=
  format_sse (error_payload error_message error_code) "error" room.

Definition default_error_code : string := "internal_error".

End SSEService.

(** ** The database session and [ChatService.add_message] *)

Record Message := mkMessage {
  msg_id : string;
  msg_chat_id : string;
  msg_role : string;
  msg_parts : PyVal;
  msg_attachments : PyVal;
  msg_created_at : Z
}.

Record Chat := mkChat {
  chat_id : string;
  chat_updated_at : Z
}.

(** A SQLAlchemy session: the objects added and not yet committed, the
    committed message rows, the chats, and whether [close()] was called. *)
Record Session := mkSession {
  db_pending : list Message;
  db_rows : list Message;
  db_chats : list Chat;
  db_closed : bool
}.

(** What the surroundings decide for one request: the two [uuid4()] results,
    the two [datetime.utcnow()] readings of [add_message], and the exception
    [db.commit()] raises, if it raises. *)
Record Env := mkEnv {
  env_message_id : string;
  env_row_id : string;
  env_created_at : Z;
  env_touched_at : Z;
  env_commit : option PyExc
}.

Module ChatService.

(** [chat = db.query(Chat).filter(Chat.id == chat_id).first()];
    [if chat: chat.updated_at = datetime.utcnow()]. *)
Fixpoint touch_first (chats : list Chat) (cid : string) (now : Z) : list Chat :=
  match chats with
  | [] => []
  | c :: r =>
      if chat_id c =? cid then mkChat (chat_id c) now :: r
      else c :: touch_first r cid now
  end.

(** [db.commit()]: flushes the pending objects, or raises and leaves
    the rows as they were. *)
Definition commit (env : Env) (db : Session) : Res unit * Session :=
  match env_commit env with
  | Some e => (Raise e, db)
  | None =>
      (Ret tt, mkSession [] (db_rows db ++ db_pending db) (db_chats db) (db_closed db))
  end.

Definition add_message (env : Env) (db : Session) (cid role : string)
    (parts attachments : PyVal) : Res Message * Session :=
  let message :=
    mkMessage (env_row_id env) cid role parts (py_or attachments (PList []))
              (env_created_at env) in
  let db1 := mkSession (db_pending db ++ [message]) (db_rows db)
                       (touch_first (db_chats db) cid (env_touched_at env))
                       (db_closed db) in
  match commit env db1 with
  | (Raise e, db2) => (Raise e, db2)
  | (Ret _, db2) => (Ret message, db2)
  end.

End ChatService.

(** The state outside the generators: the session handed to the request and
    the record of the calls made to the persistence sink, each with the
    arguments it received. *)
Record SinkCall := mkSinkCall {
  call_chat_id : string;
  call_role : string;
  call_parts : PyVal;
  call_attachments : PyVal
}.

Record World := mkWorld {
  db : Session;
  sink_calls : list SinkCall
}.

Definition close_db (w : World) : World :=
  mkWorld (mkSession (db_pending (db w)) (db_rows (db w)) (db_chats (db w)) true)
          (sink_calls w).

(** ** The generation source

    [llm_service.stream_chat(...)] as an iterator: the fragments still to
    come, how the sequence ends (exhaustion, or the exception it raises), and
    whether it has ended. *)
Record Source := mkSource {
  src_pending : list string;
  src_failure : option PyExc;
  src_ended : bool
}.

Inductive Pulled : Type :=
| Token (t : string)
| Exhausted
| Failed (e : PyExc).

(** The iterator finalised: it delivers nothing more. *)
Definition src_close (s : Source) : Source := mkSource [] (src_failure s) true.

Definition src_next (s : Source) : Pulled * Source :=
  if src_ended s then (Exhausted, s)
  else match src_pending s with
       | t :: r => (Token t, mkSource r (src_failure s) false)
       | [] =>
           match src_failure s with
           | None => (Exhausted, mkSource [] None true)
           | Some e => (Failed e, mkSource [] (Some e) true)
           end
       end.

Module LLMService.

(** [stream_chat]: [for chunk in llm.stream(prompt): if chunk: yield chunk],
    over the chunks the model delivers and the way its stream ends. *)
Definition stream_chat (chunks : list string) (failure : option PyExc) : Source :=
  mkSource (filter (fun chunk => negb (chunk =? "")) chunks) failure false.

End LLMService.

(** ** Wire units and pulls

    A unit is what one [yield] hands over: the string [format_sse] returned,
    kept together with the two arguments of that [format_sse] call, so that
    the event behind a frame can be named. *)
Record Chunk := mkChunk {
  payload : PyVal;
  channel : string;
  wire : string
}.

(** The result of advancing a generator once. *)
Inductive Pull : Type :=
| Yielded (c : Chunk)
| Stop
| Raised (e : PyExc).

(** The generators call [format_sse] on dictionaries of strings, which take
    one level of the recursion limit; like every call of theirs, these find
    the room they need. *)
Definition own_room : nat := 1.

Definition emit (data : PyVal) (event : string) : Res Chunk :=
  w <- SSEService.format_sse data event own_room ;;
  Ret (mkChunk data event w).

Definition emit_error (error_message : string) : Res Chunk :=
  w <- SSEService.stream_error error_message SSEService.default_error_code own_room ;;
  Ret (mkChunk (SSEService.error_payload error_message SSEService.default_error_code)
               "error" w).

(** ** The stream coordinator: [stream_chat_response] *)

Definition start_payload (message_id cid : string) : PyVal :=
  PDict [ (PStr "type", PStr "message-start");
          (PStr "id", PStr message_id);
          (PStr "chat_id", PStr cid) ].

Definition delta_payload (token : string) : PyVal :=
  PDict [ (PStr "type", PStr "text-delta"); (PStr "content", PStr token) ].

Definition finish_payload (message_id : string) : PyVal :=
  PDict [ (PStr "type", PStr "message-finish"); (PStr "id", PStr message_id) ].

Definition text_parts (full_response : string) : PyVal :=
  PList [ PDict [ (PStr "type", PStr "text"); (PStr "text", PStr full_response) ] ].

(** Where the body of the coordinator is suspended. *)
Inductive CoordPC : Type :=
| C_Entry        (* created, body not started *)
| C_YieldStart   (* at the yield of message-start *)
| C_YieldDelta   (* at the yield of a text-delta, inside the loop *)
| C_YieldFinish  (* at the yield of message-finish *)
| C_YieldError   (* at the yield of the except clause *)
| C_Closed.      (* the body has returned or raised *)

Record Coord := mkCoord {
  c_pc : CoordPC;
  c_chat_id : string;
  c_message_id : string;
  c_tokens : Source;
  c_full_response : string
}.

Definition at_pc (pc : CoordPC) (g : Coord) : Coord :=
  mkCoord pc (c_chat_id g) (c_message_id g) (c_tokens g) (c_full_response g).

(** The generator object a call of [stream_chat_response] returns:
    [assistant_message_id = str(uuid4())], [full_response = ""]. *)
Definition stream_chat_response (env : Env) (cid : string) (tokens : Source) : Coord :=
  mkCoord C_Entry cid (env_message_id env) tokens "".

(** [except Exception as e: yield SSEService.stream_error(str(e))], and
    [finally: db.close()] if that call raises in turn. *)
Definition on_exception (e : PyExc) (g : Coord) (w : World) : Pull * Coord * World :=
  match emit_error (exc_str e) with
  | Ret c => (Yielded c, at_pc C_YieldError g, w)
  | Raise e' => (Raised e', at_pc C_Closed g, close_db w)
  end.

(** [ChatService.add_message(db, chat_id, role="assistant",
      parts=[{"type": "text", "text": full_response}], attachments=[])]. *)
Definition save_assistant_message (env : Env) (cid full_response : string) (w : World)
    : Res Message * World :=
  let parts := text_parts full_response in
  let call := mkSinkCall cid "assistant" parts (PList []) in
  let '(r, db') := ChatService.add_message env (db w) cid "assistant" parts (PList []) in
  (r, mkWorld db' (sink_calls w ++ [call])).

(** One turn of [async for token in llm_service.stream_chat(...)] and, when
    the source is exhausted, the rest of the [try] block. *)
Definition stream_tokens (env : Env) (g : Coord) (w : World) : Pull * Coord * World :=
  let '(p, tokens') := src_next (c_tokens g) in
  match p with
  | Token token =>
      let g' := mkCoord (c_pc g) (c_chat_id g) (c_message_id g) tokens'
                        (c_full_response g ++ token) in
      match emit (delta_payload token) "message" with
      | Ret c => (Yielded c, at_pc C_YieldDelta g', w)
      | Raise e => on_exception e g' w
      end
  | Failed e =>
      on_exception e
        (mkCoord (c_pc g) (c_chat_id g) (c_message_id g) tokens' (c_full_response g)) w
  | Exhausted =>
      let g' := mkCoord (c_pc g) (c_chat_id g) (c_message_id g) tokens'
                        (c_full_response g) in
      match save_assistant_message env (c_chat_id g') (c_full_response g') w with
      | (Raise e, w') => on_exception e g' w'
      | (Ret _, w') =>
          match emit (finish_payload (c_message_id g')) "message" with
          | Ret c => (Yielded c, at_pc C_YieldFinish g', w')
          | Raise e => on_exception e g' w'
          end
      end
  end.

(** [async_gen.__anext__()] run to its next suspension. *)
Definition anext (env : Env) (g : Coord) (w : World) : Pull * Coord * World :=
  match c_pc g with
  | C_Entry =>
      match emit (start_payload (c_message_id g) (c_chat_id g)) "message" with
      | Ret c => (Yielded c, at_pc C_YieldStart g, w)
      | Raise e => on_exception e g w
      end
  | C_YieldStart | C_YieldDelta => stream_tokens env g w
  | C_YieldFinish | C_YieldError => (Stop, at_pc C_Closed g, close_db w)
  | C_Closed => (Stop, g, w)
  end.

(** The generator finalised, as CPython does when the last reference to it
    goes: a generator suspended at a [yield] gets [GeneratorExit] raised
    there; it is no [Exception], so it passes the [except] clause, and
    [finally: db.close()] runs.  The iterator of the source goes with the
    frame.  A generator that was never started, or has ended, runs
    nothing. *)
Definition finalize (g : Coord) (w : World) : Coord * World :=
  match c_pc g with
  | C_Entry => (at_pc C_Closed g, w)
  | C_Closed => (g, w)
  | C_YieldStart | C_YieldDelta | C_YieldFinish | C_YieldError =>
      (mkCoord C_Closed (c_chat_id g) (c_message_id g) (src_close (c_tokens g))
               (c_full_response g),
       close_db w)
  end.

(** ** The delivery bridge: [stream_chat_response_sync] *)

Inductive LoopState : Type :=
| NoLoop
| LoopOpen
| LoopClosed.

Inductive BridgePC : Type :=
| B_Entry    (* created, body not started *)
| B_Yield    (* at [yield chunk] *)
| B_Closed.  (* the body has returned or raised *)

Record Bridge := mkBridge {
  b_pc : BridgePC;
  b_loop : LoopState;
  b_async_gen : Coord
}.

Definition stream_chat_response_sync (env : Env) (cid : string) (tokens : Source) : Bridge :=
  mkBridge B_Entry NoLoop (stream_chat_response env cid tokens).

(** [chunk = loop.run_until_complete(async_gen.__anext__())]; [yield chunk];
    [except StopAsyncIteration: break]; [finally: loop.close()]. *)
Definition pump (env : Env) (b : Bridge) (w : World) : Pull * Bridge * World :=
  match anext env (b_async_gen b) w with
  | (Yielded c, g', w') => (Yielded c, mkBridge B_Yield (b_loop b) g', w')
  | (Stop, g', w') => (Stop, mkBridge B_Closed LoopClosed g', w')
  | (Raised e, g', w') => (Raised e, mkBridge B_Closed LoopClosed g', w')
  end.

(** [next()] on the synchronous generator. *)
Definition bridge_next (env : Env) (b : Bridge) (w : World) : Pull * Bridge * World :=
  match b_pc b with
  | B_Entry => pump env (mkBridge B_Entry LoopOpen (b_async_gen b)) w
  | B_Yield => pump env b w
  | B_Closed => (Stop, b, w)
  end.

(** [close()] on the synchronous generator, as the transport calls it when
    the client is gone: [GeneratorExit] at [yield chunk] passes the
    [except StopAsyncIteration] clause and runs [finally: loop.close()];
    the frame then lets go of [async_gen], its only holder, and the
    coordinator is finalised.  A generator that was never started runs
    nothing: its body, which makes the loop and the coordinator, has not
    begun. *)
Definition bridge_close (b : Bridge) (w : World) : Bridge * World :=
  match b_pc b with
  | B_Entry => (mkBridge B_Closed (b_loop b) (b_async_gen b), w)
  | B_Yield =>
      let '(g, w') := finalize (b_async_gen b) w in
      (mkBridge B_Closed LoopClosed g, w')
  | B_Closed => (b, w)
  end.

(** ** Consumers *)

Inductive Ending : Type :=
| Completed            (* the generator signalled the end of the stream *)
| Crashed (e : PyExc)  (* an exception left the generator *)
| Pending.             (* the consumer stopped pulling first *)

Section Consume.

Variable G : Type.
Variable next : G -> World -> Pull * G * World.

(** Pull at most [n] times, stopping at the end of the stream. *)
Fixpoint collect (n : nat) (g : G) (w : World) : list Chunk * Ending * G * World :=
  match n with
  | O => ([], Pending, g, w)
  | S n' =>
      match next g w with
      | (Yielded c, g', w') =>
          let '(cs, e, g'', w'') := collect n' g' w' in
          (c :: cs, e, g'', w'')
      | (Stop, g', w') => ([], Completed, g', w')
      | (Raised e, g', w') => ([], Crashed e, g', w')
      end
  end.

End Consume.

Arguments collect {G} next n g w.

Definition units {G : Type} (r : list Chunk * Ending * G * World) : list Chunk :=
  fst (fst (fst r)).
Definition ending {G : Type} (r : list Chunk * Ending * G * World) : Ending :=
  snd (fst (fst r)).
Definition final_gen {G : Type} (r : list Chunk * Ending * G * World) : G :=
  snd (fst r).
Definition final_world {G : Type} (r : list Chunk * Ending * G * World) : World :=
  snd r.

(** [[c async for c in stream_chat_response(...)]], at most [n] pulls. *)
Definition async_collect (env : Env) (n : nat) (g : Coord) (w : World) :=
  collect (anext env) n g w.

(** [[c for c in stream_chat_response_sync(...)]], at most [n] pulls. *)
Definition sync_collect (env : Env) (n : nat) (b : Bridge) (w : World) :=
  collect (bridge_next env) n b w.

(** The number of pulls that always reaches the end of a stream over
    [tokens]: one per unit, at most [length + 2] units, and the last pull. *)
Definition enough (tokens : Source) : nat := length (src_pending tokens) + 3.

(** A whole request served to a client that reads to the end. *)
Definition serve (env : Env) (cid : string) (tokens : Source) (w : World) :=
  sync_collect env (enough tokens) (stream_chat_response_sync env cid tokens) w.

(** A client that reads [k] units and goes away: the transport closes the
    generator. *)
Definition serve_abandoned (env : Env) (cid : string) (tokens : Source) (w : World)
    (k : nat) : list Chunk * Ending * Bridge * World :=
  let '(cs, e, b, w') :=
    sync_collect env k (stream_chat_response_sync env cid tokens) w in
  let '(b', w'') := bridge_close b w' in
  (cs, e, b', w'').

(** ** Reading events off units *)

Definition has_type (ty : string) (c : Chunk) : bool :=
  match dict_get (payload c) "type" with
  | Some (PStr t) => t =? ty
  | _ => false
  end.

Definition is_start : Chunk -> bool := has_type "message-start".
Definition is_delta : Chunk -> bool := has_type "text-delta".
Definition is_finish : Chunk -> bool := has_type "message-finish".
Definition is_error : Chunk -> bool := has_type "error".
Definition is_terminal (c : Chunk) : bool := is_finish c || is_error c.

Definition str_field (k : string) (c : Chunk) : option string :=
  match dict_get (payload c) k with
  | Some (PStr s) => Some s
  | _ => None
  end.

(** The [content] fields of the text-delta events, in emission order. *)
Fixpoint delta_contents (cs : list Chunk) : list string :=
  match cs with
  | [] => []
  | c :: r =>
      if is_delta c
      then match str_field "content" c with
           | Some s => s :: delta_contents r
           | None => delta_contents r
           end
      else delta_contents r
  end.

(** The [text] fields of the text parts of a message. *)
Definition parts_text (parts : PyVal) : option string :=
  match parts with
  | PList [ PDict items ] =>
      match dict_items_get items "type", dict_items_get items "text" with
      | Some (PStr "text"), Some (PStr s) => Some s
      | _, _ => None
      end
  | _ => None
  end.

Definition empty_session (chats : list Chat) : Session := mkSession [] [] chats false.
Definition fresh_world (chats : list Chat) : World := mkWorld (empty_session chats) [].

(** * Definitions used in the statements *)

Section PyValInduction.

Variable P : PyVal -> Prop.
Hypothesis HNone : P PNone.
Hypothesis HBool : forall b, P (PBool b).
Hypothesis HInt : forall z, P (PInt z).
Hypothesis HFloat : forall f, P (PFloat f).
Hypothesis HStr : forall s, P (PStr s).
Hypothesis HBytes : forall s, P (PBytes s).
Hypothesis HList : forall l, Forall P l -> P (PList l).
Hypothesis HTuple : forall l, Forall P l -> P (PTuple l).
Hypothesis HDict : forall items, Forall (fun kv => P (snd kv)) items -> P (PDict items).

Fixpoint PyVal_nested_ind (v : PyVal) : P v :=
  match v with
  | PNone => HNone
  | PBool b => HBool b
  | PInt z => HInt z
  | PFloat f => HFloat f
  | PStr s => HStr s
  | PBytes s => HBytes s
  | PList l =>
      HList l ((fix all (l : list PyVal) : Forall P l :=
                  match l with
                  | [] => Forall_nil P
                  | x :: r => Forall_cons x (PyVal_nested_ind x) (all r)
                  end) l)
  | PTuple l =>
      HTuple l ((fix all (l : list PyVal) : Forall P l :=
                   match l with
                   | [] => Forall_nil P
                   | x :: r => Forall_cons x (PyVal_nested_ind x) (all r)
                   end) l)
  | PDict items =>
      HDict items
        ((fix all (l : list (PyVal * PyVal)) : Forall (fun kv => P (snd kv)) l :=
            match l with
            | [] => Forall_nil _
            | kv :: r => Forall_cons kv (PyVal_nested_ind (snd kv)) (all r)
            end) items)
  end.

End PyValInduction.

(** The two loops of the encoder, named. *)
Fixpoint dumps_elems (room : nat) (l : list PyVal) : Res (list string) :=
  match l with
  | [] => Ret []
  | x :: r => sx <- json_dumps x room ;; sr <- dumps_elems room r ;; Ret (sx :: sr)
  end.

Fixpoint dumps_pairs (room : nat) (l : list (PyVal * PyVal)) : Res (list string) :=
  match l with
  | [] => Ret []
  | (k, v) :: r =>
      sk <- json_key k ;;
      sv <- json_dumps v room ;;
      sr <- dumps_pairs room r ;;
      Ret ((encode_basestring_ascii sk ++ ": " ++ sv) :: sr)
  end.

(** The objects [json.dumps] returns a text for, with [room] levels left. *)
Definition encodable (o : PyVal) (room : nat) : bool :=
  serializable o && ints_fit o && (nesting o <=? room)%nat.

(** The classes of the exceptions of [json.dumps]. *)
Definition failure_class (e : PyExc) : Prop :=
  exc_class e = "TypeError" \/ exc_class e = "ValueError"
  \/ exc_class e = "RecursionError".

(** The frame [format_sse] builds around a JSON text. *)
Definition sse_frame (event js : string) : string :=
  "event: " ++ event ++ nl ++ "data: " ++ js ++ nl ++ nl.

(** A dictionary with string keys and string values, and its JSON text. *)
Definition str_dict (fields : list (string * string)) : PyVal :=
  PDict (map (fun kv => (PStr (fst kv), PStr (snd kv))) fields).

Definition json_field (kv : string * string) : string :=
  encode_basestring_ascii (fst kv) ++ ": " ++ encode_basestring_ascii (snd kv).

Definition json_object (fields : list (string * string)) : string :=
  "{" ++ String.concat ", " (map json_field fields) ++ "}".

Definition event_chunk (event : string) (fields : list (string * string)) : Chunk :=
  mkChunk (str_dict fields) event (sse_frame event (json_object fields)).

Definition start_unit (message_id cid : string) : Chunk :=
  event_chunk "message"
    [("type", "message-start"); ("id", message_id); ("chat_id", cid)].

Definition delta_unit (token : string) : Chunk :=
  event_chunk "message" [("type", "text-delta"); ("content", token)].

Definition finish_unit (message_id : string) : Chunk :=
  event_chunk "message" [("type", "message-finish"); ("id", message_id)].

Definition error_unit (error_message : string) : Chunk :=
  event_chunk "error"
    [("type", "error"); ("error", error_message);
     ("code", SSEService.default_error_code)].

Definition fresh_source (frags : list string) (failure : option PyExc) : Source :=
  mkSource frags failure false.

(** The world the sink leaves behind. *)
Definition after_save (env : Env) (cid text : string) (w : World) : World :=
  snd (save_assistant_message env cid text w).

(** The unit that ends a stream: the source's failure, else the sink's,
    else message-finish. *)
Definition terminal_unit (env : Env) (failure : option PyExc) : Chunk :=
  match failure with
  | Some e => error_unit (exc_str e)
  | None =>
      match env_commit env with
      | Some e => error_unit (exc_str e)
      | None => finish_unit (env_message_id env)
      end
  end.

Definition world_at_end (env : Env) (cid text : string) (failure : option PyExc)
    (w : World) : World :=
  close_db (match failure with
            | Some _ => w
            | None => after_save env cid text w
            end).

(** Where the coordinator is suspended once it has yielded its last unit. *)
Definition terminal_pc (env : Env) (failure : option PyExc) : CoordPC :=
  match failure with
  | Some _ => C_YieldError
  | None =>
      match env_commit env with
      | Some _ => C_YieldError
      | None => C_YieldFinish
      end
  end.

Definition world_at_terminal (env : Env) (cid text : string) (failure : option PyExc)
    (w : World) : World :=
  match failure with
  | Some _ => w
  | None => after_save env cid text w
  end.

(** A run of the coordinator, seen through the bridge that holds [loop]. *)
Definition lift_run (loop : LoopState) (a : list Chunk * Ending * Coord * World)
    : list Chunk * Ending * Bridge * World :=
  let '(cs, e, g, w) := a in
  (cs, e,
   match e with
   | Pending => mkBridge B_Yield loop g
   | _ => mkBridge B_Closed LoopClosed g
   end,
   w).

Definition scenario_env : Env := mkEnv "m-1" "row-1" 100 101 None.

Definition scenario_env_commit_fails : Env :=
  mkEnv "m-1" "row-1" 100 101 (Some (mkExc "OperationalError" "db down")).

Definition scenario_world : World := fresh_world [mkChat "c-1" 5].

(** * Further code of the cited files *)

From Stdlib Require Import NArith Sorted.

(** ** Strings as Python splits and strips them *)

(** [s.split(sep)] for a separator of one character. *)
Fixpoint py_split (sep : ascii) (s : string) : list string :=
  match s with
  | EmptyString => [""]
  | String c r =>
      if Ascii.eqb c sep then "" :: py_split sep r
      else match py_split sep r with
           | [] => [String c ""]
           | piece :: pieces => String c piece :: pieces
           end
  end.

(** [str.isspace] on the code points below 256. *)
Definition is_space (c : ascii) : bool :=
  let n := nat_of_ascii c in
  ((9 <=? n) && (n <=? 13) || (28 <=? n) && (n <=? 32)
   || Nat.eqb n 133 || Nat.eqb n 160)%nat.

Fixpoint lstrip (p : ascii -> bool) (s : string) : string :=
  match s with
  | EmptyString => ""
  | String c r => if p c then lstrip p r else s
  end.

Fixpoint rstrip (p : ascii -> bool) (s : string) : string :=
  match s with
  | EmptyString => ""
  | String c r =>
      match rstrip p r with
      | EmptyString => if p c then "" else String c ""
      | r' => String c r'
      end
  end.

(** [s.strip()] and [s.strip(chars)], by the set of characters removed. *)
Definition strip (p : ascii -> bool) (s : string) : string := rstrip p (lstrip p s).

(** ** The other frames of [SSEService] *)

Module SSEFrames.

Definition tool_call_payload (tool_name : string) (tool_input : PyVal) : PyVal :=
  PDict [ (PStr "type", PStr "tool-call");
          (PStr "tool", PStr tool_name);
          (PStr "input", tool_input) ].

(** [stream_tool_call(tool_name, tool_input)]. *)
Definition stream_tool_call (tool_name : string) (tool_input : PyVal) (room : nat)
    : Res string :=
  SSEService.format_sse (tool_call_payload tool_name tool_input) "tool" room.

Definition tool_result_payload (tool_name : string) (tool_output : PyVal) : PyVal :=
  PDict [ (PStr "type", PStr "tool-result");
          (PStr "tool", PStr tool_name);
          (PStr "output", tool_output) ].

(** [stream_tool_result(tool_name, tool_output)]. *)
Definition stream_tool_result (tool_name : string) (tool_output : PyVal) (room : nat)
    : Res string :=
  SSEService.format_sse (tool_result_payload tool_name tool_output) "tool" room.

Definition data_payload (data_type : string) (data : PyVal) : PyVal :=
  PDict [ (PStr "type", PStr ("data-" ++ data_type)); (PStr "data", data) ].

(** [stream_data(data_type, data)]. *)
Definition stream_data (data_type : string) (data : PyVal) (room : nat) : Res string :=
  SSEService.format_sse (data_payload data_type data) "data" room.

(** [SSEService.stream_chat_response(tokens, message_id)]: the generator
    without session, sink or [try] block. *)
Inductive PlainPC : Type :=
| P_Entry        (* created, body not started *)
| P_YieldStart   (* at the yield of message-start *)
| P_YieldDelta   (* at the yield of a text-delta *)
| P_YieldFinish  (* at the yield of message-finish *)
| P_Closed.      (* the body has returned or raised *)

Record Plain := mkPlain {
  p_pc : PlainPC;
  p_tokens : Source;
  p_message_id : string
}.

Definition stream_chat_response (tokens : Source) (message_id : string) : Plain :=
  mkPlain P_Entry tokens message_id.

Definition plain_start_payload (message_id : string) : PyVal :=
  PDict [ (PStr "type", PStr "message-start"); (PStr "id", PStr message_id) ].

(** A yield, or the exception of [format_sse] leaving the generator. *)
Definition yield_or_raise (r : Res Chunk) (pc : PlainPC) (tokens : Source)
    (message_id : string) : Pull * Plain :=
  match r with
  | Ret c => (Yielded c, mkPlain pc tokens message_id)
  | Raise e => (Raised e, mkPlain P_Closed tokens message_id)
  end.

(** [__anext__] of the generator; it touches nothing outside itself. *)
Definition plain_anext (g : Plain) (w : World) : Pull * Plain * World :=
  match p_pc g with
  | P_Entry =>
      (yield_or_raise (emit (plain_start_payload (p_message_id g)) "message")
                      P_YieldStart (p_tokens g) (p_message_id g), w)
  | P_YieldStart | P_YieldDelta =>
      let '(p, tokens') := src_next (p_tokens g) in
      match p with
      | Token token =>
          (yield_or_raise (emit (delta_payload token) "message")
                          P_YieldDelta tokens' (p_message_id g), w)
      | Failed e => (Raised e, mkPlain P_Closed tokens' (p_message_id g), w)
      | Exhausted =>
          (yield_or_raise (emit (finish_payload (p_message_id g)) "message")
                          P_YieldFinish tokens' (p_message_id g), w)
      end
  | P_YieldFinish => (Stop, mkPlain P_Closed (p_tokens g) (p_message_id g), w)
  | P_Closed => (Stop, g, w)
  end.

Definition plain_start_unit (message_id : string) : Chunk :=
  event_chunk "message" [("type", "message-start"); ("id", message_id)].

End SSEFrames.

(** ** Reading the escapes of the encoder back *)

Definition hex_value (c : ascii) : option nat :=
  let n := nat_of_ascii c in
  if ((48 <=? n) && (n <=? 57))%nat then Some (n - 48)
  else if ((97 <=? n) && (n <=? 102))%nat then Some (n - 87)
  else None.

(** The character that one escape at the head of [s] stands for, and the
    rest of [s]. *)
Definition unescape_one (s : string) : option (ascii * string) :=
  match s with
  | EmptyString => None
  | String c r =>
      if Ascii.eqb c BACKSLASH then
        match r with
        | String "b" r' => Some ("008"%char, r')
        | String "f" r' => Some ("012"%char, r')
        | String "n" r' => Some (LF, r')
        | String "r" r' => Some ("013"%char, r')
        | String "t" r' => Some ("009"%char, r')
        | String "u" (String "0" (String "0" (String h (String l r')))) =>
            match hex_value h, hex_value l with
            | Some a, Some b => Some (ascii_of_nat (16 * a + b), r')
            | _, _ => None
            end
        | String d r' => Some (d, r')
        | EmptyString => None
        end
      else Some (c, r)
  end.

(** ** The escapes of the encoder on every code point

    A [str] holds code points up to 1114111.  Here such a string is the
    list of the numbers of its code points, and the encoder of strings is
    written out for all of them; below 256 it is [escape_char]. *)

Definition code_points (s : string) : list N :=
  map N_of_ascii (list_ascii_of_string s).

(** ['{0:04x}'.format(n)] for [n] below 65536. *)
Definition hex4 (n : N) : string :=
  String (hex_digit (N.to_nat (n / 4096)))
    (String (hex_digit (N.to_nat ((n / 256) mod 16)))
       (String (hex_digit (N.to_nat ((n / 16) mod 16)))
          (String (hex_digit (N.to_nat (n mod 16))) ""))).

Definition u_escape4 (n : N) : string :=
  String BACKSLASH (String "u" (hex4 n)).

(** One code point under [ensure_ascii]: a code point from 65536 on is
    written as its two surrogates, [0xd800 - (0x10000 >> 10) + (n >> 10)]
    and [0xdc00 + (n & 0x3ff)]. *)
Definition escape_point (n : N) : string :=
  if (n <? 256)%N then escape_char (ascii_of_N n)
  else if (n <? 65536)%N then u_escape4 n
  else u_escape4 (55296 - 64 + N.shiftr n 10) ++ u_escape4 (56320 + N.land n 1023).

Fixpoint escape_points (t : list N) : string :=
  match t with
  | [] => ""
  | n :: r => escape_point n ++ escape_points r
  end.

(** The frame of the text-delta event of a token of any code points. *)
Definition wide_delta_frame (t : list N) : string :=
  sse_frame "message"
    ("{" ++ encode_basestring_ascii "type" ++ ": " ++ encode_basestring_ascii "text-delta"
     ++ ", " ++ encode_basestring_ascii "content" ++ ": "
     ++ dq ++ escape_points t ++ dq ++ "}").

(** A Unicode scalar value: a code point that is no surrogate.  A [str]
    decoded from UTF-8 holds no other. *)
Definition scalar (n : N) : bool :=
  ((n <? 1114112) && negb ((55296 <=? n) && (n <=? 57343)))%N.

(** Four hexadecimal digits at the head of [s], read back. *)
Definition hex4_value (s : string) : option (N * string) :=
  match s with
  | String a (String b (String c (String d r))) =>
      match hex_value a, hex_value b, hex_value c, hex_value d with
      | Some x, Some y, Some z, Some w =>
          Some ((4096 * N.of_nat x + 256 * N.of_nat y + 16 * N.of_nat z + N.of_nat w)%N, r)
      | _, _, _, _ => None
      end
  | _ => None
  end.

Definition u_escape_value (s : string) : option (N * string) :=
  match s with
  | String c (String "u" r) => if Ascii.eqb c BACKSLASH then hex4_value r else None
  | _ => None
  end.

(** The code point that the escapes at the head of [s] stand for, and the
    rest of [s]: a high surrogate takes the low surrogate after it. *)
Definition unescape_point (s : string) : option (N * string) :=
  match s with
  | EmptyString => None
  | String c r =>
      if Ascii.eqb c BACKSLASH then
        match r with
        | String "b" r' => Some (8%N, r')
        | String "f" r' => Some (12%N, r')
        | String "n" r' => Some (10%N, r')
        | String "r" r' => Some (13%N, r')
        | String "t" r' => Some (9%N, r')
        | String "u" _ =>
            match u_escape_value s with
            | Some (v, r') =>
                if ((55296 <=? v) && (v <? 56320))%N then
                  match u_escape_value r' with
                  | Some (w, r'') =>
                      if ((56320 <=? w) && (w <=? 57343))%N
                      then Some ((65536 + (v - 55296) * 1024 + (w - 56320))%N, r'')
                      else Some (v, r')
                  | None => Some (v, r')
                  end
                else Some (v, r')
            | None => None
            end
        | String d r' => Some (N_of_ascii d, r')
        | EmptyString => None
        end
      else Some (N_of_ascii c, r)
  end.

(** ** [LLMService]: the prompt, the title, the registry *)

Definition AttributeError (v : PyVal) (attr : string) : PyExc :=
  mkExc "AttributeError"
        ("'" ++ type_name v ++ "' object has no attribute '" ++ attr ++ "'").

(** [d.get(k, default)]; an object that is no dictionary has no [get]. *)
Definition py_get (d : PyVal) (k : string) (default : PyVal) : Res PyVal :=
  match d with
  | PDict items =>
      Ret (match dict_items_get items k with Some v => v | None => default end)
  | _ => Raise (AttributeError d "get")
  end.

(** The elements a [for] loop visits. *)
Definition py_iter (v : PyVal) : Res (list PyVal) :=
  match v with
  | PList l | PTuple l => Ret l
  | PDict items => Ret (map fst items)
  | PStr s => Ret (map (fun c => PStr (String c "")) (list_ascii_of_string s))
  | PBytes s =>
      Ret (map (fun c => PInt (Z.of_nat (nat_of_ascii c))) (list_ascii_of_string s))
  | _ => Raise (TypeError ("'" ++ type_name v ++ "' object is not iterable"))
  end.

(** [v == s] for a string [s]. *)
Definition py_eq_str (v : PyVal) (s : string) : bool :=
  match v with
  | PStr t => t =? s
  | _ => false
  end.

(** [for part in parts: if part.get("type") == "text":
      content += part.get("text", "")]. *)
Fixpoint collect_text (parts : list PyVal) (content : string) : Res string :=
  match parts with
  | [] => Ret content
  | part :: r =>
      ty <- py_get part "type" PNone ;;
      if py_eq_str ty "text" then
        t <- py_get part "text" (PStr "") ;;
        match t with
        | PStr s => collect_text r (content ++ s)
        | _ => Raise (TypeError ("can only concatenate str (not " ++ dq
                                 ++ type_name t ++ dq ++ ") to str"))
        end
      else collect_text r content
  end.

(** A text part, and a message as the chat endpoint hands it to the model:
    [{"role": msg.role, "parts": msg.parts, "attachments": msg.attachments}]. *)
Definition text_part (t : string) : PyVal :=
  PDict [ (PStr "type", PStr "text"); (PStr "text", PStr t) ].

Definition history_message (role : string) (parts attachments : PyVal) : PyVal :=
  PDict [ (PStr "role", PStr role);
          (PStr "parts", parts);
          (PStr "attachments", attachments) ].

(** The line a message of text parts leaves in the prompt. *)
Definition prompt_line (role text : string) : list string :=
  if text =? "" then []
  else if role =? "user" then ["User: " ++ text]
  else if role =? "assistant" then ["Assistant: " ++ text]
  else [].

Module LLMPrompt.

Section Format.

(** What [str()] gives for [bytes], lists, tuples and dictionaries. *)
Variable py_repr : PyVal -> string.

(** [f"{v}"]. *)
Definition py_format (v : PyVal) : string :=
  match v with
  | PStr s => s
  | PNone => "None"
  | PBool b => if b then "True" else "False"
  | PInt z => int_repr z
  | PFloat f => float_repr f
  | _ => py_repr v
  end.

(** The [content] of one message: its text parts when it has [parts], else
    its [content] entry, else the empty string. *)
Definition message_content (msg : PyVal) : Res PyVal :=
  match msg with
  | PDict items =>
      match dict_items_get items "parts" with
      | Some parts =>
          ps <- py_iter parts ;;
          s <- collect_text ps "" ;;
          Ret (PStr s)
      | None =>
          match dict_items_get items "content" with
          | Some c => Ret c
          | None => Ret (PStr "")
          end
      end
  | _ => Raise (AttributeError msg "get")
  end.

(** The body of [for msg in messages]. *)
Definition append_message (prompt_parts : list string) (msg : PyVal) : Res (list string) :=
  role <- py_get msg "role" (PStr "user") ;;
  content <- message_content msg ;;
  if truthy content then
    if py_eq_str role "user"
    then Ret (prompt_parts ++ [("User: " ++ py_format content)%string])%list
    else if py_eq_str role "assistant"
    then Ret (prompt_parts ++ [("Assistant: " ++ py_format content)%string])%list
    else Ret prompt_parts
  else Ret prompt_parts.

Fixpoint append_messages (prompt_parts : list string) (messages : list PyVal)
    : Res (list string) :=
  match messages with
  | [] => Ret prompt_parts
  | msg :: r =>
      prompt_parts' <- append_message prompt_parts msg ;;
      append_messages prompt_parts' r
  end.

(** [if system_prompt: prompt_parts.append(f"System: {system_prompt}\n")]. *)
Definition system_part (system_prompt : PyVal) : list string :=
  if truthy system_prompt then ["System: " ++ py_format system_prompt ++ nl] else [].

(** [_convert_messages_to_prompt(messages, system_prompt)]. *)
Definition convert_messages_to_prompt (messages : list PyVal)
    (system_prompt : PyVal) : Res string :=
  prompt_parts <- append_messages (system_part system_prompt) messages ;;
  Ret (String.concat (nl ++ nl) (prompt_parts ++ ["Assistant:"])%list).

(** [stream_chat(messages, system_prompt)] as the source of a stream:
    [llm_stream] gives, for a prompt, the chunks the model delivers and the
    way its stream ends; an exception of the conversion is raised at the
    first pull. *)
Definition stream_chat_source (llm_stream : string -> list string * option PyExc)
    (messages : list PyVal) (system_prompt : PyVal) : Source :=
  match convert_messages_to_prompt messages system_prompt with
  | Raise e => fresh_source [] (Some e)
  | Ret prompt =>
      LLMService.stream_chat (fst (llm_stream prompt)) (snd (llm_stream prompt))
  end.

End Format.

Definition title_prompt (user_message : string) : string :=
  "Generate a short, concise title (max 6 words) for a conversation that starts with:"
  ++ nl ++ nl ++ "User: " ++ user_message ++ nl ++ nl ++ "Title:".

(** [response.strip()], then [strip] of the double quote, then [strip] of
    the single quote, then the limit of 60 characters. *)
Definition clean_title (response : string) : string :=
  let title :=
    strip (Ascii.eqb "'") (strip (Ascii.eqb DQUOTE) (strip is_space response)) in
  if (60 <? String.length title)%nat
  then substring 0 57 title ++ "..."
  else title.

(** [generate_title(user_message)], over what [llm.invoke] does. *)
Definition generate_title (invoke : string -> Res string) (user_message : string)
    : Res string :=
  response <- invoke (title_prompt user_message) ;;
  Ret (clean_title response).

End LLMPrompt.

Module OllamaModelRegistry.

Definition model_entry (id name description size : string) (capabilities : list string)
    : PyVal :=
  PDict [ (PStr "id", PStr id);
          (PStr "name", PStr name);
          (PStr "description", PStr description);
          (PStr "size", PStr size);
          (PStr "capabilities", PList (map PStr capabilities)) ].

Definition AVAILABLE_MODELS : list (string * PyVal) :=
  [ ("phi3:mini",
     model_entry "phi3:mini" "Phi-3 Mini"
       "Fast 3.8B model for testing and quick responses" "3.8B" ["chat"; "text"]);
    ("llama3.2:3b",
     model_entry "llama3.2:3b" "Llama 3.2 3B"
       "Efficient 3B model with good performance" "3B" ["chat"; "text"]);
    ("llama3.2:11b-vision",
     model_entry "llama3.2:11b-vision" "Llama 3.2 Vision 11B"
       "Multimodal model with vision and text capabilities" "11B"
       ["chat"; "text"; "vision"]);
    ("qwen2.5:7b",
     model_entry "qwen2.5:7b" "Qwen 2.5 7B"
       "Multilingual model with strong reasoning" "7B"
       ["chat"; "text"; "multilingual"]);
    ("mixtral:8x7b",
     model_entry "mixtral:8x7b" "Mixtral 8x7B"
       "Powerful mixture-of-experts model" "47B" ["chat"; "text"; "reasoning"]) ].

Fixpoint lookup (table : list (string * PyVal)) (k : string) : option PyVal :=
  match table with
  | [] => None
  | (k', v) :: r => if k' =? k then Some v else lookup r k
  end.

Definition get_model_info (model_id : string) : option PyVal :=
  lookup AVAILABLE_MODELS model_id.

Definition list_models : list PyVal := map snd AVAILABLE_MODELS.

Definition is_valid_model (model_id : string) : bool :=
  existsb (fun kv => fst kv =? model_id) AVAILABLE_MODELS.

End OllamaModelRegistry.

(** ** The tables behind [ChatService] *)

(** A row of [chats], with every column of the model. *)
Record ChatRow := mkChatRow {
  cr_id : string;
  cr_user_id : string;
  cr_title : string;
  cr_visibility : PyVal;
  cr_last_context : PyVal;
  cr_created_at : Z;
  cr_updated_at : Z
}.

(** The database as one session sees it: the two tables, the messages added
    and not committed, and whether the session was closed. *)
Record Database := mkDatabase {
  chat_table : list ChatRow;
  message_pending : list Message;
  message_table : list Message;
  handle_closed : bool
}.

(** The part of the database the streaming code reads and writes. *)
Definition session_of (d : Database) : Session :=
  mkSession (message_pending d) (message_table d)
            (map (fun r => mkChat (cr_id r) (cr_updated_at r)) (chat_table d))
            (handle_closed d).

Definition close_database (d : Database) : Database :=
  mkDatabase (chat_table d) (message_pending d) (message_table d) true.

Section Ordering.

Context {A : Type}.
Variable key : A -> Z.

Fixpoint insert_by (x : A) (l : list A) : list A :=
  match l with
  | [] => [x]
  | y :: r => if (key x <=? key y)%Z then x :: l else y :: insert_by x r
  end.

(** [order_by(key.asc())]: rows with equal keys stay in table order. *)
Definition order_by (l : list A) : list A := fold_right insert_by [] l.

End Ordering.

Module ChatStore.

(** [db.query(Chat).filter(Chat.id == chat_id, Chat.user_id == user_id).first()]. *)
Definition get_chat (d : Database) (cid uid : string) : option ChatRow :=
  find (fun r => (cr_id r =? cid) && (cr_user_id r =? uid)) (chat_table d).

(** [get_user_chats(db, user_id, limit)]: newest [updated_at] first. *)
Definition get_user_chats (d : Database) (uid : string) (limit : nat) : list ChatRow :=
  firstn limit
    (order_by (fun r => (- cr_updated_at r)%Z)
       (filter (fun r => cr_user_id r =? uid) (chat_table d))).

(** [get_messages(db, chat_id, limit)]: oldest [created_at] first. *)
Definition get_messages (d : Database) (cid : string) (limit : nat) : list Message :=
  firstn limit
    (order_by msg_created_at
       (filter (fun m => msg_chat_id m =? cid) (message_table d))).

(** [create_chat(db, user_id, title, visibility)], over the [uuid4()], the
    two clock readings (the [created_at] passed and the default of
    [updated_at]) and what [db.commit()] does. *)
Definition create_chat (new_id : string) (created updated : Z) (fault : option PyExc)
    (d : Database) (uid title : string) (visibility : PyVal) : Res ChatRow * Database :=
  let chat := mkChatRow new_id uid title visibility PNone created updated in
  match fault with
  | Some e => (Raise e, d)
  | None =>
      (Ret chat,
       mkDatabase (chat_table d ++ [chat]) []
                  (message_table d ++ message_pending d) (handle_closed d))
  end.

(** [delete_chat(db, chat_id, user_id)]; the messages of the chat go with
    it ([cascade="all, delete-orphan"]). *)
Definition delete_chat (fault : option PyExc) (d : Database) (cid uid : string)
    : Res bool * Database :=
  match get_chat d cid uid with
  | Some chat =>
      match fault with
      | Some e => (Raise e, d)
      | None =>
          (Ret true,
           mkDatabase (filter (fun r => negb (cr_id r =? cr_id chat)) (chat_table d)) []
                      (filter (fun m => negb (msg_chat_id m =? cr_id chat))
                              (message_table d ++ message_pending d))
                      (handle_closed d))
      end
  | None => (Ret false, d)
  end.

Fixpoint set_context (rows : list ChatRow) (cid : string) (context : PyVal) (now : Z)
    : list ChatRow :=
  match rows with
  | [] => []
  | r :: rest =>
      if cr_id r =? cid
      then mkChatRow (cr_id r) (cr_user_id r) (cr_title r) (cr_visibility r)
                     context (cr_created_at r) now :: rest
      else r :: set_context rest cid context now
  end.

(** [update_chat_context(db, chat_id, context)]: the chat is found by its
    identifier alone. *)
Definition update_chat_context (now : Z) (fault : option PyExc) (d : Database)
    (cid : string) (context : PyVal) : Res bool * Database :=
  if existsb (fun r => cr_id r =? cid) (chat_table d)
  then match fault with
       | Some e => (Raise e, d)
       | None =>
           (Ret true,
            mkDatabase (set_context (chat_table d) cid context now) []
                       (message_table d ++ message_pending d) (handle_closed d))
       end
  else (Ret false, d).

Fixpoint touch_row (rows : list ChatRow) (cid : string) (now : Z) : list ChatRow :=
  match rows with
  | [] => []
  | r :: rest =>
      if cr_id r =? cid
      then mkChatRow (cr_id r) (cr_user_id r) (cr_title r) (cr_visibility r)
                     (cr_last_context r) (cr_created_at r) now :: rest
      else r :: touch_row rest cid now
  end.

(** [add_message] on the whole database; [ChatService.add_message] is its
    part on the session. *)
Definition add_message (env : Env) (d : Database) (cid role : string)
    (parts attachments : PyVal) : Res Message * Database :=
  let message :=
    mkMessage (env_row_id env) cid role parts (py_or attachments (PList []))
              (env_created_at env) in
  let chats := touch_row (chat_table d) cid (env_touched_at env) in
  match env_commit env with
  | Some e =>
      (Raise e,
       mkDatabase chats (message_pending d ++ [message]) (message_table d)
                  (handle_closed d))
  | None =>
      (Ret message,
       mkDatabase chats [] (message_table d ++ (message_pending d ++ [message]))
                  (handle_closed d))
  end.

End ChatStore.

(** ** Requests, responses and what lies outside the code *)

(** A request as the views read it: [request.headers.get], [request.json]
    and [request.args.get]. *)
Record Request := mkRequest {
  req_header : string -> option string;
  req_json : PyVal;
  req_arg : string -> option string
}.

(** [jsonify(body), status], or the streaming [Response] around the
    generator of the bridge. *)
Inductive Response : Type :=
| Json (status : nat) (body : PyVal)
| EventStream (mimetype : string) (headers : list (string * string)) (generator : Bridge).

(** What the libraries and the surroundings decide for one request:
    [jwt.decode] with the secret key ([None] for an expired or invalid
    token), the [UUID] constructor (the canonical text of the identifier,
    or the exception it raises), [str()] of containers, the text a string
    column keeps of a value that is no string, [datetime.isoformat], the
    model behind [llm.invoke] and [llm.stream] for each model identifier,
    the [uuid4()], clock readings and commit of [create_chat] and
    [delete_chat], and the surroundings of the two [add_message] calls: the
    one for the user's message and the one of the stream. *)
Record Surroundings := mkSurroundings {
  jwt_decode : string -> option (list (PyVal * PyVal));
  uuid_ctor : PyVal -> Res string;
  py_repr : PyVal -> string;
  stored_text : PyVal -> string;
  isoformat : Z -> string;
  llm_invoke : PyVal -> string -> Res string;
  llm_stream : PyVal -> string -> list string * option PyExc;
  new_chat_id : string;
  new_chat_created : Z;
  new_chat_updated : Z;
  chat_commit : option PyExc;
  user_env : Env;
  stream_env : Env
}.

Module Auth.

(** [extract_user_from_token(token)]. *)
Definition extract_user_from_token (sur : Surroundings) (token : string) : option PyVal :=
  option_map PDict (jwt_decode sur token).

Definition IndexError : PyExc := mkExc "IndexError" "list index out of range".

Definition dev_user (user_id_header : string) : PyVal :=
  PDict [ (PStr "id", PStr user_id_header); (PStr "email", PStr "dev@example.com") ].

(** The second source of [get_user_from_request]: the [x-user-id] header. *)
Definition user_from_header (req : Request) : option PyVal :=
  match req_header req "x-user-id" with
  | Some user_id_header =>
      if user_id_header =? "" then None else Some (dev_user user_id_header)
  | None => None
  end.

(** [get_user_from_request()]. *)
Definition get_user_from_request (sur : Surroundings) (req : Request)
    : Res (option PyVal) :=
  match req_header req "Authorization" with
  | Some auth_header =>
      if negb (auth_header =? "") && prefix "Bearer " auth_header then
        match nth_error (py_split " " auth_header) 1 with
        | None => Raise IndexError
        | Some token =>
            match extract_user_from_token sur token with
            | Some user =>
                if truthy user then Ret (Some user) else Ret (user_from_header req)
            | None => Ret (user_from_header req)
            end
        end
      else Ret (user_from_header req)
  | None => Ret (user_from_header req)
  end.

(** [get_user_id_from_request()]: [ValueError] and [TypeError] of the
    [UUID] constructor give [None], any other exception leaves the
    function. *)
Definition get_user_id_from_request (sur : Surroundings) (req : Request)
    : Res (option string) :=
  user <- get_user_from_request sur req ;;
  match user with
  | Some (PDict items) =>
      match dict_items_get items "id" with
      | Some v =>
          match uuid_ctor sur v with
          | Ret u => Ret (Some u)
          | Raise e =>
              if (exc_class e =? "ValueError") || (exc_class e =? "TypeError")
              then Ret None
              else Raise e
          end
      | None => Ret None
      end
  | _ => Ret None
  end.

Definition error_body (msg : string) : PyVal := PDict [ (PStr "error", PStr msg) ].

Definition unauthorized_body : PyVal :=
  PDict [ (PStr "error", PStr "Unauthorized"); (PStr "code", PStr "unauthorized") ].

(** The head of every view: [@require_auth], then
    [user_id = get_user_id_from_request()] and its test.  The result is the
    response that ends the view, or the user. *)
Definition authenticate (sur : Surroundings) (req : Request) : Res (Response + string) :=
  user <- get_user_from_request sur req ;;
  match user with
  | None => Ret (inl (Json 401 unauthorized_body))
  | Some _ =>
      user_id <- get_user_id_from_request sur req ;;
      match user_id with
      | None => Ret (inl (Json 401 (error_body "Unauthorized")))
      | Some u => Ret (inr u)
      end
  end.

End Auth.

(** ** The views of the chat blueprint and of the history blueprint *)

Module Views.

Definition stream_headers : list (string * string) :=
  [ ("Cache-Control", "no-cache"); ("X-Accel-Buffering", "no");
    ("Connection", "keep-alive") ].

Definition dict_default (items : list (PyVal * PyVal)) (k : string) (default : PyVal)
    : PyVal :=
  match dict_items_get items k with
  | Some v => v
  | None => default
  end.

(** The text a [String] column keeps. *)
Definition column_text (sur : Surroundings) (v : PyVal) : string :=
  match v with
  | PStr s => s
  | _ => stored_text sur v
  end.

(** [if chat_id: try: chat = get_chat(db, UUID(chat_id), user_id)
     except ValueError: chat = None]. *)
Definition find_chat (sur : Surroundings) (d : Database) (chat_id : PyVal) (uid : string)
    : Res (option ChatRow) :=
  if truthy chat_id then
    match uuid_ctor sur chat_id with
    | Ret u => Ret (ChatStore.get_chat d u uid)
    | Raise e => if exc_class e =? "ValueError" then Ret None else Raise e
    end
  else Ret None.

(** The branch [if not chat]: the title from the text of the message, then
    [create_chat]. *)
Definition new_chat (sur : Surroundings) (d : Database) (uid : string)
    (data : list (PyVal * PyVal)) (parts model : PyVal) : Res ChatRow * Database :=
  match (ps <- py_iter parts ;;
         user_text <- collect_text ps "" ;;
         LLMPrompt.generate_title (llm_invoke sur model) user_text) with
  | Raise e => (Raise e, d)
  | Ret title =>
      ChatStore.create_chat (new_chat_id sur) (new_chat_created sur) (new_chat_updated sur)
        (chat_commit sur) d uid title (dict_default data "visibility" (PStr "private"))
  end.

Definition history_of (messages : list Message) : list PyVal :=
  map (fun msg => history_message (msg_role msg) (msg_parts msg) (msg_attachments msg))
      messages.

(** The [try] block of [create_or_continue_chat]. *)
Definition chat_body (sur : Surroundings) (d : Database) (uid : string)
    (data message : list (PyVal * PyVal)) (parts : PyVal) : Res Response * Database :=
  let model := py_or (dict_default data "model_id" (PStr "phi3:mini")) (PStr "phi3:mini") in
  match find_chat sur d (dict_default data "chat_id" PNone) uid with
  | Raise e => (Raise e, d)
  | Ret found =>
      let '(created, d1) :=
        match found with
        | Some chat => (Ret chat, d)
        | None => new_chat sur d uid data parts model
        end in
      match created with
      | Raise e => (Raise e, d1)
      | Ret chat =>
          match ChatStore.add_message (user_env sur) d1 (cr_id chat)
                  (column_text sur (dict_default message "role" (PStr "user")))
                  parts (dict_default message "attachments" (PList [])) with
          | (Raise e, d2) => (Raise e, d2)
          | (Ret _, d2) =>
              let history := history_of (ChatStore.get_messages d2 (cr_id chat) 100) in
              let tokens :=
                LLMPrompt.stream_chat_source (py_repr sur) (llm_stream sur model) history
                  (dict_default data "system_prompt" PNone) in
              (Ret (EventStream "text/event-stream" stream_headers
                      (stream_chat_response_sync (stream_env sur) (cr_id chat) tokens)),
               d2)
          end
      end
  end.

(** [create_or_continue_chat()], on the database the new session opens. *)
Definition create_or_continue_chat (sur : Surroundings) (req : Request) (d : Database)
    : Res Response * Database :=
  match Auth.authenticate sur req with
  | Raise e => (Raise e, d)
  | Ret (inl response) => (Ret response, d)
  | Ret (inr uid) =>
      let data := req_json req in
      if negb (truthy data)
      then (Ret (Json 400 (Auth.error_body "Invalid request body")), d)
      else
        match data with
        | PDict items =>
            let message := dict_default items "message" PNone in
            if negb (truthy message)
            then (Ret (Json 400 (Auth.error_body "Message is required")), d)
            else
              match message with
              | PDict mitems =>
                  let parts := dict_default mitems "parts" PNone in
                  if negb (truthy parts)
                  then (Ret (Json 400 (Auth.error_body "Message is required")), d)
                  else
                    match chat_body sur d uid items mitems parts with
                    | (Raise e, d') =>
                        (Ret (Json 500 (Auth.error_body (exc_str e))), close_database d')
                    | served => served
                    end
              | _ => (Raise (AttributeError message "get"), d)
              end
        | _ => (Raise (AttributeError data "get"), d)
        end
  end.

(** [delete_chat()], the view. *)
Definition delete_chat (sur : Surroundings) (req : Request) (d : Database)
    : Res Response * Database :=
  match Auth.authenticate sur req with
  | Raise e => (Raise e, d)
  | Ret (inl response) => (Ret response, d)
  | Ret (inr uid) =>
      match req_arg req "id" with
      | None => (Ret (Json 400 (Auth.error_body "Chat ID is required")), d)
      | Some chat_id =>
          if chat_id =? ""
          then (Ret (Json 400 (Auth.error_body "Chat ID is required")), d)
          else
            let '(outcome, d') :=
              match uuid_ctor sur (PStr chat_id) with
              | Raise e => (Raise e, d)
              | Ret u =>
                  match ChatStore.delete_chat (chat_commit sur) d u uid with
                  | (Raise e, d1) => (Raise e, d1)
                  | (Ret true, d1) =>
                      (Ret (Json 200 (PDict [ (PStr "success", PBool true);
                                              (PStr "id", PStr chat_id) ])), d1)
                  | (Ret false, d1) =>
                      (Ret (Json 404 (Auth.error_body "Chat not found")), d1)
                  end
              end in
            match outcome with
            | Raise e =>
                if exc_class e =? "ValueError"
                then (Ret (Json 400 (Auth.error_body "Invalid chat ID format")),
                      close_database d')
                else (Raise e, close_database d')
            | Ret response => (Ret response, close_database d')
            end
      end
  end.

(** [Message.to_dict()]. *)
Definition message_to_dict (sur : Surroundings) (m : Message) : PyVal :=
  PDict [ (PStr "id", PStr (msg_id m));
          (PStr "chat_id", PStr (msg_chat_id m));
          (PStr "role", PStr (msg_role m));
          (PStr "parts", msg_parts m);
          (PStr "attachments", msg_attachments m);
          (PStr "created_at", PStr (isoformat sur (msg_created_at m))) ].

(** [get_chat_messages(chat_id)]. *)
Definition get_chat_messages (sur : Surroundings) (req : Request) (chat_id : string)
    (d : Database) : Res Response * Database :=
  match Auth.authenticate sur req with
  | Raise e => (Raise e, d)
  | Ret (inl response) => (Ret response, d)
  | Ret (inr uid) =>
      match uuid_ctor sur (PStr chat_id) with
      | Raise e =>
          if exc_class e =? "ValueError"
          then (Ret (Json 400 (Auth.error_body "Invalid chat ID format")), close_database d)
          else (Raise e, close_database d)
      | Ret u =>
          match ChatStore.get_chat d u uid with
          | None => (Ret (Json 404 (Auth.error_body "Chat not found")), close_database d)
          | Some _ =>
              (Ret (Json 200
                      (PDict [ (PStr "messages",
                                PList (map (message_to_dict sur)
                                           (ChatStore.get_messages d u 100))) ])),
               close_database d)
          end
      end
  end.

(** [Chat.to_dict()]. *)
Definition chat_to_dict (sur : Surroundings) (c : ChatRow) : PyVal :=
  PDict [ (PStr "id", PStr (cr_id c));
          (PStr "user_id", PStr (cr_user_id c));
          (PStr "title", PStr (cr_title c));
          (PStr "visibility", cr_visibility c);
          (PStr "last_context", cr_last_context c);
          (PStr "created_at", PStr (isoformat sur (cr_created_at c)));
          (PStr "updated_at", PStr (isoformat sur (cr_updated_at c))) ].

(** [get_user_history()]. *)
Definition get_user_history (sur : Surroundings) (req : Request) (d : Database)
    : Res Response * Database :=
  match Auth.authenticate sur req with
  | Raise e => (Raise e, d)
  | Ret (inl response) => (Ret response, d)
  | Ret (inr uid) =>
      (Ret (Json 200
              (PDict [ (PStr "chats",
                        PList (map (chat_to_dict sur)
                                   (ChatStore.get_user_chats d uid 50))) ])),
       close_database d)
  end.

End Views.

(** The two tables and the uncommitted messages are those of [d]. *)
Definition same_tables (d d' : Database) : Prop :=
  chat_table d' = chat_table d
  /\ message_table d' = message_table d
  /\ message_pending d' = message_pending d.

(** The messages of a chat, committed or not. *)
Definition messages_of (d : Database) (cid : string) : list Message :=
  filter (fun m => msg_chat_id m =? cid) (message_table d ++ message_pending d).

(** ** More scenarios *)

Definition header_request (user_id_header : string) (body : PyVal) : Request :=
  mkRequest (fun name => if name =? "x-user-id" then Some user_id_header else None)
            body (fun _ => None).

(** [s.replace(pat, "")] for a pattern that is not empty; [skip] counts the
    characters of an occurrence still to pass. *)
Fixpoint drop_all (pat : string) (skip : nat) (s : string) : string :=
  match s with
  | EmptyString => ""
  | String c r =>
      match skip with
      | S n => drop_all pat n r
      | O =>
          if prefix pat s then drop_all pat (String.length pat - 1) r
          else String c (drop_all pat 0 r)
      end
  end.

(** The hexadecimal digits of [s] in lower case, when it holds no other
    character. *)
Fixpoint lower_hex (s : string) : option string :=
  match s with
  | EmptyString => Some ""
  | String c r =>
      let n := nat_of_ascii c in
      let d := if ((65 <=? n) && (n <=? 70))%nat then ascii_of_nat (n + 32) else c in
      match hex_value d, lower_hex r with
      | Some _, Some r' => Some (String d r')
      | _, _ => None
      end
  end.

(** [str(UUID(v))]: in a text, [urn:] and [uuid:] are dropped, braces
    stripped and hyphens dropped; what is left has to be 32 hexadecimal
    digits.  (Of what [int(hex, 16)] reads, only digits are taken here: no
    sign, blank or underscore.) *)
Definition py_uuid (v : PyVal) : Res string :=
  match v with
  | PStr s =>
      let hex :=
        drop_all "-" 0
          (strip (fun c => Ascii.eqb c "{" || Ascii.eqb c "}")
                 (drop_all "uuid:" 0 (drop_all "urn:" 0 s))) in
      if (String.length hex =? 32)%nat then
        match lower_hex hex with
        | Some h =>
            Ret (substring 0 8 h ++ "-" ++ substring 8 4 h ++ "-" ++ substring 12 4 h
                 ++ "-" ++ substring 16 4 h ++ "-" ++ substring 20 12 h)
        | None =>
            Raise (ValueError ("invalid literal for int() with base 16: '" ++ hex ++ "'"))
        end
      else Raise (ValueError "badly formed hexadecimal UUID string")
  | PNone =>
      Raise (TypeError
               "one of the hex, bytes, bytes_le, fields, or int arguments must be given")
  | PBytes _ => Raise (TypeError "a bytes-like object is required, not 'str'")
  | _ => Raise (AttributeError v "replace")
  end.

(** Surroundings with the [UUID] of the library: no token is valid, the
    model gives a title and streams two fragments, every commit succeeds,
    and the new chat gets the identifier shown. *)
Definition uuid_surroundings : Surroundings :=
  mkSurroundings (fun _ => None) py_uuid
                 (fun _ => "?") (fun _ => "?") (fun _ => "2026-01-01T00:00:00")
                 (fun _ _ => Ret "A title") (fun _ _ => (["Hel"; "lo"], None))
                 "44444444-4444-4444-8444-444444444444" 10 10 None
                 scenario_env scenario_env.

(** * Properties *)

(** ** Strings *)

Lemma append_assoc (a b c : string) : (a ++ b) ++ c = a ++ (b ++ c).
Proof. induction a as [|x a IH]; simpl; [reflexivity | now rewrite IH]. Qed.

Lemma append_nil_r (a : string) : a ++ "" = a.
Proof. induction a as [|x a IH]; simpl; [reflexivity | now rewrite IH]. Qed.

Lemma str_forall_app (p : ascii -> bool) (a b : string) :
  str_forall p (a ++ b) = str_forall p a && str_forall p b.
Proof.
  induction a as [|c a IH]; simpl; [reflexivity|].
  rewrite IH. now rewrite andb_assoc.
Qed.

Lemma str_forall_impl (p q : ascii -> bool) (s : string) :
  (forall c, p c = true -> q c = true) ->
  str_forall p s = true -> str_forall q s = true.
Proof.
  intros Hpq. induction s as [|c s IH]; simpl; [reflexivity|].
  intros H. apply andb_true_iff in H as [Hc Hs].
  apply andb_true_iff. split; auto.
Qed.

Lemma printable_not_newline (c : ascii) : printable c = true -> not_newline c = true.
Proof.
  unfold printable, not_newline. intros H.
  destruct (Ascii.eqb_spec c LF) as [->|]; [discriminate H | reflexivity].
Qed.

Lemma str_forall_concat (p : ascii -> bool) (sep : string) (ls : list string) :
  str_forall p sep = true ->
  Forall (fun s => str_forall p s = true) ls ->
  str_forall p (String.concat sep ls) = true.
Proof.
  intros Hsep Hls. induction Hls as [|x xs Hx Hxs IH]; [reflexivity|].
  destruct xs as [|y ys]; [exact Hx|].
  change (str_forall p (x ++ sep ++ String.concat sep (y :: ys)) = true).
  rewrite !str_forall_app, Hx, Hsep, IH. reflexivity.
Qed.

Lemma last_char_app_char (s : string) (c : ascii) :
  last_char (s ++ String c "") = Some c.
Proof.
  induction s as [|d s IH]; [reflexivity|].
  simpl. rewrite IH. destruct (s ++ String c "") eqn:E; [|reflexivity].
  destruct s; discriminate E.
Qed.

(** ** The JSON encoder *)

Lemma json_dumps_elems (room : nat) (l : list PyVal) :
  (fix elems (l : list PyVal) : Res (list string) :=
     match l with
     | [] => Ret []
     | x :: r => sx <- json_dumps x room ;; sr <- elems r ;; Ret (sx :: sr)
     end) l = dumps_elems room l.
Proof.
  induction l as [|x r IH]; [reflexivity|].
  cbn [dumps_elems]. rewrite <- IH. reflexivity.
Qed.

Lemma json_dumps_list (l : list PyVal) (room : nat) :
  json_dumps (PList l) (S room) =
  (parts <- dumps_elems room l ;; Ret ("[" ++ String.concat ", " parts ++ "]")).
Proof. simpl. now rewrite json_dumps_elems. Qed.

Lemma json_dumps_tuple (l : list PyVal) (room : nat) :
  json_dumps (PTuple l) (S room) =
  (parts <- dumps_elems room l ;; Ret ("[" ++ String.concat ", " parts ++ "]")).
Proof. simpl. now rewrite json_dumps_elems. Qed.

Lemma json_dumps_dict (items : list (PyVal * PyVal)) (room : nat) :
  json_dumps (PDict items) (S room) =
  (parts <- dumps_pairs room items ;; Ret ("{" ++ String.concat ", " parts ++ "}")).
Proof.
  assert (E : forall l,
    (fix pairs (l : list (PyVal * PyVal)) : Res (list string) :=
       match l with
       | [] => Ret []
       | (k, v) :: r =>
           sk <- json_key k ;; sv <- json_dumps v room ;; sr <- pairs r ;;
           Ret ((encode_basestring_ascii sk ++ ": " ++ sv) :: sr)
       end) l = dumps_pairs room l).
  { induction l as [|[k v] r IH]; [reflexivity|].
    cbn [dumps_pairs]. rewrite <- IH. reflexivity. }
  simpl. now rewrite E.
Qed.

Lemma bind_Ret_inv {A B : Type} (r : Res A) (k : A -> Res B) (b : B) :
  bind r k = Ret b -> exists a, r = Ret a /\ k a = Ret b.
Proof. destruct r as [a|e]; simpl; [eauto | discriminate]. Qed.

Lemma bind_Raise_inv {A B : Type} (r : Res A) (k : A -> Res B) (e : PyExc) :
  bind r k = Raise e -> r = Raise e \/ exists a, r = Ret a /\ k a = Raise e.
Proof.
  destruct r as [a|e']; simpl; [eauto|]. intros H. left. now injection H as ->.
Qed.

Lemma escape_char_printable (c : ascii) : str_forall printable (escape_char c) = true.
Proof.
  destruct c as [[] [] [] [] [] [] [] []]; reflexivity.
Qed.

Lemma escape_body_printable (s : string) : str_forall printable (escape_body s) = true.
Proof.
  induction s as [|c s IH]; simpl; [reflexivity|].
  now rewrite str_forall_app, escape_char_printable, IH.
Qed.

Lemma encode_basestring_ascii_printable (s : string) :
  str_forall printable (encode_basestring_ascii s) = true.
Proof.
  unfold encode_basestring_ascii.
  now rewrite !str_forall_app, escape_body_printable.
Qed.

Lemma string_of_uint_printable (d : uint) :
  str_forall printable (NilEmpty.string_of_uint d) = true.
Proof. induction d; simpl; auto. Qed.

Lemma int_repr_printable (z : Z) : str_forall printable (int_repr z) = true.
Proof.
  unfold int_repr, NilZero.string_of_int, NilZero.string_of_uint.
  destruct (Z.to_int z) as [d|d]; destruct d;
    try reflexivity; simpl; apply string_of_uint_printable.
Qed.

Lemma int_str_printable (z : Z) (s : string) :
  int_str z = Ret s -> str_forall printable s = true.
Proof.
  unfold int_str. destruct (int_fits z); [|discriminate].
  intros H. injection H as <-. apply int_repr_printable.
Qed.

Lemma zeros_printable (n : nat) : str_forall printable (zeros n) = true.
Proof. induction n as [|n IH]; [reflexivity | exact IH]. Qed.

Lemma substring_printable (a b : nat) (s : string) :
  str_forall printable s = true -> str_forall printable (substring a b s) = true.
Proof.
  revert a b. induction s as [|c s IH]; intros a b H.
  - destruct a, b; reflexivity.
  - simpl in H. apply andb_true_iff in H as [Hc Hs].
    destruct a as [|a]; [destruct b as [|b]; [reflexivity|] |]; simpl.
    + rewrite Hc. now apply IH.
    + now apply IH.
Qed.

Lemma exponent_text_printable (e : Z) : str_forall printable (exponent_text e) = true.
Proof.
  unfold exponent_text. rewrite !str_forall_app, int_repr_printable.
  destruct (e <? 0)%Z, (Z.abs e <? 10)%Z; reflexivity.
Qed.

Lemma float_repr_printable (f : PyFloat) : str_forall printable (float_repr f) = true.
Proof.
  destruct f as [|[]|[]|negative digits point]; try reflexivity.
  unfold float_repr.
  pose proof (int_repr_printable (Z.pos digits)) as D.
  rewrite str_forall_app.
  apply andb_true_iff. split; [now destruct negative|].
  destruct ((point <=? -4) || (16 <? point))%Z.
  - rewrite !str_forall_app, exponent_text_printable, substring_printable by exact D.
    destruct (1 <? String.length (int_repr (Z.pos digits)))%nat; [|reflexivity].
    rewrite str_forall_app, substring_printable by exact D. reflexivity.
  - destruct (point <=? 0)%Z.
    + now rewrite !str_forall_app, zeros_printable, D.
    + destruct (Z.of_nat (String.length (int_repr (Z.pos digits))) <=? point)%Z.
      * now rewrite !str_forall_app, zeros_printable, D.
      * now rewrite !str_forall_app, !substring_printable by exact D.
Qed.

Lemma float_json_printable (f : PyFloat) : str_forall printable (float_json f) = true.
Proof.
  destruct f as [|[]|n|n d p]; try reflexivity; apply float_repr_printable.
Qed.

Lemma json_key_printable (k : PyVal) (sk : string) :
  json_key k = Ret sk -> str_forall printable (encode_basestring_ascii sk) = true.
Proof. intros _. apply encode_basestring_ascii_printable. Qed.

Lemma json_default_raises (o : PyVal) (room : nat) (js : string) :
  json_default o room <> Ret js.
Proof. destruct room as [|[|room]]; discriminate. Qed.

Lemma dumps_elems_printable (room : nat) (l : list PyVal) :
  Forall (fun x => forall js, json_dumps x room = Ret js ->
                              str_forall printable js = true) l ->
  forall parts, dumps_elems room l = Ret parts ->
                Forall (fun s => str_forall printable s = true) parts.
Proof.
  induction 1 as [|x r Hx Hr IHr]; intros parts Hparts; simpl in Hparts.
  - injection Hparts as <-. constructor.
  - apply bind_Ret_inv in Hparts as (sx & Hsx & Hk).
    apply bind_Ret_inv in Hk as (sr & Hsr & Hk). injection Hk as <-.
    constructor; auto.
Qed.

(** Whatever [json.dumps] returns is made of characters in [' '..'~']. *)
Lemma json_dumps_printable (o : PyVal) :
  forall room js, json_dumps o room = Ret js -> str_forall printable js = true.
Proof.
  induction o as [| b | z | f | s | s | l IH | l IH | items IH] using PyVal_nested_ind;
    intros room js H.
  - injection H as <-. reflexivity.
  - injection H as <-. now destruct b.
  - exact (int_str_printable z js H).
  - injection H as <-. apply float_json_printable.
  - injection H as <-. apply encode_basestring_ascii_printable.
  - now apply json_default_raises in H.
  - destruct room as [|room]; [discriminate H|]. rewrite json_dumps_list in H.
    apply bind_Ret_inv in H as (parts & Hparts & Hjs). injection Hjs as <-.
    assert (Hall : Forall (fun s => str_forall printable s = true) parts).
    { apply (dumps_elems_printable room l); [|exact Hparts].
      eapply Forall_impl; [|exact IH]. intros x Hx. apply Hx. }
    simpl. rewrite str_forall_app, (str_forall_concat printable ", " parts); auto.
  - destruct room as [|room]; [discriminate H|]. rewrite json_dumps_tuple in H.
    apply bind_Ret_inv in H as (parts & Hparts & Hjs). injection Hjs as <-.
    assert (Hall : Forall (fun s => str_forall printable s = true) parts).
    { apply (dumps_elems_printable room l); [|exact Hparts].
      eapply Forall_impl; [|exact IH]. intros x Hx. apply Hx. }
    simpl. rewrite str_forall_app, (str_forall_concat printable ", " parts); auto.
  - destruct room as [|room]; [discriminate H|]. rewrite json_dumps_dict in H.
    apply bind_Ret_inv in H as (parts & Hparts & Hjs). injection Hjs as <-.
    assert (Hall : Forall (fun s => str_forall printable s = true) parts).
    { clear - IH Hparts. revert parts Hparts.
      induction IH as [|[k v] r Hv Hr IHr]; intros parts Hparts; simpl in Hparts.
      - injection Hparts as <-. constructor.
      - apply bind_Ret_inv in Hparts as (sk & Hsk & Hk).
        apply bind_Ret_inv in Hk as (sv & Hsv & Hk).
        apply bind_Ret_inv in Hk as (sr & Hsr & Hk). injection Hk as <-.
        constructor; [|now apply IHr].
        change (str_forall printable (encode_basestring_ascii sk ++ ": " ++ sv) = true).
        rewrite !str_forall_app, (json_key_printable k sk Hsk).
        simpl in Hv. rewrite (Hv room sv Hsv). reflexivity. }
    simpl. rewrite str_forall_app, (str_forall_concat printable ", " parts); auto.
Qed.

Lemma nesting_elems_le (l : list PyVal) (room : nat) :
  (fold_right (fun x m => Nat.max (nesting x) m) 0 l <= room)%nat <->
  Forall (fun x => (nesting x <= room)%nat) l.
Proof.
  induction l as [|x r IH]; simpl.
  - split; [constructor | lia].
  - split.
    + intros H. constructor; [lia | apply IH; lia].
    + intros H. inversion H as [|? ? Hx Hr]; subst. apply IH in Hr. lia.
Qed.

Lemma nesting_pairs_le (l : list (PyVal * PyVal)) (room : nat) :
  (fold_right (fun kv m => Nat.max (nesting (snd kv)) m) 0 l <= room)%nat <->
  Forall (fun kv => (nesting (snd kv) <= room)%nat) l.
Proof.
  induction l as [|x r IH]; simpl.
  - split; [constructor | lia].
  - split.
    + intros H. constructor; [lia | apply IH; lia].
    + intros H. inversion H as [|? ? Hx Hr]; subst. apply IH in Hr. lia.
Qed.

Lemma dumps_elems_total (room : nat) (l : list PyVal) :
  Forall (fun x => serializable x = true -> ints_fit x = true ->
                   (nesting x <= room)%nat ->
                   exists js, json_dumps x room = Ret js) l ->
  forallb serializable l = true ->
  forallb ints_fit l = true ->
  Forall (fun x => (nesting x <= room)%nat) l ->
  exists parts, dumps_elems room l = Ret parts.
Proof.
  induction 1 as [|x r Hx Hr IHr]; intros Hs Hi Hn; simpl; [eauto|].
  simpl in Hs, Hi. apply andb_true_iff in Hs as [Hsx Hsr].
  apply andb_true_iff in Hi as [Hix Hir].
  inversion Hn as [|? ? Hnx Hnr]; subst.
  destruct (Hx Hsx Hix Hnx) as [sx ->]. destruct (IHr Hsr Hir Hnr) as [sr ->].
  simpl. eauto.
Qed.

(** [json.dumps] returns on every object made of the types it accepts, with
    integers within the limit, and nested no deeper than its room. *)
Lemma json_dumps_total (o : PyVal) :
  forall room,
    serializable o = true -> ints_fit o = true -> (nesting o <= room)%nat ->
    exists js, json_dumps o room = Ret js.
Proof.
  induction o as [| b | z | f | s | s | l IH | l IH | items IH] using PyVal_nested_ind;
    intros room Hs Hi Hn; try (simpl; eauto; fail).
  - simpl in Hi. simpl. unfold int_str. rewrite Hi. eauto.
  - discriminate Hs.
  - destruct room as [|room]; [simpl in Hn; lia|]. rewrite json_dumps_list.
    cbn [nesting] in Hn. apply le_S_n, nesting_elems_le in Hn.
    destruct (dumps_elems_total room l) as [parts ->]; auto; [|simpl; eauto].
    eapply Forall_impl; [|exact IH]. intros x Hx. apply Hx.
  - destruct room as [|room]; [simpl in Hn; lia|]. rewrite json_dumps_tuple.
    cbn [nesting] in Hn. apply le_S_n, nesting_elems_le in Hn.
    destruct (dumps_elems_total room l) as [parts ->]; auto; [|simpl; eauto].
    eapply Forall_impl; [|exact IH]. intros x Hx. apply Hx.
  - destruct room as [|room]; [simpl in Hn; lia|]. rewrite json_dumps_dict.
    cbn [nesting] in Hn. apply le_S_n, nesting_pairs_le in Hn.
    assert (Hparts : exists parts, dumps_pairs room items = Ret parts).
    { simpl in Hs, Hi. induction IH as [|[k v] r Hv Hr IHr]; simpl; [eauto|].
      simpl in Hs, Hi. apply andb_true_iff in Hs as [Hkv Hsr].
      apply andb_true_iff in Hi as [Hik Hir].
      apply andb_true_iff in Hik as [Hik Hiv].
      inversion Hn as [|? ? Hnv Hnr]; subst.
      destruct (IHr Hsr Hir Hnr) as [sr Er].
      assert (Hk : exists sk, json_key k = Ret sk).
      { destruct k; simpl; eauto; try discriminate.
        unfold int_str. rewrite Hik. eauto. }
      assert (Hsv : serializable v = true) by (destruct k; auto; discriminate).
      destruct Hk as [sk ->]. destruct (Hv room Hsv Hiv Hnv) as [sv Ev].
      simpl in Ev. rewrite Ev, Er. simpl. eauto. }
    destruct Hparts as [parts ->]. simpl. eauto.
Qed.

Lemma int_str_Ret (z : Z) (s : string) : int_str z = Ret s -> int_fits z = true.
Proof. unfold int_str. destruct (int_fits z); [reflexivity | discriminate]. Qed.

Lemma dumps_elems_Ret (room : nat) (l : list PyVal) :
  Forall (fun x => forall js, json_dumps x room = Ret js ->
                              serializable x = true /\ ints_fit x = true
                              /\ (nesting x <= room)%nat) l ->
  forall parts, dumps_elems room l = Ret parts ->
    forallb serializable l = true /\ forallb ints_fit l = true
    /\ Forall (fun x => (nesting x <= room)%nat) l.
Proof.
  induction 1 as [|x r Hx Hr IHr]; intros parts Hparts; simpl in Hparts.
  - repeat split. constructor.
  - apply bind_Ret_inv in Hparts as (sx & Hsx & Hk).
    apply bind_Ret_inv in Hk as (sr & Hsr & _).
    destruct (Hx sx Hsx) as (A & B & C). destruct (IHr sr Hsr) as (A' & B' & C').
    simpl. rewrite A, B, A', B'. repeat split. now constructor.
Qed.

(** [json.dumps] returns on no other object. *)
Lemma json_dumps_Ret (o : PyVal) :
  forall room js,
    json_dumps o room = Ret js ->
    serializable o = true /\ ints_fit o = true /\ (nesting o <= room)%nat.
Proof.
  induction o as [| b | z | f | s | s | l IH | l IH | items IH] using PyVal_nested_ind;
    intros room js H; try (simpl; repeat split; lia).
  - simpl. repeat split; [|lia]. exact (int_str_Ret z js H).
  - now apply json_default_raises in H.
  - destruct room as [|room]; [discriminate H|]. rewrite json_dumps_list in H.
    apply bind_Ret_inv in H as (parts & Hparts & _).
    destruct (dumps_elems_Ret room l) with (parts := parts) as (A & B & C); auto.
    { eapply Forall_impl; [|exact IH]. intros x Hx. apply Hx. }
    cbn [serializable ints_fit nesting]. repeat split; auto.
    apply le_n_S, nesting_elems_le, C.
  - destruct room as [|room]; [discriminate H|]. rewrite json_dumps_tuple in H.
    apply bind_Ret_inv in H as (parts & Hparts & _).
    destruct (dumps_elems_Ret room l) with (parts := parts) as (A & B & C); auto.
    { eapply Forall_impl; [|exact IH]. intros x Hx. apply Hx. }
    cbn [serializable ints_fit nesting]. repeat split; auto.
    apply le_n_S, nesting_elems_le, C.
  - destruct room as [|room]; [discriminate H|]. rewrite json_dumps_dict in H.
    apply bind_Ret_inv in H as (parts & Hparts & _).
    assert (G : forallb (fun kv : PyVal * PyVal =>
                           match fst kv with
                           | PNone | PBool _ | PInt _ | PFloat _ | PStr _ =>
                               serializable (snd kv)
                           | _ => false
                           end) items = true
                /\ forallb (fun kv : PyVal * PyVal =>
                              match fst kv with
                              | PInt z => int_fits z
                              | _ => true
                              end && ints_fit (snd kv)) items = true
                /\ Forall (fun kv => (nesting (snd kv) <= room)%nat) items).
    { clear - IH Hparts. revert parts Hparts.
      induction IH as [|[k v] r Hv Hr IHr]; intros parts Hparts; simpl in Hparts.
      - repeat split. constructor.
      - apply bind_Ret_inv in Hparts as (sk & Hsk & Hk).
        apply bind_Ret_inv in Hk as (sv & Hsv & Hk).
        apply bind_Ret_inv in Hk as (sr & Hsr & _).
        simpl in Hv. destruct (Hv room sv Hsv) as (A & B & C).
        destruct (IHr sr Hsr) as (A' & B' & C').
        cbn [forallb fst snd]. rewrite A, B, A', B'.
        destruct k; try discriminate Hsk; repeat split; try (now constructor).
        simpl in Hsk. now rewrite (int_str_Ret _ _ Hsk). }
    destruct G as (A & B & C).
    cbn [serializable ints_fit nesting]. repeat split; auto.
    apply le_n_S, nesting_pairs_le, C.
Qed.

Lemma dumps_elems_Raise (room : nat) (l : list PyVal) :
  Forall (fun x => forall e, json_dumps x room = Raise e -> failure_class e) l ->
  forall e, dumps_elems room l = Raise e -> failure_class e.
Proof.
  induction 1 as [|x r Hx Hr IHr]; intros e He; simpl in He; [discriminate He|].
  apply bind_Raise_inv in He as [He | (sx & _ & He)]; [now apply Hx|].
  apply bind_Raise_inv in He as [He | (sr & _ & He)]; [now apply IHr | discriminate He].
Qed.

Lemma json_key_Raise (k : PyVal) (e : PyExc) : json_key k = Raise e -> failure_class e.
Proof.
  unfold failure_class.
  destruct k; simpl; try discriminate; try (intros H; injection H as <-; auto; fail).
  unfold int_str. destruct (int_fits z); [discriminate|].
  intros H. injection H as <-. auto.
Qed.

(** The exceptions of [json.dumps]. *)
Lemma json_dumps_Raise (o : PyVal) :
  forall room e, json_dumps o room = Raise e -> failure_class e.
Proof.
  induction o as [| b | z | f | s | s | l IH | l IH | items IH] using PyVal_nested_ind;
    intros room e H; try discriminate H.
  - simpl in H. unfold int_str in H. destruct (int_fits z); [discriminate H|].
    injection H as <-. right. left. reflexivity.
  - unfold failure_class.
    destruct room as [|[|room]]; simpl in H; injection H as <-; auto.
  - destruct room as [|room]; [injection H as <-; right; right; reflexivity|].
    rewrite json_dumps_list in H.
    apply bind_Raise_inv in H as [H | (parts & _ & H)]; [|discriminate H].
    apply (dumps_elems_Raise room l); [|exact H].
    eapply Forall_impl; [|exact IH]. intros x Hx. apply Hx.
  - destruct room as [|room]; [injection H as <-; right; right; reflexivity|].
    rewrite json_dumps_tuple in H.
    apply bind_Raise_inv in H as [H | (parts & _ & H)]; [|discriminate H].
    apply (dumps_elems_Raise room l); [|exact H].
    eapply Forall_impl; [|exact IH]. intros x Hx. apply Hx.
  - destruct room as [|room]; [injection H as <-; right; right; reflexivity|].
    rewrite json_dumps_dict in H.
    apply bind_Raise_inv in H as [H | (parts & _ & H)]; [|discriminate H].
    clear - IH H. revert e H.
    induction IH as [|[k v] r Hv Hr IHr]; intros e H; simpl in H; [discriminate H|].
    apply bind_Raise_inv in H as [H | (sk & _ & H)]; [now apply json_key_Raise in H|].
    apply bind_Raise_inv in H as [H | (sv & _ & H)]; [now apply (Hv room)|].
    apply bind_Raise_inv in H as [H | (sr & _ & H)]; [now apply IHr | discriminate H].
Qed.

(** [json.dumps] returns exactly on the objects it can encode in its room. *)
Lemma json_dumps_encodable (o : PyVal) (room : nat) :
  encodable o room = true <-> exists js, json_dumps o room = Ret js.
Proof.
  unfold encodable. split.
  - intros H. apply andb_true_iff in H as [H Hn]. apply andb_true_iff in H as [Hs Hi].
    apply Nat.leb_le in Hn. now apply json_dumps_total.
  - intros [js H]. apply json_dumps_Ret in H as (A & B & C).
    rewrite A, B. apply Nat.leb_le in C. now rewrite C.
Qed.

Lemma format_sse_frame (data : PyVal) (event js : string) (room : nat) :
  json_dumps data room = Ret js ->
  SSEService.format_sse data event room = Ret (sse_frame event js).
Proof.
  intros H. unfold SSEService.format_sse, sse_frame. rewrite H.
  cbn [bind String.concat]. f_equal.
  now rewrite !append_assoc.
Qed.

(** ** The frames of the coordinator *)

(** A dictionary of strings is encoded whenever there is room for one
    container. *)
Lemma json_dumps_str_dict (fields : list (string * string)) (room : nat) :
  json_dumps (str_dict fields) (S room) = Ret (json_object fields).
Proof.
  unfold str_dict. rewrite json_dumps_dict.
  assert (E : dumps_pairs room (map (fun kv => (PStr (fst kv), PStr (snd kv))) fields)
              = Ret (map json_field fields)).
  { induction fields as [|[k v] r IH]; [reflexivity|].
    cbn [map dumps_pairs fst snd json_key json_dumps bind]. rewrite IH. reflexivity. }
  rewrite E. reflexivity.
Qed.

Lemma emit_str_dict (event : string) (fields : list (string * string)) :
  emit (str_dict fields) event = Ret (event_chunk event fields).
Proof.
  unfold emit, own_room.
  rewrite (format_sse_frame _ _ _ _ (json_dumps_str_dict fields 0)).
  reflexivity.
Qed.

Lemma emit_start (message_id cid : string) :
  emit (start_payload message_id cid) "message" = Ret (start_unit message_id cid).
Proof.
  exact (emit_str_dict "message"
           [("type", "message-start"); ("id", message_id); ("chat_id", cid)]).
Qed.

Lemma emit_delta (token : string) :
  emit (delta_payload token) "message" = Ret (delta_unit token).
Proof.
  exact (emit_str_dict "message" [("type", "text-delta"); ("content", token)]).
Qed.

Lemma emit_finish (message_id : string) :
  emit (finish_payload message_id) "message" = Ret (finish_unit message_id).
Proof.
  exact (emit_str_dict "message" [("type", "message-finish"); ("id", message_id)]).
Qed.

Lemma emit_error_unit (error_message : string) :
  emit_error error_message = Ret (error_unit error_message).
Proof.
  unfold emit_error, SSEService.stream_error, own_room.
  change (SSEService.error_payload error_message SSEService.default_error_code)
    with (str_dict [("type", "error"); ("error", error_message);
                    ("code", SSEService.default_error_code)]).
  rewrite (format_sse_frame _ _ _ _ (json_dumps_str_dict _ 0)). reflexivity.
Qed.

Lemma on_exception_yields (e : PyExc) (g : Coord) (w : World) :
  on_exception e g w = (Yielded (error_unit (exc_str e)), at_pc C_YieldError g, w).
Proof. unfold on_exception. now rewrite emit_error_unit. Qed.

(** ** The coordinator, run to the end *)

Lemma save_result (env : Env) (cid text : string) (w : World) :
  fst (save_assistant_message env cid text w) =
  match env_commit env with
  | Some e => Raise e
  | None => Ret (mkMessage (env_row_id env) cid "assistant" (text_parts text)
                           (PList []) (env_created_at env))
  end.
Proof.
  unfold save_assistant_message, ChatService.add_message, ChatService.commit.
  destruct (env_commit env); reflexivity.
Qed.

Lemma save_calls (env : Env) (cid text : string) (w : World) :
  sink_calls (after_save env cid text w) =
  (sink_calls w ++ [mkSinkCall cid "assistant" (text_parts text) (PList [])])%list.
Proof.
  unfold after_save, save_assistant_message, ChatService.add_message, ChatService.commit.
  destruct (env_commit env); reflexivity.
Qed.

Lemma fold_append (frags : list string) (acc : string) :
  fold_left append frags acc = acc ++ String.concat "" frags.
Proof.
  revert acc. induction frags as [|t r IH]; intros acc; simpl.
  - now rewrite append_nil_r.
  - rewrite IH, append_assoc. destruct r; [now rewrite append_nil_r | reflexivity].
Qed.

(** From a suspension inside the [try] block: the deltas still to come,
    then the terminal unit, then the end of the stream. *)
Lemma loop_collect (env : Env) (cid : string) (failure : option PyExc) :
  forall (frags : list string) (pc : CoordPC) (full : string) (w : World) (n : nat),
    pc = C_YieldStart \/ pc = C_YieldDelta ->
    length frags + 2 <= n ->
    async_collect env n
      (mkCoord pc cid (env_message_id env) (fresh_source frags failure) full) w =
    ((map delta_unit frags ++ [terminal_unit env failure])%list,
     Completed,
     mkCoord C_Closed cid (env_message_id env) (mkSource [] failure true)
             (fold_left append frags full),
     world_at_end env cid (fold_left append frags full) failure w).
Proof.
  induction frags as [|t r IH]; intros pc full w n Hpc Hn.
  - destruct n as [|[|n]]; [simpl in Hn; lia | simpl in Hn; lia |].
    unfold async_collect. cbn [collect].
    assert (Ha : anext env (mkCoord pc cid (env_message_id env) (fresh_source [] failure) full) w
                 = stream_tokens env (mkCoord pc cid (env_message_id env)
                                              (fresh_source [] failure) full) w)
      by (destruct Hpc as [-> | ->]; reflexivity).
    rewrite Ha. unfold stream_tokens, terminal_unit, world_at_end.
    cbn [src_next fresh_source src_ended src_pending src_failure c_tokens c_pc
         c_chat_id c_message_id c_full_response fold_left].
    destruct failure as [e|].
    + rewrite on_exception_yields. reflexivity.
    + pose proof (save_result env cid full w) as Hr.
      unfold after_save.
      destruct (save_assistant_message env cid full w) as [res w'].
      cbn [fst snd] in *. destruct (env_commit env) as [e|]; subst res.
      * rewrite on_exception_yields. reflexivity.
      * rewrite emit_finish. reflexivity.
  - destruct n as [|n]; [simpl in Hn; lia|].
    unfold async_collect. cbn [collect].
    assert (Ha : anext env (mkCoord pc cid (env_message_id env)
                                    (fresh_source (t :: r) failure) full) w
                 = stream_tokens env (mkCoord pc cid (env_message_id env)
                                              (fresh_source (t :: r) failure) full) w)
      by (destruct Hpc as [-> | ->]; reflexivity).
    rewrite Ha. unfold stream_tokens.
    cbn [src_next fresh_source src_ended src_pending src_failure c_tokens c_pc
         c_chat_id c_message_id c_full_response].
    rewrite emit_delta. unfold at_pc.
    cbn [c_chat_id c_message_id c_tokens c_full_response].
    specialize (IH C_YieldDelta (full ++ t) w n (or_intror eq_refl)).
    unfold async_collect, fresh_source in IH. rewrite IH by (simpl in Hn; lia).
    reflexivity.
Qed.

(** The asynchronous generator, iterated to its end. *)
Lemma coordinator_run (env : Env) (cid : string) (frags : list string)
    (failure : option PyExc) (w : World) (n : nat) :
  length frags + 3 <= n ->
  async_collect env n (stream_chat_response env cid (fresh_source frags failure)) w =
  ((start_unit (env_message_id env) cid :: map delta_unit frags
      ++ [terminal_unit env failure])%list,
   Completed,
   mkCoord C_Closed cid (env_message_id env) (mkSource [] failure true)
           (String.concat "" frags),
   world_at_end env cid (String.concat "" frags) failure w).
Proof.
  intros Hn. destruct n as [|n]; [lia|].
  unfold async_collect, stream_chat_response. cbn [collect anext c_pc].
  cbn [c_message_id c_chat_id]. rewrite emit_start. unfold at_pc.
  cbn [c_chat_id c_message_id c_tokens c_full_response].
  pose proof (loop_collect env cid failure frags C_YieldStart "" w n
                (or_introl eq_refl)) as H.
  unfold async_collect in H. rewrite H by lia.
  rewrite fold_append. reflexivity.
Qed.

(** The first [n] deltas, with the consumer still behind the source. *)
Lemma loop_collect_prefix (env : Env) (cid : string) (failure : option PyExc) :
  forall (frags : list string) (pc : CoordPC) (full : string) (w : World) (n : nat),
    pc = C_YieldStart \/ pc = C_YieldDelta ->
    n <= length frags ->
    async_collect env n
      (mkCoord pc cid (env_message_id env) (fresh_source frags failure) full) w =
    (map delta_unit (firstn n frags),
     Pending,
     mkCoord (match n with O => pc | S _ => C_YieldDelta end) cid (env_message_id env)
             (fresh_source (skipn n frags) failure)
             (fold_left append (firstn n frags) full),
     w).
Proof.
  induction frags as [|t r IH]; intros pc full w n Hpc Hn.
  - assert (n = 0) as -> by (simpl in Hn; lia). reflexivity.
  - destruct n as [|n]; [reflexivity|].
    unfold async_collect. cbn [collect].
    assert (Ha : anext env (mkCoord pc cid (env_message_id env)
                                    (fresh_source (t :: r) failure) full) w
                 = stream_tokens env (mkCoord pc cid (env_message_id env)
                                              (fresh_source (t :: r) failure) full) w)
      by (destruct Hpc as [-> | ->]; reflexivity).
    rewrite Ha. unfold stream_tokens.
    cbn [src_next fresh_source src_ended src_pending src_failure c_tokens c_pc
         c_chat_id c_message_id c_full_response].
    rewrite emit_delta. unfold at_pc.
    cbn [c_chat_id c_message_id c_tokens c_full_response].
    specialize (IH C_YieldDelta (full ++ t) w n (or_intror eq_refl)).
    unfold async_collect, fresh_source in IH. rewrite IH by (simpl in Hn; lia).
    cbn [firstn skipn map fold_left]. destruct n; reflexivity.
Qed.

(** All deltas and the terminal unit, with the final pull still to come. *)
Lemma loop_collect_terminal (env : Env) (cid : string) (failure : option PyExc) :
  forall (frags : list string) (pc : CoordPC) (full : string) (w : World),
    pc = C_YieldStart \/ pc = C_YieldDelta ->
    async_collect env (length frags + 1)
      (mkCoord pc cid (env_message_id env) (fresh_source frags failure) full) w =
    ((map delta_unit frags ++ [terminal_unit env failure])%list,
     Pending,
     mkCoord (terminal_pc env failure) cid (env_message_id env)
             (mkSource [] failure true) (fold_left append frags full),
     world_at_terminal env cid (fold_left append frags full) failure w).
Proof.
  induction frags as [|t r IH]; intros pc full w Hpc.
  - unfold async_collect. cbn [length Nat.add collect].
    assert (Ha : anext env (mkCoord pc cid (env_message_id env) (fresh_source [] failure) full) w
                 = stream_tokens env (mkCoord pc cid (env_message_id env)
                                              (fresh_source [] failure) full) w)
      by (destruct Hpc as [-> | ->]; reflexivity).
    rewrite Ha. unfold stream_tokens, terminal_unit, terminal_pc, world_at_terminal.
    cbn [src_next fresh_source src_ended src_pending src_failure c_tokens c_pc
         c_chat_id c_message_id c_full_response fold_left].
    destruct failure as [e|].
    + rewrite on_exception_yields. reflexivity.
    + pose proof (save_result env cid full w) as Hr.
      unfold after_save.
      destruct (save_assistant_message env cid full w) as [res w'].
      cbn [fst snd] in *. destruct (env_commit env) as [e|]; subst res.
      * rewrite on_exception_yields. reflexivity.
      * rewrite emit_finish. reflexivity.
  - unfold async_collect. cbn [length Nat.add collect].
    assert (Ha : anext env (mkCoord pc cid (env_message_id env)
                                    (fresh_source (t :: r) failure) full) w
                 = stream_tokens env (mkCoord pc cid (env_message_id env)
                                              (fresh_source (t :: r) failure) full) w)
      by (destruct Hpc as [-> | ->]; reflexivity).
    rewrite Ha. unfold stream_tokens.
    cbn [src_next fresh_source src_ended src_pending src_failure c_tokens c_pc
         c_chat_id c_message_id c_full_response].
    rewrite emit_delta. unfold at_pc.
    cbn [c_chat_id c_message_id c_tokens c_full_response].
    specialize (IH C_YieldDelta (full ++ t) w (or_intror eq_refl)).
    unfold async_collect, fresh_source in IH. rewrite IH. reflexivity.
Qed.

(** ** The bridge follows the coordinator *)

Lemma pump_collect (env : Env) (loop : LoopState) :
  forall (n : nat) (g : Coord) (w : World),
    sync_collect env n (mkBridge B_Yield loop g) w =
    lift_run loop (async_collect env n g w).
Proof.
  unfold sync_collect, async_collect.
  induction n as [|n IH]; intros g w; [reflexivity|].
  cbn [collect bridge_next b_pc]. unfold pump. cbn [b_async_gen b_loop].
  destruct (anext env g w) as [[[c| |e] g'] w']; try reflexivity.
  rewrite IH. destruct (collect (anext env) n g' w') as [[[cs e] g''] w''].
  reflexivity.
Qed.

Lemma bridge_collect (env : Env) (n : nat) (g : Coord) (w : World) :
  sync_collect env (S n) (mkBridge B_Entry NoLoop g) w =
  lift_run LoopOpen (async_collect env (S n) g w).
Proof.
  unfold sync_collect, async_collect.
  cbn [collect bridge_next b_pc]. unfold pump. cbn [b_async_gen b_loop].
  destruct (anext env g w) as [[[c| |e] g'] w']; try reflexivity.
  pose proof (pump_collect env LoopOpen n g' w') as H.
  unfold sync_collect, async_collect in H. rewrite H.
  destruct (collect (anext env) n g' w') as [[[cs e] g''] w''].
  reflexivity.
Qed.

Lemma lift_run_units (loop : LoopState) (a : list Chunk * Ending * Coord * World) :
  units (lift_run loop a) = units a.
Proof. destruct a as [[[cs e] g] w]. reflexivity. Qed.

Lemma lift_run_ending (loop : LoopState) (a : list Chunk * Ending * Coord * World) :
  ending (lift_run loop a) = ending a.
Proof. destruct a as [[[cs e] g] w]. reflexivity. Qed.

Lemma lift_run_world (loop : LoopState) (a : list Chunk * Ending * Coord * World) :
  final_world (lift_run loop a) = final_world a.
Proof. destruct a as [[[cs e] g] w]. reflexivity. Qed.

(** A whole request, read to the end. *)
Lemma serve_run (env : Env) (cid : string) (frags : list string)
    (failure : option PyExc) (w : World) :
  serve env cid (fresh_source frags failure) w =
  ((start_unit (env_message_id env) cid :: map delta_unit frags
      ++ [terminal_unit env failure])%list,
   Completed,
   mkBridge B_Closed LoopClosed
     (mkCoord C_Closed cid (env_message_id env) (mkSource [] failure true)
              (String.concat "" frags)),
   world_at_end env cid (String.concat "" frags) failure w).
Proof.
  unfold serve, stream_chat_response_sync, enough.
  cbn [fresh_source src_pending].
  replace (length frags + 3) with (S (length frags + 2)) by lia.
  rewrite bridge_collect.
  change (mkSource frags failure false) with (fresh_source frags failure).
  rewrite coordinator_run by lia. reflexivity.
Qed.

(** A request whose client reads [k] units, [1 <= k <= length frags + 1],
    and goes away. *)
Lemma serve_abandoned_run (env : Env) (cid : string) (frags : list string)
    (failure : option PyExc) (w : World) (k : nat) :
  k <= length frags ->
  serve_abandoned env cid (fresh_source frags failure) w (S k) =
  (start_unit (env_message_id env) cid :: map delta_unit (firstn k frags),
   Pending,
   mkBridge B_Closed LoopClosed
     (mkCoord C_Closed cid (env_message_id env) (mkSource [] failure true)
              (String.concat "" (firstn k frags))),
   close_db w).
Proof.
  intros Hk. unfold serve_abandoned, stream_chat_response_sync.
  rewrite bridge_collect.
  unfold async_collect, stream_chat_response. cbn [collect anext c_pc].
  cbn [c_message_id c_chat_id]. rewrite emit_start. unfold at_pc.
  cbn [c_chat_id c_message_id c_tokens c_full_response].
  pose proof (loop_collect_prefix env cid failure frags C_YieldStart "" w k
                (or_introl eq_refl) Hk) as H.
  unfold async_collect in H. rewrite H.
  cbn [lift_run bridge_close b_pc b_async_gen]. rewrite fold_append.
  destruct k; reflexivity.
Qed.


(** ** Events of a run *)

Lemma terminal_unit_is_terminal (env : Env) (failure : option PyExc) :
  is_terminal (terminal_unit env failure) = true.
Proof.
  unfold terminal_unit. destruct failure; [reflexivity|].
  destruct (env_commit env); reflexivity.
Qed.

Lemma terminal_unit_one_kind (env : Env) (failure : option PyExc) :
  xorb (is_finish (terminal_unit env failure)) (is_error (terminal_unit env failure)) = true.
Proof.
  unfold terminal_unit. destruct failure; [reflexivity|].
  destruct (env_commit env); reflexivity.
Qed.

Lemma deltas_not_terminal (frags : list string) :
  forallb (fun c => negb (is_terminal c)) (map delta_unit frags) = true.
Proof. induction frags as [|t r IH]; [reflexivity | exact IH]. Qed.

Lemma filter_deltas (p : Chunk -> bool) (frags : list string) (rest : list Chunk) :
  (forall t, p (delta_unit t) = false) ->
  filter p (map delta_unit frags ++ rest) = filter p rest.
Proof.
  intros Hp. induction frags as [|t r IH]; [reflexivity|].
  replace (filter p (map delta_unit (t :: r) ++ rest))
    with (if p (delta_unit t)
          then delta_unit t :: filter p (map delta_unit r ++ rest)
          else filter p (map delta_unit r ++ rest)) by reflexivity.
  now rewrite Hp.
Qed.

Lemma delta_contents_deltas (frags : list string) (rest : list Chunk) :
  delta_contents (map delta_unit frags ++ rest) = (frags ++ delta_contents rest)%list.
Proof.
  induction frags as [|t r IH]; [reflexivity|].
  change ((t :: delta_contents (map delta_unit r ++ rest)) =
          (t :: r ++ delta_contents rest)%list).
  now rewrite IH.
Qed.

Lemma delta_contents_terminal (env : Env) (failure : option PyExc) :
  delta_contents [terminal_unit env failure] = [].
Proof.
  unfold terminal_unit. destruct failure; [reflexivity|].
  destruct (env_commit env); reflexivity.
Qed.

Lemma existsb_last (p : Chunk -> bool) (cs : list Chunk) (c : Chunk) :
  p c = true -> existsb p (cs ++ [c]) = true.
Proof.
  intros Hc. rewrite existsb_app. simpl. rewrite Hc.
  now rewrite orb_true_r.
Qed.

(** The identifier of the coordinator is fixed when the generator is made. *)
Lemma anext_keeps_message_id (env : Env) (g : Coord) (w : World) :
  c_message_id (snd (fst (anext env g w))) = c_message_id g.
Proof.
  destruct g as [pc cid mid src full]. unfold anext, stream_tokens.
  cbn [c_pc c_tokens]. destruct pc; try reflexivity;
    (destruct (src_next src) as [[t| |e] src']; try reflexivity;
     cbn [c_pc c_chat_id c_message_id c_full_response];
     destruct (save_assistant_message env cid full w) as [[m|e] w']; reflexivity).
Qed.

(** ** Scenarios *)

(** The source yields ["Hel"], an empty chunk that [stream_chat] drops, and
    ["lo"], then is exhausted. *)
Example scenario_hello :
  let r := serve scenario_env "c-1" (LLMService.stream_chat ["Hel"; ""; "lo"] None)
                 scenario_world in
  units r = [start_unit "m-1" "c-1"; delta_unit "Hel"; delta_unit "lo"; finish_unit "m-1"]
  /\ map msg_parts (db_rows (db (final_world r))) = [text_parts "Hello"]
  /\ db_closed (db (final_world r)) = true.
Proof. vm_compute. repeat split. Qed.

(** The source yields ["Par"] and fails with "timeout". *)
Example scenario_timeout :
  let r := serve scenario_env "c-1"
                 (LLMService.stream_chat ["Par"] (Some (mkExc "TimeoutError" "timeout")))
                 scenario_world in
  units r = [start_unit "m-1" "c-1"; delta_unit "Par"; error_unit "timeout"]
  /\ sink_calls (final_world r) = []
  /\ db_closed (db (final_world r)) = true.
Proof. vm_compute. repeat split. Qed.

(** The frame of a text-delta, character by character. *)
Example delta_frame :
  wire (delta_unit "Hi") =
  "event: message" ++ nl ++
  "data: {" ++ dq ++ "type" ++ dq ++ ": " ++ dq ++ "text-delta" ++ dq ++ ", "
            ++ dq ++ "content" ++ dq ++ ": " ++ dq ++ "Hi" ++ dq ++ "}" ++ nl ++ nl.
Proof. reflexivity. Qed.

(** Escapes of the encoder: a line feed, a quote and code point 233. *)
Example escapes :
  json_dumps (PStr ("a" ++ nl ++ dq ++ String "233"%char "")) 0
  = Ret (dq ++ "a\n\" ++ dq ++ "\u00e9" ++ dq).
Proof. reflexivity. Qed.

(** * The properties of the specification *)


(** C2.  Whatever fragments the source yields, whether it is exhausted or
    fails, and whether the sink returns or raises, the stream read to its
    end is a body without terminal event followed by one terminal event,
    which is a message-finish or an error and not both; the generator then
    signals the end of the stream. *)
Theorem single_terminal_event_last
    (env : Env) (cid : string) (frags : list string) (failure : option PyExc) (w : World) :
  let r := serve env cid (fresh_source frags failure) w in
  exists body last,
    units r = (body ++ [last])%list
    /\ forallb (fun c => negb (is_terminal c)) body = true
    /\ is_terminal last = true
    /\ xorb (is_finish last) (is_error last) = true
    /\ length (filter is_terminal (units r)) = 1
    /\ ending r = Completed.
Proof.
  cbv zeta. rewrite serve_run. unfold units, ending. cbn [fst snd].
  exists (start_unit (env_message_id env) cid :: map delta_unit frags),
         (terminal_unit env failure).
  split; [reflexivity|].
  split; [exact (deltas_not_terminal frags)|].
  split; [apply terminal_unit_is_terminal|].
  split; [apply terminal_unit_one_kind|].
  split; [|reflexivity].
  change (length (filter is_terminal
                    (map delta_unit frags ++ [terminal_unit env failure])) = 1).
  rewrite filter_deltas by reflexivity.
  cbn [filter]. now rewrite terminal_unit_is_terminal.
Qed.

(** C3, as stated, fails: when the source is exhausted and the commit of the
    sink raises, the stream carries an error event although the sink was
    called with the full text. *)
Lemma error_event_with_sink_invoked :
  let r := serve scenario_env_commit_fails "c-1" (fresh_source ["Hi"] None)
                 scenario_world in
  existsb is_error (units r) = true
  /\ sink_calls scenario_world = []
  /\ sink_calls (final_world r) =
       [mkSinkCall "c-1" "assistant" (text_parts "Hi") (PList [])].
Proof. vm_compute. repeat split. Qed.

(** C3, amended.  In every stream in which the generation source fails, an
    error event is emitted and the persistence sink is not called: the calls
    recorded, the pending objects and the rows of the session are those from
    before the stream, whatever had been accumulated. *)
Theorem no_persistence_on_source_failure
    (env : Env) (cid : string) (frags : list string) (e : PyExc) (w : World) :
  let r := serve env cid (fresh_source frags (Some e)) w in
  existsb is_error (units r) = true
  /\ sink_calls (final_world r) = sink_calls w
  /\ db_pending (db (final_world r)) = db_pending (db w)
  /\ db_rows (db (final_world r)) = db_rows (db w).
Proof.
  cbv zeta. rewrite serve_run. unfold units, final_world. cbn [fst snd].
  split; [|repeat split].
  change (existsb is_error
            ((start_unit (env_message_id env) cid :: map delta_unit frags)
               ++ [error_unit (exc_str e)]) = true).
  now apply existsb_last.
Qed.

(** C4, as stated, fails: with the source exhausted and the commit of the
    sink raising, no message-finish is delivered; the stream ends in an error
    event that carries the description of the sink's failure. *)
Lemma sink_failure_replaces_finish :
  let r := serve scenario_env_commit_fails "c-1" (fresh_source ["Hi"] None)
                 scenario_world in
  existsb is_finish (units r) = false
  /\ units r = [start_unit "m-1" "c-1"; delta_unit "Hi"; error_unit "db down"]
  /\ sink_calls (final_world r) =
       [mkSinkCall "c-1" "assistant" (text_parts "Hi") (PList [])].
Proof. vm_compute. repeat split. Qed.

(** C4, amended.  On the success path the coordinator calls the persistence
    sink and then emits the terminal event.  A client that has pulled the
    start event and every delta has caused no call of the sink; the pull
    that delivers the terminal event has made the call, with the whole text;
    that event is message-finish when the sink returned and an error event
    with the description of the sink's failure when it raised; the events
    delivered before it are the same in both cases. *)
Theorem persistence_precedes_finish
    (env : Env) (cid : string) (frags : list string) (w : World) :
  let b := stream_chat_response_sync env cid (fresh_source frags None) in
  let before := sync_collect env (length frags + 1) b w in
  let after := sync_collect env (length frags + 2) b w in
  units before = start_unit (env_message_id env) cid :: map delta_unit frags
  /\ sink_calls (final_world before) = sink_calls w
  /\ units after =
       (units before ++
        [match env_commit env with
         | None => finish_unit (env_message_id env)
         | Some e => error_unit (exc_str e)
         end])%list
  /\ sink_calls (final_world after) =
       (sink_calls w ++
        [mkSinkCall cid "assistant" (text_parts (String.concat "" frags)) (PList [])])%list
  /\ units (serve env cid (fresh_source frags None) w) = units after.
Proof.
  cbv zeta. unfold stream_chat_response_sync.
  replace (length frags + 1) with (S (length frags)) by lia.
  replace (length frags + 2) with (S (length frags + 1)) by lia.
  rewrite !bridge_collect, !lift_run_units, !lift_run_world, serve_run.
  unfold async_collect, stream_chat_response. cbn [collect anext c_pc].
  cbn [c_message_id c_chat_id]. rewrite emit_start. unfold at_pc.
  cbn [c_chat_id c_message_id c_tokens c_full_response].
  pose proof (loop_collect_prefix env cid None frags C_YieldStart "" w (length frags)
                (or_introl eq_refl) (le_n _)) as Hp.
  pose proof (loop_collect_terminal env cid None frags C_YieldStart "" w
                (or_introl eq_refl)) as Ht.
  unfold async_collect in Hp, Ht. rewrite Hp, Ht.
  unfold units, final_world. cbn [fst snd].
  rewrite firstn_all, fold_append. unfold world_at_terminal.
  rewrite save_calls. unfold terminal_unit. repeat split.
Qed.

(** C5.  The first unit of every stream is the message-start event, which
    is not a text-delta, so no text-delta precedes it; this is so however
    many units the client pulls, it is the only message-start of the
    stream, and a source that fails
    before its first fragment gives the message-start event followed by the
    error event and nothing else. *)
Theorem start_event_first
    (env : Env) (cid : string) (frags : list string) (failure : option PyExc) (w : World) :
  let r := serve env cid (fresh_source frags failure) w in
  hd_error (units r) = Some (start_unit (env_message_id env) cid)
  /\ is_start (start_unit (env_message_id env) cid) = true
  /\ is_delta (start_unit (env_message_id env) cid) = false
  /\ filter is_start (units r) = [start_unit (env_message_id env) cid]
  /\ (forall n,
        hd_error (units (sync_collect env (S n)
                           (stream_chat_response_sync env cid (fresh_source frags failure))
                           w)) =
        Some (start_unit (env_message_id env) cid))
  /\ (forall e,
        units (serve env cid (fresh_source [] (Some e)) w) =
        [start_unit (env_message_id env) cid; error_unit (exc_str e)]).
Proof.
  cbv zeta.
  assert (Hn : forall n,
             hd_error (units (sync_collect env (S n)
                                (stream_chat_response_sync env cid
                                   (fresh_source frags failure)) w)) =
             Some (start_unit (env_message_id env) cid)).
  { intros n. unfold stream_chat_response_sync.
    rewrite bridge_collect, lift_run_units.
    unfold async_collect, stream_chat_response. cbn [collect anext c_pc].
    cbn [c_message_id c_chat_id]. rewrite emit_start.
    destruct (collect (anext env) n _ w) as [[[cs e] g'] w']. reflexivity. }
  rewrite serve_run. unfold units at 1 2. cbn [fst snd].
  split; [reflexivity|]. split; [reflexivity|]. split; [reflexivity|]. split; [|split].
  - change (start_unit (env_message_id env) cid
              :: filter is_start (map delta_unit frags ++ [terminal_unit env failure])
            = [start_unit (env_message_id env) cid]).
    rewrite filter_deltas by reflexivity.
    unfold terminal_unit. destruct failure; [reflexivity|].
    destruct (env_commit env); reflexivity.
  - exact Hn.
  - intros e. rewrite serve_run. reflexivity.
Qed.

(** C6.  Pulled the same number of times, the synchronous bridge hands over
    the units the asynchronous generator produces, the same units in the same
    order, and ends the way it ends; read through the bridge, a stream over
    any fragments and any ending of the source reaches its end. *)
Theorem bridge_yields_coordinator_sequence
    (env : Env) (cid : string) (tokens : Source) (w : World) (n : nat) :
  let s := sync_collect env n (stream_chat_response_sync env cid tokens) w in
  let a := async_collect env n (stream_chat_response env cid tokens) w in
  units s = units a
  /\ map wire (units s) = map wire (units a)
  /\ ending s = ending a
  /\ final_world s = final_world a
  /\ (forall frags failure,
        ending (serve env cid (fresh_source frags failure) w) = Completed).
Proof.
  cbv zeta. unfold stream_chat_response_sync.
  assert (H : forall frags failure,
             ending (serve env cid (fresh_source frags failure) w) = Completed)
    by (intros; now rewrite serve_run).
  destruct n as [|n]; [repeat split; exact H|].
  rewrite bridge_collect, lift_run_units, lift_run_ending, lift_run_world.
  repeat split; exact H.
Qed.

(** C7, as stated, fails: a payload that holds a [bytes] object, such as the
    one [stream_tool_result] builds for a tool whose output is [bytes], makes
    [format_sse] raise [TypeError] wherever the recursion limit is not met
    first; with whatever room, the payload is rejected. *)
Lemma format_sse_rejects_bytes :
  (forall room,
     SSEService.format_sse
       (PDict [ (PStr "type", PStr "tool-result");
                (PStr "tool", PStr "read_file");
                (PStr "output", PBytes "abc") ]) "tool" (3 + room)
     = Raise (TypeError "Object of type bytes is not JSON serializable"))
  /\ (forall room,
        exists e,
          SSEService.format_sse
            (PDict [ (PStr "type", PStr "tool-result");
                     (PStr "tool", PStr "read_file");
                     (PStr "output", PBytes "abc") ]) "tool" room
          = Raise e).
Proof.
  split; [reflexivity|].
  intros [|[|[|room]]]; eexists; reflexivity.
Qed.

(** C7, amended.  For every channel label and every payload dictionary made
    of the objects [json.dumps] serializes ([None], booleans, integers,
    floats, strings, lists, tuples and dictionaries of these, with the
    scalars among them as keys), whose integers have at most 4300 digits
    and whose containers are nested no deeper than the recursion limit
    leaves room for, [format_sse] returns the frame ["event: <channel>"],
    line feed, ["data: <JSON>"], line feed, line feed, where the JSON text
    is the one [json.dumps] gives for the payload, is made of the characters
    [' '..'~'] only, so holds no line feed, and opens with a brace and
    closes with one. *)
Theorem format_sse_frames_serializable_payload
    (items : list (PyVal * PyVal)) (event : string) (room : nat) :
  serializable (PDict items) = true ->
  ints_fit (PDict items) = true ->
  nesting (PDict items) <= room ->
  exists js,
    json_dumps (PDict items) room = Ret js
    /\ SSEService.format_sse (PDict items) event room =
         Ret ("event: " ++ event ++ nl ++ "data: " ++ js ++ nl ++ nl)
    /\ str_forall printable js = true
    /\ single_line js = true
    /\ first_char js = Some "{"%char
    /\ last_char js = Some "}"%char.
Proof.
  intros Hs Hi Hn. destruct (json_dumps_total _ room Hs Hi Hn) as [js Hjs].
  exists js. split; [exact Hjs|].
  split; [exact (format_sse_frame _ event _ _ Hjs)|].
  split; [exact (json_dumps_printable _ _ _ Hjs)|].
  split.
  - apply (str_forall_impl printable not_newline).
    + apply printable_not_newline.
    + exact (json_dumps_printable _ _ _ Hjs).
  - destruct room as [|room]; [discriminate Hjs|].
    rewrite json_dumps_dict in Hjs.
    apply bind_Ret_inv in Hjs as (parts & _ & Hjs). injection Hjs as <-.
    split; [reflexivity|].
    change ("{" ++ String.concat ", " parts ++ "}")
      with (String "{" (String.concat ", " parts ++ String "}" "")).
    pose proof (last_char_app_char (String.concat ", " parts) "}") as H.
    cbn [last_char]. rewrite H.
    destruct (String.concat ", " parts ++ String "}" "") eqn:E; [|reflexivity].
    destruct (String.concat ", " parts); discriminate E.
Qed.

Lemma format_sse_frames_serializable_payload_witness :
  exists js,
    json_dumps
      (PDict [ (PStr "type", PStr "tool-result");
               (PStr "tool", PStr "get_weather");
               (PStr "output",
                PDict [ (PStr "temperature", PFloat (FDec false 215 2));
                        (PStr "hours", PTuple [PInt 6; PInt 18]);
                        (PStr "alerts", PList []);
                        (PInt 1, PNone) ]) ]) 3 = Ret js
    /\ SSEService.format_sse
         (PDict [ (PStr "type", PStr "tool-result");
                  (PStr "tool", PStr "get_weather");
                  (PStr "output",
                   PDict [ (PStr "temperature", PFloat (FDec false 215 2));
                           (PStr "hours", PTuple [PInt 6; PInt 18]);
                           (PStr "alerts", PList []);
                           (PInt 1, PNone) ]) ]) "tool" 3 =
       Ret ("event: " ++ "tool" ++ nl ++ "data: " ++ js ++ nl ++ nl)
    /\ str_forall printable js = true
    /\ single_line js = true
    /\ first_char js = Some "{"%char
    /\ last_char js = Some "}"%char.
Proof.
  apply (format_sse_frames_serializable_payload
           [ (PStr "type", PStr "tool-result");
             (PStr "tool", PStr "get_weather");
             (PStr "output",
              PDict [ (PStr "temperature", PFloat (FDec false 215 2));
                      (PStr "hours", PTuple [PInt 6; PInt 18]);
                      (PStr "alerts", PList []);
                      (PInt 1, PNone) ]) ]
           "tool" 3).
  - reflexivity.
  - reflexivity.
  - vm_compute. lia.
Defined.

(** C8.  When the generation source fails, before its first fragment or
    after some, the coordinator generator does not let the exception out: it
    is read to its end, and its last unit is the one error event of the
    stream, on the channel ["error"], whose [error] field is the description
    of the failure and whose [code] field is ["internal_error"]. *)
Theorem source_failure_becomes_error_event
    (env : Env) (cid : string) (frags : list string) (e : PyExc) (w : World) :
  let tokens := fresh_source frags (Some e) in
  let r := async_collect env (enough tokens) (stream_chat_response env cid tokens) w in
  ending r = Completed
  /\ units r =
       (start_unit (env_message_id env) cid :: map delta_unit frags
          ++ [error_unit (exc_str e)])%list
  /\ filter is_error (units r) = [error_unit (exc_str e)]
  /\ channel (error_unit (exc_str e)) = "error"
  /\ str_field "error" (error_unit (exc_str e)) = Some (exc_str e)
  /\ str_field "code" (error_unit (exc_str e)) = Some "internal_error"
  /\ ending (serve env cid tokens w) = Completed.
Proof.
  cbv zeta. unfold enough. cbn [fresh_source src_pending].
  change (mkSource frags (Some e) false) with (fresh_source frags (Some e)).
  rewrite coordinator_run by lia. rewrite serve_run.
  unfold units, ending. cbn [fst snd terminal_unit].
  repeat split.
  change (filter is_error (map delta_unit frags ++ [error_unit (exc_str e)])
          = [error_unit (exc_str e)]).
  now rewrite filter_deltas by reflexivity.
Qed.



(** C10.  A stream has one message-start event; its [id] field is the
    identifier made at the start of the stream, every message-finish event
    of the stream carries the same [id], no pull of the coordinator changes
    the identifier it holds, and on the success path the one message-finish
    event is the one with that identifier. *)
Theorem finish_id_equals_start_id
    (env : Env) (cid : string) (frags : list string) (failure : option PyExc) (w : World) :
  let r := serve env cid (fresh_source frags failure) w in
  filter is_start (units r) = [start_unit (env_message_id env) cid]
  /\ str_field "id" (start_unit (env_message_id env) cid) = Some (env_message_id env)
  /\ forallb (fun c => match str_field "id" c with
                       | Some i => i =? env_message_id env
                       | None => false
                       end) (filter is_finish (units r)) = true
  /\ (forall g w', c_message_id (snd (fst (anext env g w'))) = c_message_id g)
  /\ (forall mid rid t1 t2,
        filter is_finish
          (units (serve (mkEnv mid rid t1 t2 None) cid (fresh_source frags None) w)) =
        [finish_unit mid]).
Proof.
  cbv zeta. rewrite serve_run. unfold units. cbn [fst snd].
  assert (Hf : forall p : Chunk -> bool,
             p (start_unit (env_message_id env) cid) = false ->
             (forall t, p (delta_unit t) = false) ->
             filter p (start_unit (env_message_id env) cid
                         :: map delta_unit frags ++ [terminal_unit env failure])
             = filter p [terminal_unit env failure]).
  { intros p Hs Hd. cbn [filter]. rewrite Hs. now apply filter_deltas. }
  split.
  - change (start_unit (env_message_id env) cid
              :: filter is_start (map delta_unit frags ++ [terminal_unit env failure])
            = [start_unit (env_message_id env) cid]).
    rewrite filter_deltas by reflexivity.
    unfold terminal_unit. destruct failure; [reflexivity|].
    destruct (env_commit env); reflexivity.
  - split; [reflexivity|]. split; [|split].
    + rewrite Hf by reflexivity.
      unfold terminal_unit. destruct failure; [reflexivity|].
      destruct (env_commit env); [reflexivity|].
      cbn. rewrite String.eqb_refl. reflexivity.
    + intros g w'. apply anext_keeps_message_id.
    + intros mid rid t1 t2. rewrite serve_run. cbn [fst snd env_message_id].
      change (filter is_finish (map delta_unit frags ++ [finish_unit mid])
              = [finish_unit mid]).
      now rewrite filter_deltas by reflexivity.
Qed.

(** * Further properties *)

(** ** More on strings *)

Lemma length_app_string (a b : string) :
  String.length (a ++ b) = String.length a + String.length b.
Proof. induction a as [|c a IH]; simpl; [reflexivity | now rewrite IH]. Qed.

Lemma length_substring_0 (n : nat) (s : string) :
  String.length (substring 0 n s) = Nat.min n (String.length s).
Proof.
  revert s. induction n as [|n IH]; intros [|c s]; simpl; try reflexivity.
  now rewrite IH.
Qed.

Lemma append_inv_head (a b c : string) : a ++ b = a ++ c -> b = c.
Proof.
  induction a as [|x a IH]; simpl; intros H; [exact H|].
  injection H as H. auto.
Qed.

Lemma concat_empty_sep_cons (x : string) (l : list string) :
  String.concat "" (x :: l) = x ++ String.concat "" l.
Proof. destruct l; simpl; [now rewrite append_nil_r | reflexivity]. Qed.

Lemma concat_snoc (sep : string) (l : list string) (x : string) :
  exists body, String.concat sep (l ++ [x]) = body ++ x.
Proof.
  induction l as [|y l [body IH]].
  - exists "". reflexivity.
  - exists (y ++ sep ++ body).
    change ((y :: l) ++ [x])%list with (y :: (l ++ [x]))%list.
    destruct (l ++ [x])%list as [|z r] eqn:E.
    + destruct l; discriminate E.
    + change (String.concat sep (y :: z :: r))
        with (y ++ sep ++ String.concat sep (z :: r)).
      rewrite IH. now rewrite !append_assoc.
Qed.

(** A piece without the separator is one piece. *)
Lemma py_split_single (s : string) :
  single_line s = true -> py_split LF s = [s].
Proof.
  unfold single_line. induction s as [|c s IH]; simpl; [reflexivity|].
  intros H. apply andb_true_iff in H as [Hc Hs].
  unfold not_newline in Hc. apply negb_true_iff in Hc. rewrite Hc.
  now rewrite (IH Hs).
Qed.

Lemma py_split_line (a b : string) :
  single_line a = true -> py_split LF (a ++ nl ++ b) = a :: py_split LF b.
Proof.
  unfold single_line. induction a as [|c a IH]; simpl; [reflexivity|].
  intros H. apply andb_true_iff in H as [Hc Hs].
  unfold not_newline in Hc. apply negb_true_iff in Hc. rewrite Hc.
  simpl in IH. now rewrite (IH Hs).
Qed.

Lemma single_line_app (a b : string) :
  single_line a = true -> single_line b = true -> single_line (a ++ b) = true.
Proof.
  unfold single_line. intros Ha Hb. now rewrite str_forall_app, Ha, Hb.
Qed.

Lemma printable_single_line (s : string) :
  str_forall printable s = true -> single_line s = true.
Proof. apply str_forall_impl, printable_not_newline. Qed.

(** The four pieces of a frame. *)
Lemma sse_frame_split (event js : string) :
  single_line event = true -> single_line js = true ->
  py_split LF (sse_frame event js) = ["event: " ++ event; "data: " ++ js; ""; ""].
Proof.
  intros He Hj. unfold sse_frame.
  rewrite <- (append_assoc "event: " event).
  rewrite py_split_line by (apply single_line_app; [reflexivity | exact He]).
  rewrite <- (append_assoc "data: " js).
  rewrite py_split_line by (apply single_line_app; [reflexivity | exact Hj]).
  reflexivity.
Qed.

Lemma json_object_single_line (fields : list (string * string)) :
  single_line (json_object fields) = true.
Proof.
  apply printable_single_line.
  exact (json_dumps_printable _ _ _ (json_dumps_str_dict fields 0)).
Qed.

Lemma event_chunk_split (event : string) (fields : list (string * string)) :
  single_line event = true ->
  py_split LF (wire (event_chunk event fields)) =
  ["event: " ++ event; "data: " ++ json_object fields; ""; ""].
Proof.
  intros He. apply sse_frame_split; [exact He | apply json_object_single_line].
Qed.

(** ** [SSEService.stream_chat_response] *)

Lemma emit_plain_start (message_id : string) :
  emit (SSEFrames.plain_start_payload message_id) "message" =
  Ret (SSEFrames.plain_start_unit message_id).
Proof.
  exact (emit_str_dict "message" [("type", "message-start"); ("id", message_id)]).
Qed.

Lemma plain_loop (message_id : string) (failure : option PyExc) :
  forall (frags : list string) (pc : SSEFrames.PlainPC) (w : World) (n : nat),
    pc = SSEFrames.P_YieldStart \/ pc = SSEFrames.P_YieldDelta ->
    length frags + 2 <= n ->
    collect SSEFrames.plain_anext n
      (SSEFrames.mkPlain pc (fresh_source frags failure) message_id) w =
    ((map delta_unit frags ++
      match failure with None => [finish_unit message_id] | Some _ => [] end)%list,
     match failure with None => Completed | Some e => Crashed e end,
     SSEFrames.mkPlain SSEFrames.P_Closed (mkSource [] failure true) message_id,
     w).
Proof.
  induction frags as [|t r IH]; intros pc w n Hpc Hn.
  - destruct n as [|[|n]]; [simpl in Hn; lia | simpl in Hn; lia |].
    destruct failure as [e|];
      destruct Hpc as [-> | ->]; cbn [collect SSEFrames.plain_anext SSEFrames.p_pc];
      cbn [src_next fresh_source src_ended src_pending src_failure
           SSEFrames.p_tokens SSEFrames.p_message_id];
      rewrite ?emit_finish; reflexivity.
  - destruct n as [|n]; [simpl in Hn; lia|].
    assert (Hstep : SSEFrames.plain_anext
                      (SSEFrames.mkPlain pc (fresh_source (t :: r) failure) message_id) w
                    = (Yielded (delta_unit t),
                       SSEFrames.mkPlain SSEFrames.P_YieldDelta
                         (fresh_source r failure) message_id, w)).
    { destruct Hpc as [-> | ->];
        cbn [SSEFrames.plain_anext SSEFrames.p_pc];
        cbn [src_next fresh_source src_ended src_pending src_failure
             SSEFrames.p_tokens SSEFrames.p_message_id];
        rewrite emit_delta; reflexivity. }
    cbn [collect]. rewrite Hstep.
    rewrite (IH SSEFrames.P_YieldDelta w n (or_intror eq_refl)) by (simpl in Hn; lia).
    reflexivity.
Qed.

Lemma plain_run
    (frags : list string) (failure : option PyExc) (message_id : string) (w : World) :
  collect SSEFrames.plain_anext (length frags + 3)
    (SSEFrames.stream_chat_response (fresh_source frags failure) message_id) w =
  ((SSEFrames.plain_start_unit message_id :: map delta_unit frags ++
    match failure with None => [finish_unit message_id] | Some _ => [] end)%list,
   match failure with None => Completed | Some e => Crashed e end,
   SSEFrames.mkPlain SSEFrames.P_Closed (mkSource [] failure true) message_id,
   w).
Proof.
  replace (length frags + 3) with (S (length frags + 2)) by lia.
  unfold SSEFrames.stream_chat_response.
  cbn [collect SSEFrames.plain_anext SSEFrames.p_pc SSEFrames.p_tokens
       SSEFrames.p_message_id].
  rewrite emit_plain_start. cbn [SSEFrames.yield_or_raise].
  rewrite (plain_loop message_id failure frags SSEFrames.P_YieldStart w _
             (or_introl eq_refl) (le_n _)).
  reflexivity.
Qed.

(** X1.  [SSEService.stream_chat_response] yields a message-start event
    (with the identifier and no chat), one text-delta per token and, when
    the token iterator is exhausted, a message-finish event, then ends.
    When the iterator raises, the exception leaves the generator after the
    deltas already yielded: no message-finish is produced, and no error
    event is produced in either case. *)
Theorem plain_stream_has_no_error_event
    (frags : list string) (failure : option PyExc) (message_id : string) (w : World) :
  let r := collect SSEFrames.plain_anext (length frags + 3)
             (SSEFrames.stream_chat_response (fresh_source frags failure) message_id) w in
  units r =
    (SSEFrames.plain_start_unit message_id :: map delta_unit frags ++
     match failure with None => [finish_unit message_id] | Some _ => [] end)%list
  /\ ending r = match failure with None => Completed | Some e => Crashed e end
  /\ existsb is_error (units r) = false
  /\ existsb is_finish (units r) = match failure with None => true | Some _ => false end
  /\ final_world r = w.
Proof.
  cbv zeta. rewrite plain_run. unfold units, ending, final_world. cbn [fst snd].
  split; [reflexivity|]. split; [reflexivity|].
  assert (Hd : forall p : Chunk -> bool,
             (forall t, p (delta_unit t) = false) ->
             forall rest, existsb p (map delta_unit frags ++ rest) = existsb p rest).
  { intros p Hp rest. rewrite existsb_app.
    induction frags as [|t r IH]; [reflexivity|].
    cbn [map existsb]. now rewrite Hp. }
  split; [|split; [|reflexivity]].
  - cbn [existsb]. rewrite Hd by reflexivity. now destruct failure.
  - cbn [existsb]. rewrite Hd by reflexivity. now destruct failure.
Qed.

(** X2.  When the source is exhausted and the sink returns, the coordinator
    of the chat endpoint emits, after its own message-start event, the very
    units [SSEService.stream_chat_response] emits after its message-start
    for the same tokens and identifier; the two start events carry the same
    [id], and the coordinator's also names the chat. *)
Theorem coordinator_extends_plain_stream
    (mid rid : string) (t1 t2 : Z) (cid : string) (frags : list string) (w : World) :
  let env := mkEnv mid rid t1 t2 None in
  let c := units (serve env cid (fresh_source frags None) w) in
  let p := units (collect SSEFrames.plain_anext (length frags + 3)
                    (SSEFrames.stream_chat_response (fresh_source frags None) mid) w) in
  tl c = tl p
  /\ option_map (str_field "id") (hd_error c) = option_map (str_field "id") (hd_error p)
  /\ option_map (str_field "chat_id") (hd_error c) = Some (Some cid)
  /\ option_map (str_field "chat_id") (hd_error p) = Some None.
Proof.
  cbv zeta. rewrite serve_run, plain_run.
  unfold units. cbn [fst snd]. repeat split.
Qed.

(** ** Frames on the wire *)

Lemma event_chunk_one_frame (event : string) (fields : list (string * string)) :
  single_line event = true ->
  exists js,
    (forall room, json_dumps (payload (event_chunk event fields)) (S room) = Ret js)
    /\ py_split LF (wire (event_chunk event fields)) =
       ["event: " ++ channel (event_chunk event fields); "data: " ++ js; ""; ""].
Proof.
  intros He. exists (json_object fields). split.
  - exact (json_dumps_str_dict fields).
  - exact (event_chunk_split event fields He).
Qed.

Lemma terminal_unit_cases (env : Env) (failure : option PyExc) :
  (exists m, terminal_unit env failure = error_unit m)
  \/ terminal_unit env failure = finish_unit (env_message_id env).
Proof.
  unfold terminal_unit. destruct failure as [e|]; [left; eauto|].
  destruct (env_commit env) as [e|]; [left; eauto | now right].
Qed.

(** X3.  Whatever the tokens, the identifiers and the descriptions of
    failures contain (line feeds, blank lines, quotes), every unit of a
    stream is one frame: split at line feeds, it is the line ["event: "]
    with its channel, the line ["data: "] with the JSON text of its payload,
    and the blank line that ends the frame, with nothing after it; the JSON
    text is the one [json.dumps] gives wherever it has room for one
    dictionary. *)
Theorem every_unit_is_one_frame
    (env : Env) (cid : string) (frags : list string) (failure : option PyExc) (w : World) :
  Forall (fun u =>
            exists js,
              (forall room, json_dumps (payload u) (S room) = Ret js)
              /\ py_split LF (wire u) = ["event: " ++ channel u; "data: " ++ js; ""; ""])
         (units (serve env cid (fresh_source frags failure) w)).
Proof.
  rewrite serve_run. unfold units. cbn [fst snd].
  constructor; [now apply event_chunk_one_frame|].
  apply Forall_app. split.
  - apply Forall_forall. intros u Hu. apply in_map_iff in Hu as (t & <- & _).
    now apply event_chunk_one_frame.
  - constructor; [|constructor].
    destruct (terminal_unit_cases env failure) as [[m ->] | ->];
      now apply event_chunk_one_frame.
Qed.

Lemma format_sse_inv (data : PyVal) (event f : string) (room : nat) :
  SSEService.format_sse data event room = Ret f ->
  exists js, json_dumps data room = Ret js /\ f = sse_frame event js.
Proof.
  intros H. destruct (json_dumps data room) as [js|e] eqn:E.
  - exists js. split; [reflexivity|].
    rewrite (format_sse_frame data event js room E) in H. now injection H.
  - unfold SSEService.format_sse in H. rewrite E in H. discriminate H.
Qed.

(** X4.  A frame of [format_sse] names its channel and its data: two calls
    with channel labels free of line feeds that return the same frame,
    whatever room each had, had the same channel and payloads with the same
    JSON text. *)
Theorem frame_determines_channel_and_data
    (d1 d2 : PyVal) (e1 e2 f : string) (r1 r2 : nat) :
  single_line e1 = true ->
  single_line e2 = true ->
  SSEService.format_sse d1 e1 r1 = Ret f ->
  SSEService.format_sse d2 e2 r2 = Ret f ->
  e1 = e2 /\ json_dumps d1 r1 = json_dumps d2 r2.
Proof.
  intros H1 H2 F1 F2.
  apply format_sse_inv in F1 as (j1 & J1 & ->).
  apply format_sse_inv in F2 as (j2 & J2 & E).
  assert (S : py_split LF (sse_frame e1 j1) = py_split LF (sse_frame e2 j2))
    by now rewrite E.
  rewrite !sse_frame_split in S;
    try assumption;
    try (apply printable_single_line; eapply json_dumps_printable; eassumption).
  injection S as Se Sj.
  split; [exact Se|]. now rewrite J1, J2, Sj.
Qed.

Lemma frame_determines_channel_and_data_witness :
  "message" = "message"
  /\ json_dumps (delta_payload "Hi") 1 = json_dumps (delta_payload "Hi") 5.
Proof.
  apply (frame_determines_channel_and_data
           (delta_payload "Hi") (delta_payload "Hi") "message" "message"
           (wire (delta_unit "Hi")) 1 5);
    reflexivity.
Defined.

Lemma format_sse_outcome (data : PyVal) (event : string) (room : nat) :
  match SSEService.format_sse data event room with
  | Ret f =>
      encodable data room = true
      /\ exists js, json_dumps data room = Ret js /\ f = sse_frame event js
                    /\ single_line js = true
  | Raise e => encodable data room = false /\ failure_class e
  end.
Proof.
  destruct (json_dumps data room) as [js|e] eqn:J.
  - rewrite (format_sse_frame data event js room J).
    split; [apply json_dumps_encodable; eauto|]. exists js. repeat split.
    apply printable_single_line. exact (json_dumps_printable _ _ _ J).
  - unfold SSEService.format_sse. rewrite J. cbn [bind].
    split; [|exact (json_dumps_Raise _ _ _ J)].
    destruct (encodable data room) eqn:E; [|reflexivity].
    apply json_dumps_encodable in E as [js E]. congruence.
Qed.

Lemma encodable_field (fields : list (PyVal * PyVal)) (k : string) (v : PyVal)
    (room : nat) :
  encodable (PDict fields) (S room) = true ->
  Forall (fun kv => nesting (snd kv) = 0) fields ->
  encodable (PDict (fields ++ [(PStr k, v)])) (S room) = encodable v room.
Proof.
  unfold encodable. cbn [serializable ints_fit nesting]. intros H F.
  apply andb_true_iff in H as [H _]. apply andb_true_iff in H as [Hs Hi].
  assert (N : fold_right (fun kv m => Nat.max (nesting (snd kv)) m) 0
                (fields ++ [(PStr k, v)])%list = nesting v).
  { clear - F. induction F as [|kv r Hkv Hr IH]; simpl.
    - apply Nat.max_0_r.
    - rewrite Hkv. exact IH. }
  rewrite N, !forallb_app, Hs, Hi. cbn [forallb fst snd andb Nat.leb].
  now rewrite !andb_true_r.
Qed.

(** X5.  [stream_tool_call], [stream_tool_result] and [stream_data] return
    a frame, on the channel ["tool"] or ["data"] and with a one-line JSON
    text, exactly when the tool input, the tool output or the data can be
    encoded inside the dictionary of the frame: it is made of objects
    [json.dumps] serializes, its integers have at most 4300 digits, and its
    containers are nested no deeper than the room left below that
    dictionary.  On any other value they raise [TypeError], [ValueError] or
    [RecursionError] and produce no frame, and with no room at all they
    raise [RecursionError] whatever the value. *)
Theorem tool_and_data_frames
    (name : string) (v : PyVal) (room : nat) :
  match SSEFrames.stream_tool_call name v (S room) with
  | Ret f =>
      encodable v room = true
      /\ exists js, json_dumps (SSEFrames.tool_call_payload name v) (S room) = Ret js
                    /\ f = sse_frame "tool" js /\ single_line js = true
  | Raise e => encodable v room = false /\ failure_class e
  end
  /\ match SSEFrames.stream_tool_result name v (S room) with
     | Ret f =>
         encodable v room = true
         /\ exists js, json_dumps (SSEFrames.tool_result_payload name v) (S room) = Ret js
                       /\ f = sse_frame "tool" js /\ single_line js = true
     | Raise e => encodable v room = false /\ failure_class e
     end
  /\ match SSEFrames.stream_data name v (S room) with
     | Ret f =>
         encodable v room = true
         /\ exists js, json_dumps (SSEFrames.data_payload name v) (S room) = Ret js
                       /\ f = sse_frame "data" js /\ single_line js = true
     | Raise e => encodable v room = false /\ failure_class e
     end
  /\ SSEFrames.stream_tool_call name v 0 = Raise too_deep
  /\ SSEFrames.stream_tool_result name v 0 = Raise too_deep
  /\ SSEFrames.stream_data name v 0 = Raise too_deep.
Proof.
  assert (S1 : encodable (SSEFrames.tool_call_payload name v) (S room) = encodable v room).
  { apply (encodable_field [(PStr "type", PStr "tool-call"); (PStr "tool", PStr name)]);
      [reflexivity | repeat constructor]. }
  assert (S2 : encodable (SSEFrames.tool_result_payload name v) (S room) = encodable v room).
  { apply (encodable_field [(PStr "type", PStr "tool-result"); (PStr "tool", PStr name)]);
      [reflexivity | repeat constructor]. }
  assert (S3 : encodable (SSEFrames.data_payload name v) (S room) = encodable v room).
  { apply (encodable_field [(PStr "type", PStr ("data-" ++ name))]);
      [reflexivity | repeat constructor]. }
  pose proof (format_sse_outcome (SSEFrames.tool_call_payload name v) "tool" (S room)) as H1.
  pose proof (format_sse_outcome (SSEFrames.tool_result_payload name v) "tool" (S room)) as H2.
  pose proof (format_sse_outcome (SSEFrames.data_payload name v) "data" (S room)) as H3.
  rewrite S1 in H1. rewrite S2 in H2. rewrite S3 in H3.
  repeat split; try assumption; reflexivity.
Qed.

(** ** The escapes lose nothing *)

Lemma unescape_one_escape (c : ascii) (r : string) :
  unescape_one (escape_char c ++ r) = Some (c, r).
Proof. destruct c as [[] [] [] [] [] [] [] []]; reflexivity. Qed.

Lemma escape_char_head (c : ascii) (r : string) :
  first_char (escape_char c ++ r) <> Some DQUOTE.
Proof. destruct c as [[] [] [] [] [] [] [] []]; discriminate. Qed.

Lemma escape_body_inj (rest : string) :
  forall t1 t2 : string,
    escape_body t1 ++ String DQUOTE rest = escape_body t2 ++ String DQUOTE rest ->
    t1 = t2.
Proof.
  induction t1 as [|c1 t1 IH]; intros [|c2 t2] H; cbn [escape_body] in H.
  - reflexivity.
  - exfalso. rewrite append_assoc in H.
    apply (escape_char_head c2 (escape_body t2 ++ String DQUOTE rest)).
    rewrite <- H. reflexivity.
  - exfalso. rewrite append_assoc in H.
    apply (escape_char_head c1 (escape_body t1 ++ String DQUOTE rest)).
    rewrite H. reflexivity.
  - rewrite !append_assoc in H.
    pose proof (f_equal unescape_one H) as U.
    rewrite !unescape_one_escape in U. injection U as -> U.
    f_equal. now apply IH.
Qed.

(** On the strings of code points below 256. *)
Lemma narrow_frame_keeps_token (t1 t2 : string) :
  wire (delta_unit t1) = wire (delta_unit t2) -> t1 = t2.
Proof.
  intros H. unfold delta_unit, event_chunk in H. cbn [wire] in H.
  unfold sse_frame, json_object in H.
  cbn [map json_field fst snd String.concat] in H.
  unfold encode_basestring_ascii in H.
  repeat (rewrite append_assoc in H).
  cbn [append] in H.
  repeat (apply append_inv_head in H || injection H as H).
  rewrite !append_assoc in H.
  apply (escape_body_inj ("}" ++ nl ++ nl)).
  exact H.
Qed.

Lemma hex_value_digit (d : nat) : d < 16 -> hex_value (hex_digit d) = Some d.
Proof. intros H. do 16 (destruct d as [|d]; [reflexivity|]). lia. Qed.

Lemma hex4_value_hex4 (n : N) (r : string) :
  (n < 65536)%N -> hex4_value (hex4 n ++ r) = Some (n, r).
Proof.
  intros H. unfold hex4. cbn [append hex4_value].
  assert (A : (n / 4096 < 16)%N) by (apply N.Div0.div_lt_upper_bound; lia).
  assert (B : ((n / 256) mod 16 < 16)%N) by (apply N.mod_lt; lia).
  assert (C : ((n / 16) mod 16 < 16)%N) by (apply N.mod_lt; lia).
  assert (D : (n mod 16 < 16)%N) by (apply N.mod_lt; lia).
  rewrite !hex_value_digit by lia. rewrite !N2Nat.id. do 2 f_equal.
  pose proof (N.div_mod n 16 ltac:(lia)) as E0.
  pose proof (N.div_mod (n / 16) 16 ltac:(lia)) as E1.
  pose proof (N.div_mod (n / 256) 16 ltac:(lia)) as E2.
  assert (F1 : (n / 16 / 16 = n / 256)%N) by (rewrite N.Div0.div_div; reflexivity).
  assert (F2 : (n / 256 / 16 = n / 4096)%N) by (rewrite N.Div0.div_div; reflexivity).
  rewrite F1 in E1. rewrite F2 in E2.
  revert A B C D E0 E1 E2.
  generalize (n / 4096)%N ((n / 256) mod 16)%N ((n / 16) mod 16)%N (n mod 16)%N
             (n / 16)%N (n / 256)%N.
  intros a b c d q1 q2 A B C D E0 E1 E2. lia.
Qed.

Lemma u_escape_value_escape (n : N) (r : string) :
  (n < 65536)%N -> u_escape_value (u_escape4 n ++ r) = Some (n, r).
Proof.
  intros H. unfold u_escape4. cbn [append u_escape_value].
  change (Ascii.eqb BACKSLASH BACKSLASH) with true. cbv iota.
  now apply hex4_value_hex4.
Qed.

Lemma unescape_point_char (c : ascii) (r : string) :
  unescape_point (escape_char c ++ r) = Some (N_of_ascii c, r).
Proof. destruct c as [[] [] [] [] [] [] [] []]; reflexivity. Qed.

Lemma unescape_point_u (n : N) (r : string) :
  (n < 65536)%N ->
  unescape_point (u_escape4 n ++ r) =
  if ((55296 <=? n) && (n <? 56320))%N then
    match u_escape_value r with
    | Some (w, r'') =>
        if ((56320 <=? w) && (w <=? 57343))%N
        then Some ((65536 + (n - 55296) * 1024 + (w - 56320))%N, r'')
        else Some (n, r)
    | None => Some (n, r)
    end
  else Some (n, r).
Proof.
  intros H. pose proof (u_escape_value_escape n r H) as U.
  unfold u_escape4 in *. cbn [append] in *. unfold unescape_point.
  change (Ascii.eqb BACKSLASH BACKSLASH) with true. cbv iota.
  rewrite U. reflexivity.
Qed.

Lemma surrogates_of (n : N) :
  (65536 <= n < 1114112)%N ->
  (55296 <= 55296 - 64 + N.shiftr n 10 < 56320)%N
  /\ (56320 <= 56320 + N.land n 1023 <= 57343)%N
  /\ (65536 + (55296 - 64 + N.shiftr n 10 - 55296) * 1024
      + (56320 + N.land n 1023 - 56320) = n)%N.
Proof.
  intros H. rewrite N.shiftr_div_pow2.
  change 1023%N with (N.ones 10). rewrite N.land_ones.
  change (2 ^ 10)%N with 1024%N.
  pose proof (N.div_mod n 1024 ltac:(lia)) as E.
  assert (A : (n mod 1024 < 1024)%N) by (apply N.mod_lt; lia).
  assert (B : (n / 1024 < 1088)%N) by (apply N.Div0.div_lt_upper_bound; lia).
  assert (C : (64 <= n / 1024)%N).
  { apply N.div_le_lower_bound; lia. }
  revert E A B C. generalize (n / 1024)%N (n mod 1024)%N. intros q m E A B C. lia.
Qed.

Lemma unescape_point_escape (n : N) (r : string) :
  scalar n = true -> unescape_point (escape_point n ++ r) = Some (n, r).
Proof.
  unfold scalar, escape_point. intros H.
  apply andb_true_iff in H as [Hmax Hs]. apply N.ltb_lt in Hmax.
  apply negb_true_iff, andb_false_iff in Hs.
  destruct (n <? 256)%N eqn:E1.
  - apply N.ltb_lt in E1. rewrite unescape_point_char.
    now rewrite N_ascii_embedding.
  - apply N.ltb_ge in E1. destruct (n <? 65536)%N eqn:E2.
    + apply N.ltb_lt in E2. rewrite unescape_point_u by exact E2.
      replace ((55296 <=? n) && (n <? 56320))%N with false; [reflexivity|].
      symmetry. apply andb_false_iff.
      destruct Hs as [Hs | Hs]; [left; exact Hs|].
      apply N.leb_gt in Hs. right. apply N.ltb_ge. lia.
    + apply N.ltb_ge in E2.
      destruct (surrogates_of n (conj E2 Hmax)) as ((H1 & H2) & (L1 & L2) & S).
      rewrite append_assoc, unescape_point_u by lia.
      replace ((55296 <=? 55296 - 64 + N.shiftr n 10)
               && (55296 - 64 + N.shiftr n 10 <? 56320))%N with true
        by (symmetry; apply andb_true_iff; split;
            [apply N.leb_le | apply N.ltb_lt]; assumption).
      rewrite u_escape_value_escape by lia.
      replace ((56320 <=? 56320 + N.land n 1023)
               && (56320 + N.land n 1023 <=? 57343))%N with true
        by (symmetry; apply andb_true_iff; split; apply N.leb_le; assumption).
      now rewrite S.
Qed.

Lemma escape_point_head (n : N) (r : string) :
  first_char (escape_point n ++ r) <> Some DQUOTE.
Proof.
  unfold escape_point. destruct (n <? 256)%N; [apply escape_char_head|].
  destruct (n <? 65536)%N; discriminate.
Qed.

Lemma escape_points_inj (rest : string) :
  forall t1 t2 : list N,
    forallb scalar t1 = true -> forallb scalar t2 = true ->
    escape_points t1 ++ String DQUOTE rest = escape_points t2 ++ String DQUOTE rest ->
    t1 = t2.
Proof.
  induction t1 as [|n1 t1 IH]; intros [|n2 t2] S1 S2 H; cbn [escape_points] in H.
  - reflexivity.
  - exfalso. rewrite append_assoc in H.
    apply (escape_point_head n2 (escape_points t2 ++ String DQUOTE rest)).
    rewrite <- H. reflexivity.
  - exfalso. rewrite append_assoc in H.
    apply (escape_point_head n1 (escape_points t1 ++ String DQUOTE rest)).
    rewrite H. reflexivity.
  - cbn [forallb] in S1, S2.
    apply andb_true_iff in S1 as [A1 S1]. apply andb_true_iff in S2 as [A2 S2].
    rewrite !append_assoc in H.
    pose proof (f_equal unescape_point H) as U.
    rewrite !unescape_point_escape in U by assumption. injection U as -> U.
    f_equal. now apply IH.
Qed.

Lemma escape_points_code_points (t : string) :
  escape_points (code_points t) = escape_body t.
Proof.
  unfold code_points. induction t as [|c t IH]; [reflexivity|].
  cbn [list_ascii_of_string map escape_points escape_body]. rewrite IH.
  unfold escape_point.
  replace (N_of_ascii c <? 256)%N with true
    by (symmetry; apply N.ltb_lt, N_ascii_bounded).
  now rewrite ascii_N_embedding.
Qed.

Lemma wide_frame_of_string (t : string) :
  wide_delta_frame (code_points t) = wire (delta_unit t).
Proof.
  unfold wide_delta_frame, delta_unit, event_chunk. cbn [wire].
  unfold json_object. cbn [map json_field fst snd String.concat].
  rewrite escape_points_code_points. f_equal.
  unfold json_field. cbn [fst snd].
  change (encode_basestring_ascii t) with (dq ++ escape_body t ++ dq).
  now rewrite !append_assoc.
Qed.

(** X6.  A text-delta frame carries its token whole.  For tokens of any
    code points, written as the encoder writes them (it is the frame of
    the coordinator on the strings of the model): two tokens made of
    Unicode scalar values, as every string decoded from UTF-8 is, that
    have the same frame are the same token, whatever quotes, backslashes,
    control characters or characters beyond ASCII they hold.  Surrogate
    code points are excluded for a reason: a character from 65536 on and
    the pair of its surrogates have the same frame. *)
Theorem delta_frame_keeps_token :
  (forall t : string, wide_delta_frame (code_points t) = wire (delta_unit t))
  /\ (forall p1 p2 : list N,
        forallb scalar p1 = true -> forallb scalar p2 = true ->
        wide_delta_frame p1 = wide_delta_frame p2 -> p1 = p2)
  /\ (forall t1 t2 : string, wire (delta_unit t1) = wire (delta_unit t2) -> t1 = t2)
  /\ wide_delta_frame [128512%N] = wide_delta_frame [55357%N; 56832%N].
Proof.
  split; [exact wide_frame_of_string|].
  split; [|split; [exact narrow_frame_keeps_token | reflexivity]].
  intros p1 p2 S1 S2 H. unfold wide_delta_frame, sse_frame in H.
  unfold encode_basestring_ascii in H. cbn [escape_body escape_char append] in H.
  repeat (apply append_inv_head in H || injection H as H).
  apply (escape_points_inj ("}" ++ nl ++ nl) p1 p2 S1 S2).
  rewrite !append_assoc in H. exact H.
Qed.

Lemma delta_frame_keeps_token_witness :
  [72%N; 233%N; 8364%N; 128512%N] = [72%N; 233%N; 8364%N; 128512%N]
  /\ "Hi" = "Hi".
Proof.
  split.
  - apply (proj1 (proj2 delta_frame_keeps_token)
             [72%N; 233%N; 8364%N; 128512%N] [72%N; 233%N; 8364%N; 128512%N]);
      reflexivity.
  - apply (proj1 (proj2 (proj2 delta_frame_keeps_token)) "Hi" "Hi"). reflexivity.
Defined.

(** ** [LLMService] *)

Lemma delta_contents_run (env : Env) (mid cid : string) (frags : list string)
    (failure : option PyExc) :
  delta_contents (start_unit mid cid :: map delta_unit frags ++ [terminal_unit env failure])
  = frags.
Proof.
  change (delta_contents (map delta_unit frags ++ [terminal_unit env failure]) = frags).
  rewrite delta_contents_deltas, delta_contents_terminal. apply app_nil_r.
Qed.

Lemma concat_filter_nonempty (chunks : list string) :
  String.concat "" (filter (fun chunk => negb (chunk =? "")) chunks) =
  String.concat "" chunks.
Proof.
  induction chunks as [|c r IH]; [reflexivity|].
  cbn [filter]. rewrite (concat_empty_sep_cons c r).
  destruct (String.eqb_spec c "") as [->|Hc]; cbn [negb].
  - exact IH.
  - now rewrite concat_empty_sep_cons, IH.
Qed.

(** X7.  [stream_chat] drops the empty chunks of the model and nothing
    else: a stream fed by it has one text-delta per non-empty chunk, in
    order, none with an empty [content], and the contents of its deltas
    concatenated are the text of all the chunks the model delivered. *)
Theorem stream_chat_drops_only_empty_chunks
    (env : Env) (cid : string) (chunks : list string) (failure : option PyExc) (w : World) :
  let r := serve env cid (LLMService.stream_chat chunks failure) w in
  delta_contents (units r) = filter (fun chunk => negb (chunk =? "")) chunks
  /\ Forall (fun t => t <> "") (delta_contents (units r))
  /\ String.concat "" (delta_contents (units r)) = String.concat "" chunks.
Proof.
  cbv zeta. unfold LLMService.stream_chat.
  change (mkSource (filter (fun chunk => negb (chunk =? "")) chunks) failure false)
    with (fresh_source (filter (fun chunk => negb (chunk =? "")) chunks) failure).
  rewrite serve_run. unfold units. cbn [fst snd].
  rewrite delta_contents_run. split; [reflexivity|]. split.
  - apply Forall_forall. intros t Ht. apply filter_In in Ht as [_ Ht].
    intros ->. discriminate Ht.
  - apply concat_filter_nonempty.
Qed.

Lemma collect_text_texts (texts : list string) :
  forall content, collect_text (map text_part texts) content
                  = Ret (content ++ String.concat "" texts).
Proof.
  induction texts as [|t r IH]; intros content.
  - cbn. now rewrite append_nil_r.
  - change (collect_text (map text_part (t :: r)) content)
      with (collect_text (map text_part r) (content ++ t)).
    rewrite IH, concat_empty_sep_cons. now rewrite append_assoc.
Qed.

Lemma append_history_message (py_repr : PyVal -> string) (prompt_parts : list string)
    (role : string) (texts : list string) (attachments : PyVal) :
  LLMPrompt.append_message py_repr prompt_parts
    (history_message role (PList (map text_part texts)) attachments)
  = Ret (prompt_parts ++ prompt_line role (String.concat "" texts))%list.
Proof.
  unfold LLMPrompt.append_message, history_message.
  cbn [py_get dict_items_get String.eqb Ascii.eqb Bool.eqb bind
       LLMPrompt.message_content py_iter].
  rewrite collect_text_texts. cbn [bind append truthy py_eq_str LLMPrompt.py_format].
  unfold prompt_line.
  destruct (String.concat "" texts =? ""); cbn [negb]; [now rewrite app_nil_r|].
  destruct (role =? "user"); [reflexivity|].
  destruct (role =? "assistant"); [reflexivity | now rewrite app_nil_r].
Qed.

(** X8.  For a history whose messages are made of text parts, the prompt is
    the system line (when the system prompt is not empty or null), then one
    line ["User: ..."] or ["Assistant: ..."] per message of that role with
    the texts of its parts concatenated, then ["Assistant:"], joined by
    blank lines.  A message of any other role, a message whose text is
    empty, and the attachments of every message leave nothing in the
    prompt. *)
Theorem prompt_of_text_history
    (py_repr : PyVal -> string)
    (history : list (string * list string * PyVal)) (system_prompt : PyVal) :
  LLMPrompt.convert_messages_to_prompt py_repr
    (map (fun h => history_message (fst (fst h)) (PList (map text_part (snd (fst h))))
                                   (snd h)) history)
    system_prompt
  = Ret (String.concat (nl ++ nl)
           (LLMPrompt.system_part py_repr system_prompt
            ++ flat_map (fun h => prompt_line (fst (fst h))
                                              (String.concat "" (snd (fst h)))) history
            ++ ["Assistant:"])%list).
Proof.
  unfold LLMPrompt.convert_messages_to_prompt.
  assert (H : forall acc,
             LLMPrompt.append_messages py_repr acc
               (map (fun h => history_message (fst (fst h))
                                (PList (map text_part (snd (fst h)))) (snd h)) history)
             = Ret (acc ++ flat_map (fun h => prompt_line (fst (fst h))
                                                (String.concat "" (snd (fst h))))
                             history)%list).
  { induction history as [|[[role texts] att] r IH]; intros acc.
    - cbn. now rewrite app_nil_r.
    - cbn [map LLMPrompt.append_messages fst snd flat_map].
      rewrite append_history_message. cbn [bind]. rewrite IH.
      now rewrite app_assoc. }
  rewrite H. cbn [bind]. now rewrite app_assoc.
Qed.

(** X9.  Whatever the model answers, [generate_title] returns at most 60
    characters: the answer stripped of surrounding white space and quotes
    when that is no longer than 60, else its first 57 characters followed by
    three dots.  When the model raises, so does [generate_title]. *)
Theorem title_at_most_60_characters
    (invoke : string -> Res string) (user_message : string) :
  match LLMPrompt.generate_title invoke user_message with
  | Ret title =>
      String.length title <= 60
      /\ exists response stripped,
           invoke (LLMPrompt.title_prompt user_message) = Ret response
           /\ stripped = strip (Ascii.eqb "'")
                           (strip (Ascii.eqb DQUOTE) (strip is_space response))
           /\ (title = stripped
               \/ (60 < String.length stripped
                   /\ title = substring 0 57 stripped ++ "..."
                   /\ String.length title = 60))
  | Raise e => invoke (LLMPrompt.title_prompt user_message) = Raise e
  end.
Proof.
  unfold LLMPrompt.generate_title.
  destruct (invoke (LLMPrompt.title_prompt user_message)) as [response|e];
    cbn [bind]; [|reflexivity].
  unfold LLMPrompt.clean_title.
  set (stripped := strip (Ascii.eqb "'")
                     (strip (Ascii.eqb DQUOTE) (strip is_space response))).
  destruct (Nat.ltb_spec 60 (String.length stripped)) as [Hl|Hl].
  - assert (Hlen : String.length (substring 0 57 stripped ++ "...") = 60).
    { rewrite length_app_string, length_substring_0. simpl String.length. lia. }
    split; [lia|]. exists response, stripped. repeat split. right. repeat split; assumption.
  - split; [exact Hl|]. exists response, stripped. repeat split. now left.
Qed.

(** X10.  In the registry of models, [is_valid_model] holds of exactly the
    identifiers [get_model_info] knows, the information found under an
    identifier carries that identifier in its [id] entry, every model of
    [list_models] is found again under its own [id], and the default model
    ["phi3:mini"] is valid. *)
Theorem registry_is_consistent :
  (forall m, OllamaModelRegistry.is_valid_model m =
             match OllamaModelRegistry.get_model_info m with
             | Some _ => true
             | None => false
             end)
  /\ (forall m, match OllamaModelRegistry.get_model_info m with
                | Some info => dict_get info "id" = Some (PStr m)
                | None => True
                end)
  /\ Forall (fun info =>
               exists id, dict_get info "id" = Some (PStr id)
                          /\ OllamaModelRegistry.get_model_info id = Some info)
            OllamaModelRegistry.list_models
  /\ OllamaModelRegistry.is_valid_model "phi3:mini" = true.
Proof.
  split; [|split; [|split]].
  - intros m. unfold OllamaModelRegistry.is_valid_model,
      OllamaModelRegistry.get_model_info, OllamaModelRegistry.AVAILABLE_MODELS.
    cbn [existsb OllamaModelRegistry.lookup fst].
    repeat (match goal with
            | |- context [String.eqb ?a m] => destruct (String.eqb a m)
            end; cbn [orb]; try reflexivity).
  - intros m. unfold OllamaModelRegistry.get_model_info,
      OllamaModelRegistry.AVAILABLE_MODELS.
    cbn [OllamaModelRegistry.lookup].
    repeat (match goal with
            | |- context [String.eqb ?a m] =>
                destruct (String.eqb_spec a m) as [<-|_]; [reflexivity|]
            end).
    exact I.
  - repeat constructor; eexists; split; reflexivity.
  - reflexivity.
Qed.

(** ** The tables *)

Lemma touch_row_session (rows : list ChatRow) (cid : string) (now : Z) :
  map (fun r => mkChat (cr_id r) (cr_updated_at r)) (ChatStore.touch_row rows cid now) =
  ChatService.touch_first (map (fun r => mkChat (cr_id r) (cr_updated_at r)) rows) cid now.
Proof.
  induction rows as [|r rest IH]; [reflexivity|].
  cbn [ChatStore.touch_row map ChatService.touch_first chat_id].
  destruct (cr_id r =? cid); cbn [map cr_id cr_updated_at]; [reflexivity|].
  now rewrite IH.
Qed.

(** [ChatStore.add_message] and [ChatService.add_message] agree. *)
Lemma add_message_session (env : Env) (d : Database) (cid role : string)
    (parts attachments : PyVal) :
  ChatService.add_message env (session_of d) cid role parts attachments =
  (fst (ChatStore.add_message env d cid role parts attachments),
   session_of (snd (ChatStore.add_message env d cid role parts attachments))).
Proof.
  unfold ChatService.add_message, ChatStore.add_message, ChatService.commit, session_of.
  cbn [db_pending db_rows db_chats db_closed].
  destruct (env_commit env) as [e|]; cbn [fst snd chat_table message_pending
    message_table handle_closed db_pending db_rows db_chats db_closed];
    now rewrite touch_row_session.
Qed.

Lemma In_firstn {A : Type} (x : A) (n : nat) (l : list A) :
  In x (firstn n l) -> In x l.
Proof.
  revert l. induction n as [|n IH]; intros [|y l]; simpl; try tauto.
  intros [->|H]; [now left | right; now apply IH].
Qed.

Section OrderingFacts.

Context {A : Type}.
Variable key : A -> Z.

Lemma insert_by_In (x y : A) (l : list A) :
  In y (insert_by key x l) <-> y = x \/ In y l.
Proof.
  induction l as [|z l IH]; simpl.
  - intuition.
  - destruct (key x <=? key z)%Z; simpl; [intuition|].
    rewrite IH. intuition.
Qed.

Lemma order_by_In (y : A) (l : list A) : In y (order_by key l) <-> In y l.
Proof.
  induction l as [|x l IH]; simpl; [reflexivity|].
  rewrite insert_by_In, IH. intuition.
Qed.

Lemma insert_by_length (x : A) (l : list A) :
  length (insert_by key x l) = S (length l).
Proof.
  induction l as [|z l IH]; simpl; [reflexivity|].
  destruct (key x <=? key z)%Z; simpl; [reflexivity | now rewrite IH].
Qed.

Lemma order_by_length (l : list A) : length (order_by key l) = length l.
Proof.
  induction l as [|x l IH]; simpl; [reflexivity|].
  now rewrite insert_by_length, IH.
Qed.

Lemma insert_by_sorted (x : A) (l : list A) :
  StronglySorted (fun a b => (key a <= key b)%Z) l ->
  StronglySorted (fun a b => (key a <= key b)%Z) (insert_by key x l).
Proof.
  induction 1 as [|z l Hl IH Hz]; simpl.
  - constructor; constructor.
  - destruct (Z.leb_spec (key x) (key z)) as [Hxz|Hxz].
    + constructor; [constructor; assumption|].
      constructor; [exact Hxz|].
      eapply Forall_impl; [|exact Hz]. simpl. intros a Ha. lia.
    + constructor; [exact IH|].
      apply Forall_forall. intros a Ha. apply insert_by_In in Ha as [->|Ha].
      * lia.
      * rewrite Forall_forall in Hz. now apply Hz.
Qed.

Lemma order_by_sorted (l : list A) :
  StronglySorted (fun a b => (key a <= key b)%Z) (order_by key l).
Proof.
  induction l as [|x l IH]; simpl; [constructor | now apply insert_by_sorted].
Qed.

Lemma firstn_sorted (R : A -> A -> Prop) (n : nat) (l : list A) :
  StronglySorted R l -> StronglySorted R (firstn n l).
Proof.
  intros H. revert n. induction H as [|x l Hl IH Hx]; intros [|n]; simpl;
    try constructor.
  - apply IH.
  - rewrite Forall_forall in *. intros a Ha. apply Hx.
    now apply In_firstn in Ha.
Qed.

Lemma insert_by_snoc (a x : A) (s : list A) :
  (key a <= key x)%Z ->
  insert_by key a (s ++ [x]) = (insert_by key a s ++ [x])%list.
Proof.
  intros Hax. induction s as [|z s IH]; simpl.
  - destruct (Z.leb_spec (key a) (key x)); [reflexivity | lia].
  - destruct (key a <=? key z)%Z; [reflexivity|]. now rewrite IH.
Qed.

(** A row whose key is at least every other key comes last. *)
Lemma order_by_snoc (l : list A) (x : A) :
  Forall (fun a => (key a <= key x)%Z) l ->
  order_by key (l ++ [x]) = (order_by key l ++ [x])%list.
Proof.
  induction 1 as [|a l Ha Hl IH]; [reflexivity|].
  change (insert_by key a (order_by key (l ++ [x])) =
          (insert_by key a (order_by key l) ++ [x])%list).
  rewrite IH. now apply insert_by_snoc.
Qed.

(** A row whose key is below every other key comes first. *)
Lemma sorted_head_least (l : list A) (x : A) :
  StronglySorted (fun a b => (key a <= key b)%Z) l ->
  In x l ->
  (forall y, In y l -> y = x \/ (key x < key y)%Z) ->
  hd_error l = Some x.
Proof.
  intros Hs Hx Hmin. destruct Hs as [|h l Hl Hh]; [destruct Hx|].
  simpl. f_equal. destruct (Hmin h (or_introl eq_refl)) as [->|Hlt]; [reflexivity|].
  destruct Hx as [->|Hx]; [reflexivity|].
  rewrite Forall_forall in Hh. specialize (Hh x Hx). simpl in Hh. lia.
Qed.

End OrderingFacts.

Lemma get_messages_sorted_and_bounded_parts (d : Database) (cid : string) (limit : nat) :
  length (ChatStore.get_messages d cid limit) <= limit
  /\ Forall (fun m => msg_chat_id m = cid /\ In m (message_table d))
            (ChatStore.get_messages d cid limit).
Proof.
  unfold ChatStore.get_messages. split.
  - apply firstn_le_length.
  - apply Forall_forall. intros m Hm. apply In_firstn in Hm.
    apply order_by_In in Hm. apply filter_In in Hm as [Hin Hc].
    split; [now apply String.eqb_eq | exact Hin].
Qed.

Lemma user_chats_bounded_parts (d : Database) (uid : string) (limit : nat) :
  length (ChatStore.get_user_chats d uid limit) <= limit
  /\ Forall (fun c => cr_user_id c = uid /\ In c (chat_table d))
            (ChatStore.get_user_chats d uid limit).
Proof.
  unfold ChatStore.get_user_chats. split.
  - apply firstn_le_length.
  - apply Forall_forall. intros c Hc. apply In_firstn in Hc.
    apply order_by_In in Hc. apply filter_In in Hc as [Hin Hu].
    split; [now apply String.eqb_eq | exact Hin].
Qed.

(** X11.  [get_messages] returns at most [limit] messages, each one a
    stored row of the chat asked for, in ascending order of [created_at]. *)
Theorem get_messages_sorted_and_bounded (d : Database) (cid : string) (limit : nat) :
  length (ChatStore.get_messages d cid limit) <= limit
  /\ Forall (fun m => msg_chat_id m = cid /\ In m (message_table d))
            (ChatStore.get_messages d cid limit)
  /\ StronglySorted (fun a b => (msg_created_at a <= msg_created_at b)%Z)
                    (ChatStore.get_messages d cid limit).
Proof.
  unfold ChatStore.get_messages. split; [|split].
  - apply firstn_le_length.
  - apply Forall_forall. intros m Hm. apply In_firstn in Hm.
    apply order_by_In in Hm. apply filter_In in Hm as [Hin Hc].
    split; [now apply String.eqb_eq | exact Hin].
  - apply firstn_sorted, order_by_sorted.
Qed.

Lemma filter_snoc {A : Type} (p : A -> bool) (l : list A) (x : A) :
  p x = true -> filter p (l ++ [x]) = (filter p l ++ [x])%list.
Proof. intros H. rewrite filter_app. simpl. now rewrite H. Qed.

Lemma added_messages_table (env : Env) (d : Database) (cid role : string)
    (parts attachments : PyVal) :
  env_commit env = None ->
  message_pending d = [] ->
  ChatStore.add_message env d cid role parts attachments =
  (Ret (mkMessage (env_row_id env) cid role parts (py_or attachments (PList []))
                  (env_created_at env)),
   mkDatabase (ChatStore.touch_row (chat_table d) cid (env_touched_at env)) []
     (message_table d ++
      [mkMessage (env_row_id env) cid role parts (py_or attachments (PList []))
                 (env_created_at env)])
     (handle_closed d)).
Proof.
  intros Hc Hp. unfold ChatStore.add_message. now rewrite Hc, Hp.
Qed.

Lemma chat_messages_older (d : Database) (cid : string) (now : Z) :
  Forall (fun m => msg_chat_id m = cid -> (msg_created_at m < now)%Z) (message_table d) ->
  Forall (fun m => (msg_created_at m <= now)%Z)
         (filter (fun m => msg_chat_id m =? cid) (message_table d)).
Proof.
  intros H. apply Forall_forall. intros m Hm. apply filter_In in Hm as [Hin Hc].
  rewrite Forall_forall in H. apply String.eqb_eq in Hc. specialize (H m Hin Hc). lia.
Qed.

(** X12.  A message added to a chat with a commit that succeeds, in a
    session with nothing uncommitted, with a [created_at] later than that of
    every stored message of the chat, is the last one [get_messages]
    returns, after the messages it returned before, as long as the chat
    held fewer than [limit] messages. *)
Theorem added_message_is_read_back
    (env : Env) (d : Database) (cid role : string) (parts attachments : PyVal)
    (limit : nat) :
  env_commit env = None ->
  message_pending d = [] ->
  Forall (fun m => msg_chat_id m = cid -> (msg_created_at m < env_created_at env)%Z)
         (message_table d) ->
  length (filter (fun m => msg_chat_id m =? cid) (message_table d)) < limit ->
  exists message,
    fst (ChatStore.add_message env d cid role parts attachments) = Ret message
    /\ msg_chat_id message = cid
    /\ msg_role message = role
    /\ msg_parts message = parts
    /\ ChatStore.get_messages
         (snd (ChatStore.add_message env d cid role parts attachments)) cid limit =
       (ChatStore.get_messages d cid limit ++ [message])%list.
Proof.
  intros Hc Hp Hold Hlen. rewrite (added_messages_table env d cid role parts attachments Hc Hp).
  eexists. split; [reflexivity|]. cbn [fst snd msg_chat_id msg_role msg_parts].
  repeat split. unfold ChatStore.get_messages. cbn [message_table].
  rewrite filter_snoc by (cbn [msg_chat_id]; apply String.eqb_refl).
  rewrite order_by_snoc by (apply (chat_messages_older d cid _ Hold)).
  rewrite !firstn_all2; [reflexivity | | ].
  - rewrite order_by_length. lia.
  - rewrite length_app, order_by_length. simpl. lia.
Qed.

Lemma added_message_is_read_back_witness :
  let first := mkMessage "row-a" "c-1" "user" (PList [text_part "Hello"]) (PList []) 50 in
  let other := mkMessage "row-b" "c-2" "user" (PList [text_part "Elsewhere"]) (PList []) 55 in
  let answer := mkMessage "row-c" "c-1" "assistant" (PList [text_part "Hi!"]) (PList []) 60 in
  let d := mkDatabase [ mkChatRow "c-1" "u-1" "Greetings" (PStr "private") PNone 49 60;
                        mkChatRow "c-2" "u-2" "Other" (PStr "private") PNone 54 55 ]
                      [] [first; other; answer] false in
  exists message,
    fst (ChatStore.add_message scenario_env d "c-1" "user"
           (PList [text_part "Thanks"]) (PList [])) = Ret message
    /\ msg_chat_id message = "c-1"
    /\ msg_role message = "user"
    /\ msg_parts message = PList [text_part "Thanks"]
    /\ ChatStore.get_messages
         (snd (ChatStore.add_message scenario_env d "c-1" "user"
                 (PList [text_part "Thanks"]) (PList []))) "c-1" 3 =
       ([first; answer] ++ [message])%list.
Proof.
  cbv zeta.
  apply (added_message_is_read_back scenario_env
           (mkDatabase [ mkChatRow "c-1" "u-1" "Greetings" (PStr "private") PNone 49 60;
                         mkChatRow "c-2" "u-2" "Other" (PStr "private") PNone 54 55 ]
                       []
                       [ mkMessage "row-a" "c-1" "user" (PList [text_part "Hello"])
                                   (PList []) 50;
                         mkMessage "row-b" "c-2" "user" (PList [text_part "Elsewhere"])
                                   (PList []) 55;
                         mkMessage "row-c" "c-1" "assistant" (PList [text_part "Hi!"])
                                   (PList []) 60 ]
                       false)
           "c-1" "user" (PList [text_part "Thanks"]) (PList []) 3).
  - reflexivity.
  - reflexivity.
  - repeat constructor; intros _; simpl; lia.
  - simpl. lia.
Defined.

(** X13.  [get_messages] keeps the oldest: once a chat holds [limit]
    messages or more, a message added with a later [created_at] is not
    among the messages returned, which are those returned before. *)
Theorem newest_message_beyond_limit_is_dropped
    (env : Env) (d : Database) (cid role : string) (parts attachments : PyVal)
    (limit : nat) :
  env_commit env = None ->
  message_pending d = [] ->
  Forall (fun m => msg_chat_id m = cid -> (msg_created_at m < env_created_at env)%Z)
         (message_table d) ->
  limit <= length (filter (fun m => msg_chat_id m =? cid) (message_table d)) ->
  ChatStore.get_messages
    (snd (ChatStore.add_message env d cid role parts attachments)) cid limit =
  ChatStore.get_messages d cid limit
  /\ ~ In (mkMessage (env_row_id env) cid role parts (py_or attachments (PList []))
                     (env_created_at env))
          (ChatStore.get_messages
             (snd (ChatStore.add_message env d cid role parts attachments)) cid limit).
Proof.
  intros Hc Hp Hold Hlen. rewrite (added_messages_table env d cid role parts attachments Hc Hp).
  cbn [snd]. unfold ChatStore.get_messages. cbn [message_table].
  rewrite filter_snoc by (cbn [msg_chat_id]; apply String.eqb_refl).
  rewrite order_by_snoc by (apply (chat_messages_older d cid _ Hold)).
  rewrite firstn_app.
  replace (limit - length (order_by msg_created_at
                             (filter (fun m => msg_chat_id m =? cid) (message_table d))))
    with 0 by (rewrite order_by_length; lia).
  cbn [firstn]. rewrite app_nil_r. split; [reflexivity|].
  intros Hin. apply In_firstn in Hin. apply order_by_In in Hin.
  apply filter_In in Hin as [Hin _].
  rewrite Forall_forall in Hold. specialize (Hold _ Hin eq_refl).
  cbn [msg_created_at] in Hold. lia.
Qed.

Lemma newest_message_beyond_limit_is_dropped_witness :
  let d := mkDatabase [] [] [mkMessage "row-0" "c-1" "user" (PList []) (PList []) 50] false in
  ChatStore.get_messages
    (snd (ChatStore.add_message scenario_env d "c-1" "user" (PList []) (PList []))) "c-1" 1 =
  ChatStore.get_messages d "c-1" 1
  /\ ~ In (mkMessage (env_row_id scenario_env) "c-1" "user" (PList [])
                     (py_or (PList []) (PList [])) (env_created_at scenario_env))
          (ChatStore.get_messages
             (snd (ChatStore.add_message scenario_env d "c-1" "user" (PList []) (PList [])))
             "c-1" 1).
Proof.
  apply (newest_message_beyond_limit_is_dropped scenario_env
           (mkDatabase [] [] [mkMessage "row-0" "c-1" "user" (PList []) (PList []) 50] false)
           "c-1" "user" (PList []) (PList []) 1).
  - reflexivity.
  - reflexivity.
  - constructor; [|constructor]. intros _. simpl. lia.
  - simpl. lia.
Defined.

(** X14.  [get_chat] finds a chat only for its owner: the chat it returns
    is a stored row with the identifier and the user asked for; and when it
    finds none (no such chat, or the chat of another user) [delete_chat]
    answers [False] and leaves the database as it was. *)
Theorem chat_is_found_by_its_owner_only
    (fault : option PyExc) (d : Database) (cid uid : string) :
  match ChatStore.get_chat d cid uid with
  | Some chat => cr_id chat = cid /\ cr_user_id chat = uid /\ In chat (chat_table d)
  | None => ChatStore.delete_chat fault d cid uid = (Ret false, d)
  end.
Proof.
  unfold ChatStore.delete_chat.
  destruct (ChatStore.get_chat d cid uid) as [chat|] eqn:E; [|reflexivity].
  unfold ChatStore.get_chat in E. apply find_some in E as [Hin Hp].
  apply andb_true_iff in Hp as [Hi Hu].
  apply String.eqb_eq in Hi. apply String.eqb_eq in Hu. auto.
Qed.

Lemma find_filter_none {A : Type} (p q : A -> bool) (l : list A) :
  (forall x, p x = true -> q x = false) -> find p (filter q l) = None.
Proof.
  intros H. induction l as [|x l IH]; [reflexivity|].
  simpl. destruct (q x) eqn:Q; [|exact IH].
  simpl. destruct (p x) eqn:P; [|exact IH].
  rewrite (H x P) in Q. discriminate Q.
Qed.

Lemma find_filter_kept {A : Type} (p q : A -> bool) (l : list A) :
  (forall x, p x = true -> q x = true) -> find p (filter q l) = find p l.
Proof.
  intros H. induction l as [|x l IH]; [reflexivity|].
  simpl. destruct (p x) eqn:P.
  - rewrite (H x P). simpl. now rewrite P.
  - destruct (q x); simpl; [now rewrite P | exact IH].
Qed.

Lemma filter_filter_none {A : Type} (p q : A -> bool) (l : list A) :
  (forall x, p x = true -> q x = false) -> filter p (filter q l) = [].
Proof.
  intros H. induction l as [|x l IH]; [reflexivity|].
  simpl. destruct (q x) eqn:Q; [|exact IH].
  simpl. destruct (p x) eqn:P; [|exact IH].
  rewrite (H x P) in Q. discriminate Q.
Qed.

Lemma filter_filter_kept {A : Type} (p q : A -> bool) (l : list A) :
  (forall x, p x = true -> q x = true) -> filter p (filter q l) = filter p l.
Proof.
  intros H. induction l as [|x l IH]; [reflexivity|].
  simpl. destruct (p x) eqn:P.
  - rewrite (H x P). simpl. now rewrite P, IH.
  - destruct (q x); simpl; [now rewrite P | exact IH].
Qed.

Lemma eqb_other (a b c : string) : a <> b -> (c =? a) = true -> negb (c =? b) = true.
Proof.
  intros Hab Hc. apply String.eqb_eq in Hc. subst c.
  apply negb_true_iff. now apply String.eqb_neq.
Qed.

(** X15.  When [delete_chat] finds the chat of the user and the commit
    succeeds, in a session with nothing uncommitted, it answers [True]; the
    identifier then names no chat for any user and no message of it is
    left, while every other chat and its messages are found as before. *)
Theorem deleted_chat_is_gone
    (d : Database) (cid uid : string) (chat : ChatRow) :
  ChatStore.get_chat d cid uid = Some chat ->
  message_pending d = [] ->
  let r := ChatStore.delete_chat None d cid uid in
  fst r = Ret true
  /\ (forall u, ChatStore.get_chat (snd r) cid u = None)
  /\ (forall limit, ChatStore.get_messages (snd r) cid limit = [])
  /\ (forall cid' u limit,
        cid' <> cid ->
        ChatStore.get_chat (snd r) cid' u = ChatStore.get_chat d cid' u
        /\ ChatStore.get_messages (snd r) cid' limit = ChatStore.get_messages d cid' limit).
Proof.
  intros Hg Hp. cbv zeta. unfold ChatStore.delete_chat. rewrite Hg, Hp.
  pose proof Hg as Hf. unfold ChatStore.get_chat in Hf.
  apply find_some in Hf as [_ Hf]. apply andb_true_iff in Hf as [Hid _].
  apply String.eqb_eq in Hid. rewrite Hid, app_nil_r. cbn [fst snd].
  split; [reflexivity|]. split; [|split].
  - intros u. unfold ChatStore.get_chat. cbn [chat_table].
    apply find_filter_none. intros x Hx. apply andb_true_iff in Hx as [Hx _].
    now rewrite Hx.
  - intros limit. unfold ChatStore.get_messages. cbn [message_table].
    rewrite filter_filter_none; [now destruct limit|].
    intros x Hx. now rewrite Hx.
  - intros cid' u limit Hne. split.
    + unfold ChatStore.get_chat. cbn [chat_table].
      apply find_filter_kept. intros x Hx. apply andb_true_iff in Hx as [Hx _].
      exact (eqb_other cid' cid (cr_id x) Hne Hx).
    + unfold ChatStore.get_messages. cbn [message_table].
      rewrite filter_filter_kept; [reflexivity|].
      intros x Hx. exact (eqb_other cid' cid (msg_chat_id x) Hne Hx).
Qed.

Lemma deleted_chat_is_gone_witness :
  let d := mkDatabase [mkChatRow "c-1" "u-1" "T" (PStr "private") PNone 1 1] []
                      [mkMessage "row-0" "c-1" "user" (PList []) (PList []) 50] false in
  let r := ChatStore.delete_chat None d "c-1" "u-1" in
  fst r = Ret true
  /\ (forall u, ChatStore.get_chat (snd r) "c-1" u = None)
  /\ (forall limit, ChatStore.get_messages (snd r) "c-1" limit = [])
  /\ (forall cid' u limit,
        cid' <> "c-1" ->
        ChatStore.get_chat (snd r) cid' u = ChatStore.get_chat d cid' u
        /\ ChatStore.get_messages (snd r) cid' limit = ChatStore.get_messages d cid' limit).
Proof.
  apply (deleted_chat_is_gone
           (mkDatabase [mkChatRow "c-1" "u-1" "T" (PStr "private") PNone 1 1] []
                       [mkMessage "row-0" "c-1" "user" (PList []) (PList []) 50] false)
           "c-1" "u-1" (mkChatRow "c-1" "u-1" "T" (PStr "private") PNone 1 1));
    reflexivity.
Defined.

Lemma find_snoc_fresh {A : Type} (p : A -> bool) (l : list A) (x : A) :
  find p (l ++ [x]) = match find p l with
                      | Some y => Some y
                      | None => if p x then Some x else None
                      end.
Proof.
  induction l as [|y l IH]; simpl; [reflexivity|].
  destruct (p y); [reflexivity | exact IH].
Qed.

(** X16.  A chat created under an identifier that no stored chat has, with
    a commit that succeeds, is found again by its owner, with the title and
    the visibility given and no context; no other user finds it, and every
    other identifier names the chat it named before. *)
Theorem created_chat_is_found_by_owner
    (new_id : string) (created updated : Z) (d : Database) (uid title : string)
    (visibility : PyVal) :
  Forall (fun r => cr_id r <> new_id) (chat_table d) ->
  let chat := mkChatRow new_id uid title visibility PNone created updated in
  let r := ChatStore.create_chat new_id created updated None d uid title visibility in
  fst r = Ret chat
  /\ ChatStore.get_chat (snd r) new_id uid = Some chat
  /\ (forall u, u <> uid -> ChatStore.get_chat (snd r) new_id u = None)
  /\ (forall cid u, cid <> new_id ->
        ChatStore.get_chat (snd r) cid u = ChatStore.get_chat d cid u).
Proof.
  intros Hfresh. cbv zeta. unfold ChatStore.create_chat. cbn [fst snd].
  assert (Hnone : forall u, ChatStore.get_chat d new_id u = None).
  { intros u. unfold ChatStore.get_chat.
    destruct (find _ (chat_table d)) as [c|] eqn:E; [|reflexivity].
    apply find_some in E as [Hin Hp]. apply andb_true_iff in Hp as [Hi _].
    apply String.eqb_eq in Hi. rewrite Forall_forall in Hfresh.
    now destruct (Hfresh c Hin). }
  split; [reflexivity|]. split; [|split].
  - unfold ChatStore.get_chat in *. cbn [chat_table]. rewrite find_snoc_fresh, Hnone.
    cbn [cr_id cr_user_id]. now rewrite !String.eqb_refl.
  - intros u Hu. unfold ChatStore.get_chat in *. cbn [chat_table].
    rewrite find_snoc_fresh, Hnone. cbn [cr_id cr_user_id].
    rewrite String.eqb_refl. cbn [andb].
    apply String.eqb_neq in Hu. rewrite String.eqb_sym in Hu. now rewrite Hu.
  - intros cid u Hne. unfold ChatStore.get_chat. cbn [chat_table].
    rewrite find_snoc_fresh. destruct (find _ (chat_table d)); [reflexivity|].
    cbn [cr_id cr_user_id]. apply String.eqb_neq in Hne. rewrite String.eqb_sym in Hne.
    now rewrite Hne.
Qed.

Lemma created_chat_is_found_by_owner_witness :
  let d := mkDatabase [] [] [] false in
  let chat := mkChatRow "c-9" "u-1" "Title" (PStr "private") PNone 1 2 in
  let r := ChatStore.create_chat "c-9" 1 2 None d "u-1" "Title" (PStr "private") in
  fst r = Ret chat
  /\ ChatStore.get_chat (snd r) "c-9" "u-1" = Some chat
  /\ (forall u, u <> "u-1" -> ChatStore.get_chat (snd r) "c-9" u = None)
  /\ (forall cid u, cid <> "c-9" ->
        ChatStore.get_chat (snd r) cid u = ChatStore.get_chat d cid u).
Proof.
  apply (created_chat_is_found_by_owner "c-9" 1 2 (mkDatabase [] [] [] false)
           "u-1" "Title" (PStr "private")).
  constructor.
Defined.

Lemma find_existsb {A : Type} (p : A -> bool) (l : list A) :
  existsb p l = match find p l with Some _ => true | None => false end.
Proof.
  induction l as [|x l IH]; [reflexivity|].
  simpl. destruct (p x); [reflexivity | exact IH].
Qed.

Lemma get_chat_after_set_context (rows : list ChatRow) (cid : string) (context : PyVal)
    (now : Z) (c : ChatRow) :
  find (fun r => cr_id r =? cid) rows = Some c ->
  find (fun r => (cr_id r =? cid) && (cr_user_id r =? cr_user_id c))
       (ChatStore.set_context rows cid context now) =
  Some (mkChatRow (cr_id c) (cr_user_id c) (cr_title c) (cr_visibility c) context
                  (cr_created_at c) now).
Proof.
  induction rows as [|r rest IH]; [discriminate|].
  cbn [find ChatStore.set_context]. destruct (cr_id r =? cid) eqn:E.
  - intros H. injection H as ->. cbn [find cr_id cr_user_id].
    now rewrite E, String.eqb_refl.
  - intros H. cbn [find]. rewrite E. cbn [andb]. now apply IH.
Qed.

(** X17.  [update_chat_context] looks the chat up by its identifier alone:
    when a chat has it, whoever owns that chat, the call answers [True] and
    the owner then finds the chat with the new context, a new [updated_at]
    and its other columns as they were; when no chat has it, the call
    answers [False] and leaves the database as it was. *)
Theorem context_update_is_read_back
    (now : Z) (fault : option PyExc) (d : Database) (cid : string) (context : PyVal) :
  match find (fun r => cr_id r =? cid) (chat_table d) with
  | Some c =>
      fst (ChatStore.update_chat_context now None d cid context) = Ret true
      /\ ChatStore.get_chat (snd (ChatStore.update_chat_context now None d cid context))
                            cid (cr_user_id c) =
         Some (mkChatRow (cr_id c) (cr_user_id c) (cr_title c) (cr_visibility c) context
                         (cr_created_at c) now)
  | None => ChatStore.update_chat_context now fault d cid context = (Ret false, d)
  end.
Proof.
  unfold ChatStore.update_chat_context. rewrite find_existsb.
  destruct (find (fun r => cr_id r =? cid) (chat_table d)) as [c|] eqn:E;
    [|reflexivity].
  cbn [fst snd]. split; [reflexivity|].
  unfold ChatStore.get_chat. cbn [chat_table].
  now apply get_chat_after_set_context.
Qed.

(** X18.  [get_user_chats] returns at most [limit] chats, each one a stored
    chat of the user asked for, the most recently updated first. *)
Theorem user_chats_sorted_and_bounded (d : Database) (uid : string) (limit : nat) :
  length (ChatStore.get_user_chats d uid limit) <= limit
  /\ Forall (fun c => cr_user_id c = uid /\ In c (chat_table d))
            (ChatStore.get_user_chats d uid limit)
  /\ StronglySorted (fun a b => (cr_updated_at b <= cr_updated_at a)%Z)
                    (ChatStore.get_user_chats d uid limit).
Proof.
  unfold ChatStore.get_user_chats. split; [|split].
  - apply firstn_le_length.
  - apply Forall_forall. intros c Hc. apply In_firstn in Hc.
    apply order_by_In in Hc. apply filter_In in Hc as [Hin Hu].
    split; [now apply String.eqb_eq | exact Hin].
  - apply firstn_sorted.
    pose proof (order_by_sorted (fun r => (- cr_updated_at r)%Z)
                  (filter (fun r => cr_user_id r =? uid) (chat_table d))) as H.
    eapply StronglySorted_ind with
      (P := fun l => StronglySorted (fun a b => (cr_updated_at b <= cr_updated_at a)%Z) l);
      [constructor | | exact H].
    intros a l _ IH Ha. constructor; [exact IH|].
    eapply Forall_impl; [|exact Ha]. simpl. intros b Hb. lia.
Qed.

Lemma touch_row_found (rows : list ChatRow) (cid : string) (now : Z) (c : ChatRow) :
  find (fun r => cr_id r =? cid) rows = Some c ->
  In (mkChatRow (cr_id c) (cr_user_id c) (cr_title c) (cr_visibility c)
                (cr_last_context c) (cr_created_at c) now)
     (ChatStore.touch_row rows cid now)
  /\ forall y, In y (ChatStore.touch_row rows cid now) ->
               y = mkChatRow (cr_id c) (cr_user_id c) (cr_title c) (cr_visibility c)
                             (cr_last_context c) (cr_created_at c) now
               \/ In y rows.
Proof.
  induction rows as [|r rest IH]; [discriminate|].
  cbn [find ChatStore.touch_row]. destruct (cr_id r =? cid) eqn:E.
  - intros H. injection H as ->. split; [now left|].
    intros y [<-|Hy]; [now left | right; now right].
  - intros H. destruct (IH H) as [Hin Hall]. split; [now right|].
    intros y [<-|Hy]; [right; now left|].
    destruct (Hall y Hy) as [->|Hy']; [now left | right; now right].
Qed.

Lemma hd_error_firstn {A : Type} (n : nat) (l : list A) :
  0 < n -> hd_error (firstn n l) = hd_error l.
Proof. destruct n; [lia|]. now destruct l. Qed.

(** X19.  Adding a message to a chat moves the chat to the head of its
    owner's list: when the commit succeeds and the new [updated_at] is
    later than that of every chat of the owner, [get_user_chats] returns
    the chat first, with that [updated_at] and its other columns as they
    were. *)
Theorem touched_chat_comes_first
    (env : Env) (d : Database) (cid role : string) (parts attachments : PyVal)
    (limit : nat) (c : ChatRow) :
  env_commit env = None ->
  find (fun r => cr_id r =? cid) (chat_table d) = Some c ->
  Forall (fun r => cr_user_id r = cr_user_id c ->
                   (cr_updated_at r < env_touched_at env)%Z) (chat_table d) ->
  0 < limit ->
  hd_error (ChatStore.get_user_chats
              (snd (ChatStore.add_message env d cid role parts attachments))
              (cr_user_id c) limit) =
  Some (mkChatRow (cr_id c) (cr_user_id c) (cr_title c) (cr_visibility c)
                  (cr_last_context c) (cr_created_at c) (env_touched_at env)).
Proof.
  intros Hc Hf Hold Hl. unfold ChatStore.add_message. rewrite Hc. cbn [snd].
  unfold ChatStore.get_user_chats. cbn [chat_table].
  rewrite hd_error_firstn by exact Hl.
  destruct (touch_row_found (chat_table d) cid (env_touched_at env) c Hf) as [Hin Hall].
  apply (sorted_head_least (fun r => (- cr_updated_at r)%Z)).
  - apply order_by_sorted.
  - apply order_by_In. apply filter_In. split; [exact Hin|].
    cbn [cr_user_id]. apply String.eqb_refl.
  - intros y Hy. apply order_by_In in Hy. apply filter_In in Hy as [Hy Hu].
    destruct (Hall y Hy) as [->|Hy']; [now left|]. right.
    apply String.eqb_eq in Hu. rewrite Forall_forall in Hold.
    specialize (Hold y Hy' Hu). cbn [cr_updated_at]. lia.
Qed.

Lemma touched_chat_comes_first_witness :
  let old := mkChatRow "c-0" "u-1" "Old" (PStr "private") PNone 1 90 in
  let c := mkChatRow "c-1" "u-1" "T" (PStr "private") PNone 1 5 in
  hd_error (ChatStore.get_user_chats
              (snd (ChatStore.add_message scenario_env (mkDatabase [old; c] [] [] false)
                      "c-1" "user" (PList []) (PList [])))
              (cr_user_id c) 50) =
  Some (mkChatRow (cr_id c) (cr_user_id c) (cr_title c) (cr_visibility c)
                  (cr_last_context c) (cr_created_at c) (env_touched_at scenario_env)).
Proof.
  apply (touched_chat_comes_first scenario_env
           (mkDatabase [mkChatRow "c-0" "u-1" "Old" (PStr "private") PNone 1 90;
                        mkChatRow "c-1" "u-1" "T" (PStr "private") PNone 1 5] [] [] false)
           "c-1" "user" (PList []) (PList []) 50
           (mkChatRow "c-1" "u-1" "T" (PStr "private") PNone 1 5)).
  - reflexivity.
  - reflexivity.
  - repeat constructor; intros _; simpl; lia.
  - lia.
Defined.

(** ** Authentication *)

Lemma py_split_nonempty (sep : ascii) (s : string) : py_split sep s <> [].
Proof.
  induction s as [|c s IH]; simpl; [discriminate|].
  destruct (Ascii.eqb c sep); [discriminate|].
  destruct (py_split sep s); discriminate.
Qed.

Lemma bearer_has_token (auth_header : string) :
  prefix "Bearer " auth_header = true ->
  exists token, nth_error (py_split " " auth_header) 1 = Some token.
Proof.
  intros H.
  do 7 (destruct auth_header as [|? auth_header]; [discriminate H|];
        cbn [prefix] in H;
        match type of H with
        | (if ascii_dec ?a ?b then _ else _) = true =>
            destruct (ascii_dec a b) as [<-|]; [|discriminate H]
        end).
  cbn [py_split Ascii.eqb Bool.eqb].
  destruct (py_split " " auth_header) as [|token rest] eqn:E.
  - now destruct (py_split_nonempty " " auth_header).
  - exists token. reflexivity.
Qed.

(** X20.  [get_user_from_request] never raises: when the [Authorization]
    header starts with ["Bearer "], the piece after the first space that it
    takes as the token always exists.  It returns no user or a non-empty
    dictionary. *)
Theorem get_user_from_request_returns (sur : Surroundings) (req : Request) :
  exists user,
    Auth.get_user_from_request sur req = Ret user
    /\ match user with
       | None => True
       | Some u => truthy u = true /\ exists items, u = PDict items
       end.
Proof.
  assert (Hh : match Auth.user_from_header req with
               | None => True
               | Some u => truthy u = true /\ exists items, u = PDict items
               end).
  { unfold Auth.user_from_header. destruct (req_header req "x-user-id") as [h|]; [|exact I].
    destruct (h =? ""); [exact I|]. split; [reflexivity | eexists; reflexivity]. }
  unfold Auth.get_user_from_request.
  destruct (req_header req "Authorization") as [h|]; [|eauto].
  destruct (negb (h =? "") && prefix "Bearer " h) eqn:E; [|eauto].
  apply andb_true_iff in E as [_ E].
  destruct (bearer_has_token h E) as [token ->].
  unfold Auth.extract_user_from_token.
  destruct (jwt_decode sur token) as [items|]; cbn [option_map]; [|eauto].
  destruct (truthy (PDict items)) eqn:T; [|eauto].
  eexists. split; [reflexivity|]. split; [exact T | eexists; reflexivity].
Qed.

(** X21.  A request without an [Authorization] header is authenticated by
    its [x-user-id] header alone: the user is the one the header names, with
    the fixed development e-mail, and when the header is the text of a UUID
    the views take that identifier as the user's. *)
Theorem header_alone_authenticates
    (sur : Surroundings) (req : Request) (user_id_header uid : string) :
  req_header req "Authorization" = None ->
  req_header req "x-user-id" = Some user_id_header ->
  user_id_header <> "" ->
  uuid_ctor sur (PStr user_id_header) = Ret uid ->
  Auth.get_user_from_request sur req = Ret (Some (Auth.dev_user user_id_header))
  /\ Auth.get_user_id_from_request sur req = Ret (Some uid)
  /\ Auth.authenticate sur req = Ret (inr uid).
Proof.
  intros Ha Hx Hne Hu.
  assert (H1 : Auth.get_user_from_request sur req = Ret (Some (Auth.dev_user user_id_header))).
  { unfold Auth.get_user_from_request, Auth.user_from_header. rewrite Ha, Hx.
    apply String.eqb_neq in Hne. now rewrite Hne. }
  assert (H2 : Auth.get_user_id_from_request sur req = Ret (Some uid)).
  { unfold Auth.get_user_id_from_request. rewrite H1. cbn. now rewrite Hu. }
  split; [exact H1|]. split; [exact H2|].
  unfold Auth.authenticate. rewrite H1. cbn [bind]. now rewrite H2.
Qed.

Lemma header_alone_authenticates_witness :
  Auth.get_user_from_request uuid_surroundings
    (header_request "{ABCDEF12-3456-4789-8ABC-DEF123456789}" PNone)
    = Ret (Some (Auth.dev_user "{ABCDEF12-3456-4789-8ABC-DEF123456789}"))
  /\ Auth.get_user_id_from_request uuid_surroundings
       (header_request "{ABCDEF12-3456-4789-8ABC-DEF123456789}" PNone)
     = Ret (Some "abcdef12-3456-4789-8abc-def123456789")
  /\ Auth.authenticate uuid_surroundings
       (header_request "{ABCDEF12-3456-4789-8ABC-DEF123456789}" PNone)
     = Ret (inr "abcdef12-3456-4789-8abc-def123456789").
Proof.
  apply (header_alone_authenticates uuid_surroundings
           (header_request "{ABCDEF12-3456-4789-8ABC-DEF123456789}" PNone)
           "{ABCDEF12-3456-4789-8ABC-DEF123456789}"
           "abcdef12-3456-4789-8abc-def123456789").
  - reflexivity.
  - reflexivity.
  - discriminate.
  - reflexivity.
Defined.

(** ** The views *)

Lemma authenticate_refusal (sur : Surroundings) (req : Request) (response : Response) :
  Auth.authenticate sur req = Ret (inl response) ->
  exists body, response = Json 401 body.
Proof.
  unfold Auth.authenticate.
  destruct (Auth.get_user_from_request sur req) as [[u|]|e]; cbn [bind].
  - destruct (Auth.get_user_id_from_request sur req) as [[uid|]|e]; cbn [bind];
      intros H; try discriminate H.
    injection H as <-. eauto.
  - intros H. injection H as <-. eauto.
  - discriminate.
Qed.

Lemma create_chat_closed (new_id : string) (created updated : Z) (fault : option PyExc)
    (d : Database) (uid title : string) (visibility : PyVal) :
  handle_closed (snd (ChatStore.create_chat new_id created updated fault d uid title
                        visibility)) = handle_closed d.
Proof. unfold ChatStore.create_chat. now destruct fault. Qed.

Lemma add_message_closed (env : Env) (d : Database) (cid role : string)
    (parts attachments : PyVal) :
  handle_closed (snd (ChatStore.add_message env d cid role parts attachments))
  = handle_closed d.
Proof. unfold ChatStore.add_message. now destruct (env_commit env). Qed.

Lemma new_chat_closed (sur : Surroundings) (d : Database) (uid : string)
    (data : list (PyVal * PyVal)) (parts model : PyVal) :
  handle_closed (snd (Views.new_chat sur d uid data parts model)) = handle_closed d.
Proof.
  unfold Views.new_chat.
  destruct (bind (py_iter parts) _) as [title|e]; [|reflexivity].
  apply create_chat_closed.
Qed.

(** What the [try] block gives: a stream, or an exception. *)
Lemma chat_body_outcomes (sur : Surroundings) (d : Database) (uid : string)
    (data message : list (PyVal * PyVal)) (parts : PyVal) :
  match Views.chat_body sur d uid data message parts with
  | (Ret (Json _ _), _) => False
  | (Ret (EventStream mimetype headers _), d') =>
      mimetype = "text/event-stream" /\ headers = Views.stream_headers
      /\ handle_closed d' = handle_closed d
  | (Raise _, _) => True
  end.
Proof.
  unfold Views.chat_body.
  destruct (Views.find_chat sur d _ uid) as [found|e]; [|exact I].
  assert (H1 : handle_closed
                 (snd (match found with
                       | Some chat => (Ret chat, d)
                       | None => Views.new_chat sur d uid data parts
                                   (py_or (Views.dict_default data "model_id" (PStr "phi3:mini"))
                                          (PStr "phi3:mini"))
                       end)) = handle_closed d).
  { destruct found; [reflexivity | apply new_chat_closed]. }
  destruct (match found with Some chat => _ | None => _ end) as [[chat|e] d1];
    [|exact I].
  cbn [snd] in H1.
  pose proof (add_message_closed (user_env sur) d1 (cr_id chat)
                (Views.column_text sur (Views.dict_default message "role" (PStr "user")))
                parts (Views.dict_default message "attachments" (PList []))) as H2.
  destruct (ChatStore.add_message _ d1 _ _ _ _) as [[m|e] d2]; [|exact I].
  cbn [snd] in H2. repeat split. now rewrite H2.
Qed.

(** X22.  [create_or_continue_chat] answers in one of four ways.  A
    refusal, 401 or 400, leaves the database as it was.  An answer 500
    carries the text of an exception and leaves the session closed.  A
    stream has the event-stream content type and the three headers against
    caching and buffering, and leaves the session open for the generator.
    An exception leaves the view only before the database is touched. *)
Theorem chat_view_outcomes (sur : Surroundings) (req : Request) (d : Database) :
  match Views.create_or_continue_chat sur req d with
  | (Ret (Json status body), d') =>
      ((status = 401 \/ status = 400) /\ d' = d)
      \/ (status = 500 /\ handle_closed d' = true
          /\ exists e, body = Auth.error_body (exc_str e))
  | (Ret (EventStream mimetype headers _), d') =>
      mimetype = "text/event-stream"
      /\ headers = Views.stream_headers
      /\ handle_closed d' = handle_closed d
  | (Raise _, d') => d' = d
  end.
Proof.
  unfold Views.create_or_continue_chat.
  destruct (Auth.authenticate sur req) as [[response|uid]|e] eqn:A; [| |reflexivity].
  - destruct (authenticate_refusal sur req response A) as [body ->]. left. auto.
  - destruct (truthy (req_json req)); cbn [negb]; [|left; auto].
    destruct (req_json req) as [| | | | | | | |items]; try reflexivity.
    destruct (truthy (Views.dict_default items "message" PNone)); cbn [negb];
      [|left; auto].
    destruct (Views.dict_default items "message" PNone) as [| | | | | | | |mitems];
      try reflexivity.
    destruct (truthy (Views.dict_default mitems "parts" PNone)); cbn [negb];
      [|left; auto].
    pose proof (chat_body_outcomes sur d uid items mitems
                  (Views.dict_default mitems "parts" PNone)) as H.
    destruct (Views.chat_body sur d uid items mitems _) as [[[status body|m h g]|e] d'].
    + destruct H.
    + exact H.
    + right. split; [reflexivity|]. split; [reflexivity|]. eauto.
Qed.

Lemma messages_of_add_message (env : Env) (d : Database) (target role : string)
    (parts attachments : PyVal) (cid : string) :
  cid <> target ->
  messages_of (snd (ChatStore.add_message env d target role parts attachments)) cid
  = messages_of d cid.
Proof.
  intros Hne. apply String.eqb_neq in Hne. rewrite String.eqb_sym in Hne.
  unfold messages_of, ChatStore.add_message.
  destruct (env_commit env); cbn [snd message_table message_pending];
    rewrite ?app_nil_r, ?app_assoc, filter_app; cbn [filter msg_chat_id];
    rewrite Hne; now rewrite app_nil_r.
Qed.

Lemma messages_of_create_chat (new_id : string) (created updated : Z)
    (fault : option PyExc) (d : Database) (uid title : string) (visibility : PyVal)
    (cid : string) :
  messages_of (snd (ChatStore.create_chat new_id created updated fault d uid title
                      visibility)) cid = messages_of d cid.
Proof.
  unfold messages_of, ChatStore.create_chat.
  destruct fault; cbn [snd message_table message_pending]; [reflexivity|].
  now rewrite app_nil_r.
Qed.

Lemma new_chat_result (sur : Surroundings) (d : Database) (uid : string)
    (data : list (PyVal * PyVal)) (parts model : PyVal) (cid : string) :
  messages_of (snd (Views.new_chat sur d uid data parts model)) cid = messages_of d cid
  /\ forall chat, fst (Views.new_chat sur d uid data parts model) = Ret chat ->
                  cr_id chat = new_chat_id sur /\ cr_user_id chat = uid.
Proof.
  unfold Views.new_chat.
  destruct (bind (py_iter parts) _) as [title|e]; [|split; [reflexivity | discriminate]].
  split; [apply messages_of_create_chat|].
  unfold ChatStore.create_chat. destruct (chat_commit sur); [discriminate|].
  cbn [fst]. intros chat H. injection H as <-. split; reflexivity.
Qed.

Lemma find_chat_found (sur : Surroundings) (d : Database) (chat_id : PyVal)
    (uid : string) (chat : ChatRow) :
  Views.find_chat sur d chat_id uid = Ret (Some chat) ->
  ChatStore.get_chat d (cr_id chat) uid = Some chat.
Proof.
  unfold Views.find_chat. destruct (truthy chat_id); [|discriminate].
  destruct (uuid_ctor sur chat_id) as [u|e].
  - intros H. injection H as H. pose proof H as H'.
    unfold ChatStore.get_chat in H'. apply find_some in H' as [_ H'].
    apply andb_true_iff in H' as [H' _]. apply String.eqb_eq in H'. now rewrite H'.
  - destruct (exc_class e =? "ValueError"); discriminate.
Qed.

Lemma messages_of_chat_body (sur : Surroundings) (d : Database) (uid : string)
    (data message : list (PyVal * PyVal)) (parts : PyVal) (cid : string) :
  ChatStore.get_chat d cid uid = None ->
  cid <> new_chat_id sur ->
  messages_of (snd (Views.chat_body sur d uid data message parts)) cid = messages_of d cid.
Proof.
  intros Hnone Hnew. unfold Views.chat_body.
  destruct (Views.find_chat sur d _ uid) as [found|e] eqn:F; [|reflexivity].
  assert (H1 : forall r d1,
             match found with
             | Some chat => (Ret chat, d)
             | None => Views.new_chat sur d uid data parts
                         (py_or (Views.dict_default data "model_id" (PStr "phi3:mini"))
                                (PStr "phi3:mini"))
             end = (r, d1) ->
             messages_of d1 cid = messages_of d cid
             /\ forall chat, r = Ret chat -> cid <> cr_id chat).
  { intros r d1 E. destruct found as [chat|].
    - injection E as <- <-. split; [reflexivity|].
      intros chat' H. injection H as <-. intros ->.
      apply find_chat_found in F. rewrite F in Hnone. discriminate Hnone.
    - pose proof (new_chat_result sur d uid data parts
                    (py_or (Views.dict_default data "model_id" (PStr "phi3:mini"))
                           (PStr "phi3:mini")) cid) as [Hm Hc].
      rewrite E in Hm, Hc. cbn [fst snd] in Hm, Hc. split; [exact Hm|].
      intros chat H. destruct (Hc chat H) as [Hid _]. now rewrite Hid. }
  destruct (match found with Some chat => _ | None => _ end) as [[chat|e] d1] eqn:E;
    destruct (H1 _ _ eq_refl) as [Hm Hc]; [|exact Hm].
  pose proof (messages_of_add_message (user_env sur) d1 (cr_id chat)
                (Views.column_text sur (Views.dict_default message "role" (PStr "user")))
                parts (Views.dict_default message "attachments" (PList [])) cid
                (Hc chat eq_refl)) as H2.
  destruct (ChatStore.add_message _ d1 _ _ _ _) as [[m|e] d2];
    cbn [snd] in *; now rewrite H2.
Qed.

Lemma new_chat_made (sur : Surroundings) (d : Database) (uid : string)
    (data : list (PyVal * PyVal)) (parts model : PyVal) (chat : ChatRow) (d1 : Database) :
  Views.new_chat sur d uid data parts model = (Ret chat, d1) ->
  cr_id chat = new_chat_id sur
  /\ cr_user_id chat = uid
  /\ chat_table d1 = (chat_table d ++ [chat])%list.
Proof.
  unfold Views.new_chat.
  destruct (bind (py_iter parts) _) as [title|e]; [|discriminate].
  unfold ChatStore.create_chat. destruct (chat_commit sur); [discriminate|].
  intros H. injection H as <- <-. repeat split.
Qed.

Lemma truthy_default (items : list (PyVal * PyVal)) (k : string) :
  truthy (Views.dict_default items k PNone) = true -> truthy (PDict items) = true.
Proof. destruct items; [discriminate | reflexivity]. Qed.

(** X23.  [create_or_continue_chat] writes into the user's own chats only.
    Whatever the request holds, the messages of a chat that [get_chat] does
    not find for the authenticated user (a chat of another user, or none)
    are the same after the view as before, committed or not.  And a request
    that names such a chat is served under a new chat: when its message has
    parts, the title is generated, and the two commits succeed, the view
    makes a chat of the user under the fresh identifier, stores the message
    there, and answers with the stream of that chat. *)
Theorem chat_view_writes_own_chats_only
    (sur : Surroundings) (req : Request) (d : Database) (uid cid : string) :
  Auth.authenticate sur req = Ret (inr uid) ->
  ChatStore.get_chat d cid uid = None ->
  cid <> new_chat_id sur ->
  messages_of (snd (Views.create_or_continue_chat sur req d)) cid = messages_of d cid
  /\ forall (items mitems : list (PyVal * PyVal)) (chat : ChatRow) (d1 : Database),
       req_json req = PDict items ->
       Views.dict_default items "message" PNone = PDict mitems ->
       truthy (Views.dict_default mitems "parts" PNone) = true ->
       truthy (Views.dict_default items "chat_id" PNone) = true ->
       uuid_ctor sur (Views.dict_default items "chat_id" PNone) = Ret cid ->
       Views.new_chat sur d uid items (Views.dict_default mitems "parts" PNone)
         (py_or (Views.dict_default items "model_id" (PStr "phi3:mini"))
                (PStr "phi3:mini")) = (Ret chat, d1) ->
       env_commit (user_env sur) = None ->
       cr_id chat = new_chat_id sur
       /\ cr_user_id chat = uid
       /\ chat_table d1 = (chat_table d ++ [chat])%list
       /\ exists tokens message d2,
            ChatStore.add_message (user_env sur) d1 (new_chat_id sur)
              (Views.column_text sur (Views.dict_default mitems "role" (PStr "user")))
              (Views.dict_default mitems "parts" PNone)
              (Views.dict_default mitems "attachments" (PList []))
            = (Ret message, d2)
            /\ Views.create_or_continue_chat sur req d =
               (Ret (EventStream "text/event-stream" Views.stream_headers
                       (stream_chat_response_sync (stream_env sur) (new_chat_id sur)
                                                  tokens)),
                d2).
Proof.
  intros A Hnone Hnew. split.
  - unfold Views.create_or_continue_chat. rewrite A.
    destruct (truthy (req_json req)); cbn [negb]; [|reflexivity].
    destruct (req_json req) as [| | | | | | | |items]; try reflexivity.
    destruct (truthy (Views.dict_default items "message" PNone)); cbn [negb];
      [|reflexivity].
    destruct (Views.dict_default items "message" PNone) as [| | | | | | | |mitems];
      try reflexivity.
    destruct (truthy (Views.dict_default mitems "parts" PNone)); cbn [negb];
      [|reflexivity].
    pose proof (messages_of_chat_body sur d uid items mitems
                  (Views.dict_default mitems "parts" PNone) cid Hnone Hnew) as H.
    destruct (Views.chat_body sur d uid items mitems _) as [[response|e] d'];
      cbn [snd] in *; exact H.
  - intros items mitems chat d1 Hj Hm Hp Hc Hu Hn He.
    destruct (new_chat_made _ _ _ _ _ _ _ _ Hn) as (I1 & I2 & I3).
    repeat (split; [assumption|]).
    unfold Views.create_or_continue_chat. rewrite A, Hj.
    assert (Tm : truthy (PDict mitems) = true) by exact (truthy_default _ _ Hp).
    assert (Ti : truthy (PDict items) = true).
    { apply (truthy_default items "message"). now rewrite Hm. }
    rewrite Ti. cbn [negb]. rewrite Hm, Tm. cbn [negb]. rewrite Hp. cbn [negb].
    unfold Views.chat_body, Views.find_chat. rewrite Hc, Hu, Hnone, Hn, I1.
    unfold ChatStore.add_message. rewrite He.
    eexists. eexists. eexists. split; reflexivity.
Qed.

Lemma chat_view_writes_own_chats_only_witness :
  let me := "11111111-1111-4111-8111-111111111111" in
  let owner := "22222222-2222-4222-8222-222222222222" in
  let theirs := "33333333-3333-4333-8333-333333333333" in
  let fresh := "44444444-4444-4444-8444-444444444444" in
  let d := mkDatabase [mkChatRow theirs owner "Theirs" (PStr "private") PNone 1 1] []
                      [mkMessage "row-0" theirs "user" (PList [text_part "secret"])
                                 (PList []) 50] false in
  let body := PDict [ (PStr "chat_id", PStr theirs);
                      (PStr "message",
                       PDict [ (PStr "role", PStr "user");
                               (PStr "parts", PList [text_part "Hi"]) ]) ] in
  let chat := mkChatRow fresh me "A title" (PStr "private") PNone 10 10 in
  messages_of (snd (Views.create_or_continue_chat uuid_surroundings
                      (header_request me body) d)) theirs
  = messages_of d theirs
  /\ exists tokens message d2,
       ChatStore.add_message scenario_env
         (mkDatabase (chat_table d ++ [chat]) [] (message_table d) false) fresh
         "user" (PList [text_part "Hi"]) (PList [])
       = (Ret message, d2)
       /\ Views.create_or_continue_chat uuid_surroundings (header_request me body) d =
          (Ret (EventStream "text/event-stream" Views.stream_headers
                  (stream_chat_response_sync scenario_env fresh tokens)),
           d2).
Proof.
  cbv zeta.
  destruct (chat_view_writes_own_chats_only uuid_surroundings
              (header_request "11111111-1111-4111-8111-111111111111"
                 (PDict [ (PStr "chat_id", PStr "33333333-3333-4333-8333-333333333333");
                          (PStr "message",
                           PDict [ (PStr "role", PStr "user");
                                   (PStr "parts", PList [text_part "Hi"]) ]) ]))
              (mkDatabase [mkChatRow "33333333-3333-4333-8333-333333333333"
                                     "22222222-2222-4222-8222-222222222222"
                                     "Theirs" (PStr "private") PNone 1 1] []
                          [mkMessage "row-0" "33333333-3333-4333-8333-333333333333" "user"
                                     (PList [text_part "secret"]) (PList []) 50] false)
              "11111111-1111-4111-8111-111111111111"
              "33333333-3333-4333-8333-333333333333"
              eq_refl eq_refl ltac:(discriminate)) as [H1 H2].
  split; [exact H1|].
  destruct (H2 [ (PStr "chat_id", PStr "33333333-3333-4333-8333-333333333333");
                 (PStr "message",
                  PDict [ (PStr "role", PStr "user");
                          (PStr "parts", PList [text_part "Hi"]) ]) ]
               [ (PStr "role", PStr "user"); (PStr "parts", PList [text_part "Hi"]) ]
               (mkChatRow "44444444-4444-4444-8444-444444444444"
                          "11111111-1111-4111-8111-111111111111"
                          "A title" (PStr "private") PNone 10 10)
               (mkDatabase
                  [ mkChatRow "33333333-3333-4333-8333-333333333333"
                              "22222222-2222-4222-8222-222222222222"
                              "Theirs" (PStr "private") PNone 1 1;
                    mkChatRow "44444444-4444-4444-8444-444444444444"
                              "11111111-1111-4111-8111-111111111111"
                              "A title" (PStr "private") PNone 10 10 ]
                  []
                  [mkMessage "row-0" "33333333-3333-4333-8333-333333333333" "user"
                             (PList [text_part "secret"]) (PList []) 50] false)
               eq_refl eq_refl eq_refl eq_refl eq_refl eq_refl eq_refl)
    as (_ & _ & _ & H3).
  exact H3.
Defined.

Lemma stream_chat_source_fresh (repr : PyVal -> string)
    (llm : string -> list string * option PyExc) (messages : list PyVal)
    (system_prompt : PyVal) :
  exists frags failure,
    LLMPrompt.stream_chat_source repr llm messages system_prompt
    = fresh_source frags failure.
Proof.
  unfold LLMPrompt.stream_chat_source.
  destruct (LLMPrompt.convert_messages_to_prompt repr messages system_prompt) as [p|e].
  - eexists. eexists. reflexivity.
  - eexists. eexists. reflexivity.
Qed.

(** The stream the [try] block answers with, and what it has stored. *)
Lemma chat_body_stream (sur : Surroundings) (d : Database) (uid : string)
    (data message : list (PyVal * PyVal)) (parts : PyVal)
    (mimetype : string) (headers : list (string * string)) (gen : Bridge) (d2 : Database) :
  Views.chat_body sur d uid data message parts
    = (Ret (EventStream mimetype headers gen), d2) ->
  exists cid frags failure user_message,
    gen = stream_chat_response_sync (stream_env sur) cid (fresh_source frags failure)
    /\ message_pending d2 = []
    /\ message_table d2 = (message_table d ++ message_pending d ++ [user_message])%list
    /\ msg_chat_id user_message = cid
    /\ msg_parts user_message = parts.
Proof.
  unfold Views.chat_body.
  destruct (Views.find_chat sur d _ uid) as [found|e]; [|discriminate].
  assert (H1 : forall r d1,
             match found with
             | Some chat => (Ret chat, d)
             | None => Views.new_chat sur d uid data parts
                         (py_or (Views.dict_default data "model_id" (PStr "phi3:mini"))
                                (PStr "phi3:mini"))
             end = (Ret r, d1) ->
             (message_table d1 ++ message_pending d1 = message_table d ++ message_pending d)%list).
  { intros r d1 E. destruct found as [chat|].
    - now injection E as <- <-.
    - unfold Views.new_chat in E.
      destruct (bind (py_iter parts) _) as [title|e]; [|discriminate E].
      unfold ChatStore.create_chat in E. destruct (chat_commit sur); [discriminate E|].
      injection E as <- <-. cbn [message_table message_pending]. apply app_nil_r. }
  destruct (match found with Some chat => _ | None => _ end) as [[chat|e] d1];
    [|discriminate].
  specialize (H1 chat d1 eq_refl).
  unfold ChatStore.add_message. destruct (env_commit (user_env sur)); [discriminate|].
  intros H. injection H as _ _ Hg Hd. subst gen d2.
  match goal with
  | |- context [LLMPrompt.stream_chat_source ?a ?b ?c ?e] =>
      destruct (stream_chat_source_fresh a b c e) as (frags & failure & T); rewrite T
  end.
  exists (cr_id chat), frags, failure.
  eexists. split; [reflexivity|]. cbn [message_pending message_table].
  split; [reflexivity|].
  split; [rewrite app_assoc, H1, <- app_assoc; reflexivity | split; reflexivity].
Qed.

Lemma rows_after_stream (env : Env) (cid text : string) (failure : option PyExc)
    (s : Session) :
  db_pending s = [] ->
  db_closed (db (world_at_end env cid text failure (mkWorld s []))) = true
  /\ db_rows (db (world_at_end env cid text failure (mkWorld s []))) =
     match failure, env_commit env with
     | None, None =>
         (db_rows s ++ [mkMessage (env_row_id env) cid "assistant" (text_parts text)
                                  (PList []) (env_created_at env)])%list
     | _, _ => db_rows s
     end.
Proof.
  intros Hp. unfold world_at_end, after_save, save_assistant_message,
    ChatService.add_message, ChatService.commit.
  destruct failure as [e|]; [split; reflexivity|].
  destruct (env_commit env) as [e|]; cbn [snd db close_db db_closed db_rows db_pending];
    [split; reflexivity|].
  rewrite Hp. split; reflexivity.
Qed.

(** X24.  When [create_or_continue_chat] answers with a stream, the message
    of the request is already committed, last in the table and under the
    chat of the stream, and nothing is left uncommitted.  Reading the
    stream to its end then closes the session and adds one row, the
    assistant's message with the whole text, when the generation and the
    commit succeed; when the generation fails or the commit raises, the
    rows stay as the view left them: the user's message is kept without an
    answer. *)
Theorem served_stream_end_to_end
    (sur : Surroundings) (req : Request) (d : Database)
    (mimetype : string) (headers : list (string * string)) (gen : Bridge) (d2 : Database) :
  Views.create_or_continue_chat sur req d = (Ret (EventStream mimetype headers gen), d2) ->
  exists cid frags failure user_message,
    gen = stream_chat_response_sync (stream_env sur) cid (fresh_source frags failure)
    /\ message_pending d2 = []
    /\ message_table d2 = (message_table d ++ message_pending d ++ [user_message])%list
    /\ msg_chat_id user_message = cid
    /\ let r := sync_collect (stream_env sur) (length frags + 3) gen
                  (mkWorld (session_of d2) []) in
       ending r = Completed
       /\ db_closed (db (final_world r)) = true
       /\ db_rows (db (final_world r)) =
          match failure, env_commit (stream_env sur) with
          | None, None =>
              (message_table d2 ++
               [mkMessage (env_row_id (stream_env sur)) cid "assistant"
                          (text_parts (String.concat "" frags)) (PList [])
                          (env_created_at (stream_env sur))])%list
          | _, _ => message_table d2
          end.
Proof.
  unfold Views.create_or_continue_chat.
  destruct (Auth.authenticate sur req) as [[response|uid]|e] eqn:A; [| |discriminate].
  { destruct (authenticate_refusal sur req response A) as [body ->]. discriminate. }
  destruct (truthy (req_json req)); cbn [negb]; [|discriminate].
  destruct (req_json req) as [| | | | | | | |items]; try discriminate.
  destruct (truthy (Views.dict_default items "message" PNone)); cbn [negb];
    [|discriminate].
  destruct (Views.dict_default items "message" PNone) as [| | | | | | | |mitems];
    try discriminate.
  destruct (truthy (Views.dict_default mitems "parts" PNone)); cbn [negb];
    [|discriminate].
  destruct (Views.chat_body sur d uid items mitems _) as [[response|e] d'] eqn:B;
    [|discriminate].
  intros H. injection H as -> ->.
  destruct (chat_body_stream _ _ _ _ _ _ _ _ _ _ B)
    as (cid & frags & failure & um & -> & Hp & Ht & Hc & _).
  exists cid, frags, failure, um. repeat (split; [assumption || reflexivity|]).
  cbv zeta.
  change (sync_collect (stream_env sur) (length frags + 3)
            (stream_chat_response_sync (stream_env sur) cid (fresh_source frags failure))
            (mkWorld (session_of d2) []))
    with (serve (stream_env sur) cid (fresh_source frags failure)
                (mkWorld (session_of d2) [])).
  rewrite serve_run. unfold ending, final_world. cbn [fst snd].
  split; [reflexivity|].
  exact (rows_after_stream (stream_env sur) cid (String.concat "" frags) failure
           (session_of d2) Hp).
Qed.

Lemma served_stream_end_to_end_witness :
  let me := "11111111-1111-4111-8111-111111111111" in
  let fresh := "44444444-4444-4444-8444-444444444444" in
  let d := mkDatabase [] [] [] false in
  let body := PDict [ (PStr "message",
                       PDict [ (PStr "role", PStr "user");
                               (PStr "parts", PList [text_part "Hi"]) ]) ] in
  let gen := stream_chat_response_sync scenario_env fresh (fresh_source ["Hel"; "lo"] None) in
  let d2 := mkDatabase [mkChatRow fresh me "A title" (PStr "private") PNone 10 101] []
                       [mkMessage "row-1" fresh "user" (PList [text_part "Hi"]) (PList []) 100]
                       false in
  exists cid frags failure user_message,
    gen = stream_chat_response_sync (stream_env uuid_surroundings) cid
            (fresh_source frags failure)
    /\ message_pending d2 = []
    /\ message_table d2 = (message_table d ++ message_pending d ++ [user_message])%list
    /\ msg_chat_id user_message = cid
    /\ let r := sync_collect (stream_env uuid_surroundings) (length frags + 3) gen
                  (mkWorld (session_of d2) []) in
       ending r = Completed
       /\ db_closed (db (final_world r)) = true
       /\ db_rows (db (final_world r)) =
          match failure, env_commit (stream_env uuid_surroundings) with
          | None, None =>
              (message_table d2 ++
               [mkMessage (env_row_id (stream_env uuid_surroundings)) cid "assistant"
                          (text_parts (String.concat "" frags)) (PList [])
                          (env_created_at (stream_env uuid_surroundings))])%list
          | _, _ => message_table d2
          end.
Proof.
  apply (served_stream_end_to_end uuid_surroundings
           (header_request "11111111-1111-4111-8111-111111111111"
              (PDict [ (PStr "message",
                        PDict [ (PStr "role", PStr "user");
                                (PStr "parts", PList [text_part "Hi"]) ]) ]))
           (mkDatabase [] [] [] false) "text/event-stream" Views.stream_headers).
  reflexivity.
Defined.

Lemma same_tables_refl (d : Database) : same_tables d d.
Proof. repeat split. Qed.

Lemma same_tables_close (d : Database) : same_tables d (close_database d).
Proof. repeat split. Qed.

(** X25.  The view [delete_chat] answers 200 only after deleting a chat
    that [get_chat] found for the authenticated user, and no user finds a
    chat under that identifier afterwards.  Every other answer, and every
    exception, leaves the tables as they were.  Once the view has opened
    its session it closes it, whatever the outcome. *)
Theorem delete_view_outcomes (sur : Surroundings) (req : Request) (d : Database) :
  match Views.delete_chat sur req d with
  | (Ret (Json status body), d') =>
      (status = 200
       /\ handle_closed d' = true
       /\ exists uid cid chat,
            Auth.authenticate sur req = Ret (inr uid)
            /\ ChatStore.get_chat d cid uid = Some chat
            /\ forall u, ChatStore.get_chat d' cid u = None)
      \/ (status <> 200 /\ same_tables d d' /\ (d' = d \/ handle_closed d' = true))
  | (Ret (EventStream _ _ _), _) => False
  | (Raise _, d') => same_tables d d' /\ (d' = d \/ handle_closed d' = true)
  end.
Proof.
  unfold Views.delete_chat.
  destruct (Auth.authenticate sur req) as [[response|uid]|e] eqn:A.
  - destruct (authenticate_refusal sur req response A) as [body ->].
    right. split; [discriminate|]. split; [apply same_tables_refl | now left].
  - destruct (req_arg req "id") as [chat_id|];
      [|right; split; [discriminate|]; split; [apply same_tables_refl | now left]].
    destruct (chat_id =? "");
      [right; split; [discriminate|]; split; [apply same_tables_refl | now left]|].
    destruct (uuid_ctor sur (PStr chat_id)) as [u|e].
    + unfold ChatStore.delete_chat.
      destruct (ChatStore.get_chat d u uid) as [chat|] eqn:G.
      * destruct (chat_commit sur) as [e|].
        -- destruct (exc_class e =? "ValueError").
           ++ right. split; [discriminate|]. split; [apply same_tables_close | now right].
           ++ split; [apply same_tables_close | now right].
        -- left. split; [reflexivity|]. split; [reflexivity|].
           exists uid, u, chat. split; [reflexivity|]. split; [exact G|].
           intros u'. unfold ChatStore.get_chat. cbn [close_database chat_table].
           pose proof G as G'. unfold ChatStore.get_chat in G'.
           apply find_some in G' as [_ G']. apply andb_true_iff in G' as [G' _].
           apply String.eqb_eq in G'. rewrite G'.
           apply find_filter_none. intros x Hx. apply andb_true_iff in Hx as [Hx _].
           now rewrite Hx.
      * right. split; [discriminate|]. split; [apply same_tables_close | now right].
    + destruct (exc_class e =? "ValueError").
      * right. split; [discriminate|]. split; [apply same_tables_close | now right].
      * split; [apply same_tables_close | now right].
  - split; [apply same_tables_refl | now left].
Qed.

(** X26.  The views [get_chat_messages] and [get_user_history] only read:
    whatever they answer, the tables are as before.  An answer 200 of
    [get_chat_messages] lists, for a chat that [get_chat] finds for the
    authenticated user, the messages [get_messages] gives for it, at most
    100 and all of that chat; an answer 200 of [get_user_history] lists the
    chats [get_user_chats] gives for the authenticated user, at most 50 and
    all of that user. *)
Theorem reading_views_outcomes
    (sur : Surroundings) (req : Request) (chat_id : string) (d : Database) :
  same_tables d (snd (Views.get_chat_messages sur req chat_id d))
  /\ same_tables d (snd (Views.get_user_history sur req d))
  /\ match fst (Views.get_chat_messages sur req chat_id d) with
     | Ret (Json status body) =>
         status = 200 ->
         exists uid cid chat messages,
           Auth.authenticate sur req = Ret (inr uid)
           /\ uuid_ctor sur (PStr chat_id) = Ret cid
           /\ ChatStore.get_chat d cid uid = Some chat
           /\ body = PDict [ (PStr "messages",
                              PList (map (Views.message_to_dict sur) messages)) ]
           /\ length messages <= 100
           /\ Forall (fun m => msg_chat_id m = cid /\ In m (message_table d)) messages
     | _ => True
     end
  /\ match fst (Views.get_user_history sur req d) with
     | Ret (Json status body) =>
         status = 200 ->
         exists uid chats,
           Auth.authenticate sur req = Ret (inr uid)
           /\ body = PDict [ (PStr "chats", PList (map (Views.chat_to_dict sur) chats)) ]
           /\ length chats <= 50
           /\ Forall (fun c => cr_user_id c = uid /\ In c (chat_table d)) chats
     | _ => True
     end.
Proof.
  unfold Views.get_chat_messages, Views.get_user_history.
  destruct (Auth.authenticate sur req) as [[response|uid]|e] eqn:A.
  - destruct (authenticate_refusal sur req response A) as [body ->].
    cbn [fst snd]. repeat split; discriminate.
  - split; [|split; [apply same_tables_close|]].
    + destruct (uuid_ctor sur (PStr chat_id)) as [u|e].
      * destruct (ChatStore.get_chat d u uid); apply same_tables_close.
      * destruct (exc_class e =? "ValueError"); apply same_tables_close.
    + split.
      * destruct (uuid_ctor sur (PStr chat_id)) as [u|e].
        -- destruct (ChatStore.get_chat d u uid) as [chat|] eqn:G; cbn [fst].
           ++ intros _. exists uid, u, chat, (ChatStore.get_messages d u 100).
              destruct (get_messages_sorted_and_bounded_parts d u 100) as [Hl Hf].
              repeat split; assumption.
           ++ discriminate.
        -- destruct (exc_class e =? "ValueError"); cbn [fst]; [discriminate | exact I].
      * cbn [fst]. intros _. exists uid, (ChatStore.get_user_chats d uid 50).
        destruct (user_chats_bounded_parts d uid 50) as [Hl Hf].
        repeat split; assumption.
  - cbn [fst snd]. repeat split.
Qed.

(** X27.  When the conversion of the history to a prompt raises (a stored
    message whose parts are no list of parts), the model is not reached:
    whatever it would stream, the chat stream is the message-start event
    followed by the error event with the description of that exception,
    it ends normally and the sink is not called. *)
Theorem malformed_history_ends_in_error
    (repr : PyVal -> string) (llm : string -> list string * option PyExc)
    (env : Env) (cid : string) (messages : list PyVal) (system_prompt : PyVal)
    (w : World) (e : PyExc) :
  LLMPrompt.convert_messages_to_prompt repr messages system_prompt = Raise e ->
  let r := serve env cid (LLMPrompt.stream_chat_source repr llm messages system_prompt) w in
  units r = [start_unit (env_message_id env) cid; error_unit (exc_str e)]
  /\ ending r = Completed
  /\ sink_calls (final_world r) = sink_calls w
  /\ db_closed (db (final_world r)) = true.
Proof.
  intros H. cbv zeta. unfold LLMPrompt.stream_chat_source. rewrite H.
  rewrite serve_run. unfold units, ending, final_world. cbn [fst snd].
  repeat split.
Qed.

Lemma malformed_history_ends_in_error_witness :
  let messages := [history_message "user" (PStr "hi") (PList [])] in
  let e := AttributeError (PStr "h") "get" in
  let r := serve scenario_env "c-1"
             (LLMPrompt.stream_chat_source (fun _ => "?") (fun _ => (["Hello"], None))
                messages PNone) scenario_world in
  units r = [start_unit (env_message_id scenario_env) "c-1"; error_unit (exc_str e)]
  /\ ending r = Completed
  /\ sink_calls (final_world r) = sink_calls scenario_world
  /\ db_closed (db (final_world r)) = true.
Proof.
  apply (malformed_history_ends_in_error (fun _ => "?") (fun _ => (["Hello"], None))
           scenario_env "c-1" [history_message "user" (PStr "hi") (PList [])] PNone
           scenario_world (AttributeError (PStr "h") "get")).
  reflexivity.
Defined.

(** ** Partial reading *)

Lemma first_pull (env : Env) (cid : string) (tokens : Source) (w : World) (m : nat) :
  async_collect env (S m) (stream_chat_response env cid tokens) w =
  (start_unit (env_message_id env) cid
     :: units (async_collect env m
                 (mkCoord C_YieldStart cid (env_message_id env) tokens "") w),
   ending (async_collect env m (mkCoord C_YieldStart cid (env_message_id env) tokens "") w),
   final_gen (async_collect env m (mkCoord C_YieldStart cid (env_message_id env) tokens "") w),
   final_world (async_collect env m
                  (mkCoord C_YieldStart cid (env_message_id env) tokens "") w)).
Proof.
  unfold async_collect, stream_chat_response. cbn [collect anext c_pc].
  cbn [c_message_id c_chat_id]. rewrite emit_start. unfold at_pc.
  cbn [c_chat_id c_message_id c_tokens c_full_response].
  destruct (collect (anext env) m _ w) as [[[cs e] g] w']. reflexivity.
Qed.

(** A request whose client reads every unit and goes away before the
    generator has ended. *)
Lemma serve_abandoned_terminal (env : Env) (cid : string) (frags : list string)
    (failure : option PyExc) (w : World) :
  serve_abandoned env cid (fresh_source frags failure) w (length frags + 2) =
  ((start_unit (env_message_id env) cid :: map delta_unit frags
      ++ [terminal_unit env failure])%list,
   Pending,
   mkBridge B_Closed LoopClosed
     (mkCoord C_Closed cid (env_message_id env) (mkSource [] failure true)
              (String.concat "" frags)),
   world_at_end env cid (String.concat "" frags) failure w).
Proof.
  unfold serve_abandoned, stream_chat_response_sync.
  replace (length frags + 2) with (S (length frags + 1)) by lia.
  rewrite bridge_collect, first_pull.
  rewrite (loop_collect_terminal env cid failure frags C_YieldStart "" w
             (or_introl eq_refl)).
  unfold units, ending, final_gen, final_world.
  cbn [fst snd lift_run bridge_close b_pc b_async_gen]. rewrite fold_append.
  unfold terminal_pc, world_at_end, world_at_terminal.
  destruct failure as [e|]; [reflexivity|].
  destruct (env_commit env); reflexivity.
Qed.

(** A request read to its end: closing the generator then changes nothing. *)
Lemma serve_abandoned_done (env : Env) (cid : string) (frags : list string)
    (failure : option PyExc) (w : World) (k : nat) :
  length frags + 3 <= k ->
  serve_abandoned env cid (fresh_source frags failure) w k =
  serve env cid (fresh_source frags failure) w.
Proof.
  intros Hk. rewrite serve_run. unfold serve_abandoned, stream_chat_response_sync.
  destruct k as [|k]; [lia|].
  rewrite bridge_collect. rewrite coordinator_run by lia. reflexivity.
Qed.

(** X28.  A client that pulls [k] times and goes away has read the first
    [k] units of the stream it would have read to the end, whatever [k] is.
    Closing the generator leaves it closed, and closing it again changes
    nothing.  If nothing was pulled, nothing has run: no event loop was
    made and the world is as it was, the session still open.  After one
    pull or more the event loop is closed and so is the session: when the
    terminal unit was not among the units read, that is all that changed,
    and the answer read so far is not stored; when it was, the world is the
    one the full run ends in, with the answer stored if the source and the
    commit did not fail. *)
Theorem abandoned_stream_is_a_prefix
    (env : Env) (cid : string) (frags : list string) (failure : option PyExc)
    (w : World) (k : nat) :
  let full := serve env cid (fresh_source frags failure) w in
  let a := serve_abandoned env cid (fresh_source frags failure) w k in
  units a = firstn k (units full)
  /\ ending a = (if (k <=? length frags + 2)%nat then Pending else Completed)
  /\ b_pc (final_gen a) = B_Closed
  /\ bridge_close (final_gen a) (final_world a) = (final_gen a, final_world a)
  /\ b_loop (final_gen a) = (if (k =? 0)%nat then NoLoop else LoopClosed)
  /\ final_world a =
     (if (k =? 0)%nat then w
      else if (k <=? length frags + 1)%nat then close_db w
      else final_world full).
Proof.
  cbv zeta.
  destruct k as [|k]; [rewrite serve_run; repeat split|].
  cbn [Nat.eqb].
  destruct (Nat.le_gt_cases k (length frags)) as [Hk|Hk].
  - rewrite serve_abandoned_run by exact Hk. rewrite serve_run.
    unfold units, ending, final_world, final_gen. cbn [fst snd].
    replace (S k <=? length frags + 2)%nat with true by (symmetry; apply Nat.leb_le; lia).
    replace (S k <=? length frags + 1)%nat with true by (symmetry; apply Nat.leb_le; lia).
    split; [|repeat split].
    cbn [firstn]. f_equal. rewrite firstn_app, length_map.
    replace (k - length frags) with 0 by lia.
    cbn [firstn]. rewrite app_nil_r. symmetry. apply firstn_map.
  - replace (S k <=? length frags + 1)%nat with false by (symmetry; apply Nat.leb_gt; lia).
    destruct (Nat.eq_dec (S k) (length frags + 2)) as [E|E].
    + rewrite E, serve_abandoned_terminal, serve_run.
      unfold units, ending, final_world, final_gen. cbn [fst snd].
      rewrite Nat.leb_refl. split; [|repeat split].
      symmetry. apply firstn_all2. cbn [length]. rewrite length_app, length_map.
      simpl. lia.
    + rewrite serve_abandoned_done by lia. rewrite serve_run.
      unfold units, ending, final_world, final_gen. cbn [fst snd].
      replace (S k <=? length frags + 2)%nat with false by (symmetry; apply Nat.leb_gt; lia).
      split; [|repeat split].
      symmetry. apply firstn_all2. cbn [length]. rewrite length_app, length_map.
      simpl. lia.
Qed.

(** X29.  However many times the bridge is pulled, before the end of the
    stream, up to it or beyond it, the persistence sink has been called at
    most once, and then with the whole text, the role ["assistant"] and no
    attachment. *)
Theorem sink_called_at_most_once
    (env : Env) (cid : string) (frags : list string) (failure : option PyExc)
    (w : World) (n : nat) :
  let r := sync_collect env n
             (stream_chat_response_sync env cid (fresh_source frags failure)) w in
  sink_calls (final_world r) = sink_calls w
  \/ sink_calls (final_world r) =
     (sink_calls w ++
      [mkSinkCall cid "assistant" (text_parts (String.concat "" frags)) (PList [])])%list.
Proof.
  cbv zeta. unfold stream_chat_response_sync. destruct n as [|m]; [now left|].
  rewrite bridge_collect, lift_run_world, first_pull.
  unfold final_world at 1. cbn [snd].
  destruct (Nat.le_gt_cases m (length frags)) as [Hm|Hm].
  - rewrite (loop_collect_prefix env cid failure frags C_YieldStart "" w m
               (or_introl eq_refl) Hm).
    now left.
  - destruct (Nat.eq_dec m (length frags + 1)) as [->|Hne].
    + rewrite (loop_collect_terminal env cid failure frags C_YieldStart "" w
                 (or_introl eq_refl)).
      unfold final_world. cbn [snd]. unfold world_at_terminal.
      destruct failure; [now left|]. right. now rewrite save_calls, fold_append.
    + rewrite (loop_collect env cid failure frags C_YieldStart "" w m
                 (or_introl eq_refl)) by lia.
      unfold final_world. cbn [snd]. unfold world_at_end.
      destruct failure; [now left|]. right. cbn [close_db sink_calls].
      now rewrite save_calls, fold_append.
Qed.
